(** * GNIRS pipeline orchestration: a shallow embedding and its properties

    The Python modules of the pipeline ([gnirsCheckData], [gnirsBaselineCalibration],
    [gnirsExtractSpectra1D], [flux_calibrate], [write_pdf]) are translated function
    by function.  Python exceptions become the [Raise] results of a small
    state-and-exception monad; files, FITS headers and the log are explicit state;
    calls into IRAF, astropy, numpy and the absent helper modules ([utils],
    [obslog], [gnirsHeaders], [log]) are parameters of the section that uses them.
    Python floats are IEEE binary64 numbers, i.e. Rocq's primitive floats. *)

From Stdlib Require Import ZArith List Bool Lia Permutation Ascii String.
From Stdlib Require Import Floats.PrimFloat Numbers.Cyclic.Int63.Uint63.
From stdpp Require Import gmap strings list pretty.

Local Open Scope string_scope.

(* Decimal constants of the source are read as the nearest binary64 number,
   as Python reads them. *)
Set Warnings "-inexact-float".

(** ** The Python run-time, as far as the pipeline uses it *)

Module Py.

(** The exceptions the modelled code can raise. *)
Inductive exn : Type :=
| NameError (name : string)
| UnboundLocalError (name : string)
| KeyError (key : string)
| IndexError
| ValueError
| TypeError
| AttributeError
| ZeroDivisionError
| OverflowError
| IOError (path : string)
| OSError (path : string)
| EOFError
| SystemExit (message : string).

Inductive result (A : Type) : Type :=
| Ok (a : A)
| Raise (e : exn).
Arguments Ok {A} a.
Arguments Raise {A} e.

Definition is_ok {A} (r : result A) : bool :=
  match r with Ok _ => true | Raise _ => false end.

(** A computation threads the state [S]; the state reached when an exception
    is raised is kept, because files already written stay written. *)
Definition M (S A : Type) : Type := S -> result A * S.

Definition ret {S A} (a : A) : M S A := fun s => (Ok a, s).
Definition raise {S A} (e : exn) : M S A := fun s => (Raise e, s).
Definition bind {S A B} (m : M S A) (k : A -> M S B) : M S B :=
  fun s => match m s with
           | (Ok a, s') => k a s'
           | (Raise e, s') => (Raise e, s')
           end.
Definition get {S} : M S S := fun s => (Ok s, s).
Definition modify {S} (f : S -> S) : M S unit := fun s => (Ok tt, f s).
Definition lift {S A} (r : result A) : M S A := fun s => (r, s).

(** [for x in l: body x] *)
Fixpoint for_each {S A} (l : list A) (body : A -> M S unit) : M S unit :=
  match l with
  | [] => ret tt
  | x :: l' => bind (body x) (fun _ => for_each l' body)
  end.

(** Log records: the level and the message template of the call. *)
Inductive level : Type := DEBUG | INFO | WARNING | ERROR.

Definition record : Type := level * string.

(** Truth value of a string in a condition: only the empty string is false. *)
Definition truthy (s : string) : bool :=
  match s with EmptyString => false | String _ _ => true end.

(** The integer [n] as a float, exact below 2^53. *)
Definition float_of_Z (n : Z) : float :=
  if (n <? 0)%Z then PrimFloat.opp (PrimFloat.of_uint63 (Uint63.of_Z (- n)))
  else PrimFloat.of_uint63 (Uint63.of_Z n).

(** [s.strip()] *)
Fixpoint lstrip (s : string) : string :=
  match s with
  | String c s' => if Ascii.is_space c then lstrip s' else s
  | EmptyString => EmptyString
  end.

Definition strip (s : string) : string :=
  String.rev (lstrip (String.rev (lstrip s))).

(** [sub in s] *)
Fixpoint contains (sub s : string) : bool :=
  String.prefix sub s
  || match s with
     | String _ s' => contains sub s'
     | EmptyString => false
     end.

(** [int(s)] for a string: blanks around an optional sign and decimal digits;
    anything else is a ValueError. *)
Fixpoint digits (acc : Z) (s : string) : option Z :=
  match s with
  | EmptyString => Some acc
  | String c s' =>
      match Ascii.is_nat c with
      | Some d => digits (10 * acc + Z.of_nat d)%Z s'
      | None => None
      end
  end.

Definition unsigned (s : string) : option Z :=
  match s with
  | EmptyString => None
  | String _ _ => digits 0%Z s
  end.

Definition int (s : string) : result Z :=
  match strip s with
  | String "-"%char s' =>
      match unsigned s' with Some n => Ok (- n)%Z | None => Raise ValueError end
  | String "+"%char s' =>
      match unsigned s' with Some n => Ok n | None => Raise ValueError end
  | s' =>
      match unsigned s' with Some n => Ok n | None => Raise ValueError end
  end.

(** [float(s)] for a plain decimal string: blanks around an optional sign,
    digits and at most one point.  The quotient of two floats that hold the
    digits and the power of ten exactly is the correctly rounded value, which is
    what Python returns, as long as there are at most 15 digits. *)
Fixpoint split_point (s : string) : string * option string :=
  match s with
  | EmptyString => (EmptyString, None)
  | String c s' =>
      if Ascii.eqb c "."%char then (EmptyString, Some s')
      else let '(a, b) := split_point s' in (String c a, b)
  end.

Definition decimal (s : string) : option float :=
  let '(whole, frac) := split_point s in
  let frac := default EmptyString frac in
  match unsigned (whole +:+ frac) with
  | Some m =>
      if (15 <? String.length (whole +:+ frac))%nat then None
      else Some (PrimFloat.div (float_of_Z m)
                   (float_of_Z (10 ^ Z.of_nat (String.length frac))))
  | None => None
  end.

Definition float_of_string (s : string) : result float :=
  match strip s with
  | String "-"%char s' =>
      match decimal s' with Some x => Ok (PrimFloat.opp x) | None => Raise ValueError end
  | String "+"%char s' =>
      match decimal s' with Some x => Ok x | None => Raise ValueError end
  | s' =>
      match decimal s' with Some x => Ok x | None => Raise ValueError end
  end.

(** [a / b] on floats *)
Definition float_div (a b : float) : result float :=
  if PrimFloat.eqb b 0%float then Raise ZeroDivisionError else Ok (PrimFloat.div a b).

(** A loop that carries a value from one round to the next. *)
Fixpoint fold_m {S A B} (body : B -> A -> M S B) (l : list A) (b : B) : M S B :=
  match l with
  | [] => ret b
  | x :: l' => bind (body b x) (fun b' => fold_m body l' b')
  end.

(** [os.path.basename(p)]: what follows the last slash. *)
Fixpoint basename (p : string) : string :=
  match p with
  | EmptyString => EmptyString
  | String c p' =>
      if contains "/" p then basename p' else p
  end.

(** [filename.replace('.fits', '')], as the modules' [nofits] does: [skip]
    counts the characters of an occurrence still to be dropped. *)
Fixpoint remove_fits (skip : nat) (s : string) : string :=
  match s with
  | EmptyString => EmptyString
  | String c s' =>
      match skip with
      | S k => remove_fits k s'
      | O => if String.prefix ".fits" s then remove_fits 4 s' else String c (remove_fits 0 s')
      end
  end.

Definition nofits (filename : string) : string := remove_fits 0 filename.

(** [s[:s.rfind('_')+1]]: up to the last underscore, nothing without one. *)
Fixpoint upto_last_underscore (s : string) : string :=
  match s with
  | EmptyString => EmptyString
  | String c s' => if contains "_" s then String c (upto_last_underscore s') else EmptyString
  end.

(** [try: body  except: handler] *)
Definition try_except {S A} (body handler : M S A) : M S A :=
  fun s => match body s with
           | (Ok a, s') => (Ok a, s')
           | (Raise _, s') => handler s'
           end.

(** [s.split(sep)] for a separator of one character *)
Fixpoint split_on (sep : ascii) (s : string) : list string :=
  match s with
  | EmptyString => [EmptyString]
  | String c s' =>
      if Ascii.eqb c sep then EmptyString :: split_on sep s'
      else match split_on sep s' with
           | [] => [String c EmptyString]
           | w :: ws => String c w :: ws
           end
  end.

(** [s.lower()] *)
Definition lower_char (c : ascii) : ascii :=
  let n := nat_of_ascii c in
  if ((65 <=? n) && (n <=? 90))%nat then ascii_of_nat (n + 32) else c.

Fixpoint lower (s : string) : string :=
  match s with
  | EmptyString => EmptyString
  | String c s' => String (lower_char c) (lower s')
  end.

(** [re.sub('[^a-zA-Z0-9]', '', s)] *)
Definition alphanumeric (c : ascii) : bool :=
  let n := nat_of_ascii c in
  ((48 <=? n) && (n <=? 57) || (65 <=? n) && (n <=? 90) || (97 <=? n) && (n <=? 122))%nat.

Fixpoint keep_alphanumeric (s : string) : string :=
  match s with
  | EmptyString => EmptyString
  | String c s' =>
      if alphanumeric c then String c (keep_alphanumeric s') else keep_alphanumeric s'
  end.

(** [RawConfigParser.getboolean] on the text of an option *)
Definition getboolean (v : string) : result bool :=
  let v := lower v in
  if bool_decide (v ∈ ["1"; "yes"; "true"; "on"]) then Ok true
  else if bool_decide (v ∈ ["0"; "no"; "false"; "off"]) then Ok false
  else Raise ValueError.

(** Reading a global name: [NameError] unless the name is bound in the module's
    global namespace (or is a builtin).  [bound] lists the bound names; [v] is
    the value the name holds when it is bound. *)
Definition read_global {S A} (bound : list string) (name : string) (v : A) : M S A :=
  if bool_decide (name ∈ bound) then ret v else raise (NameError name).

(** The builtins the modelled functions call. *)
Definition builtins : list string :=
  ["abs"; "float"; "int"; "len"; "range"; "open"; "str"; "raw_input"; "isinstance";
   "next"; "iter"; "list"; "set"; "min"; "True"; "False"; "None"; "SystemExit"].

(** Sequencing on results. *)
Definition and_then {A B} (r : result A) (k : A -> result B) : result B :=
  match r with
  | Ok a => k a
  | Raise e => Raise e
  end.

(** The value of a result, or [d] for an exception. *)
Definition ok_or {A} (d : A) (r : result A) : A :=
  match r with
  | Ok a => a
  | Raise _ => d
  end.

(** [l[i]] *)
Definition nth_item {A} (l : list A) (i : nat) : result A :=
  match l !! i with
  | Some x => Ok x
  | None => Raise IndexError
  end.

(** [c in s] for a character, and [s.replace(a, b)] for characters *)
Fixpoint has_char (c : ascii) (s : string) : bool :=
  match s with
  | EmptyString => false
  | String d s' => Ascii.eqb d c || has_char c s'
  end.

Fixpoint replace_char (a b : ascii) (s : string) : string :=
  match s with
  | EmptyString => EmptyString
  | String c s' => String (if Ascii.eqb c a then b else c) (replace_char a b s')
  end.

(** [s.split()]: the words between runs of blanks.  [words_from s] is the
    word that starts [s] (empty when [s] starts with a blank) and the words
    after it. *)
Fixpoint words_from (s : string) : string * list string :=
  match s with
  | EmptyString => (EmptyString, [])
  | String c s' =>
      let '(w, ws) := words_from s' in
      if Ascii.is_space c then (EmptyString, if truthy w then w :: ws else ws)
      else (String c w, ws)
  end.

Definition words (s : string) : list string :=
  let '(w, ws) := words_from s in if truthy w then w :: ws else ws.

(** A stand-in for [fnmatch] in the examples: [*] matches any characters,
    every other character itself. *)
Fixpoint star_match (pattern : string) : string -> bool :=
  match pattern with
  | EmptyString => fun name => match name with EmptyString => true | _ => false end
  | String p pattern' =>
      if Ascii.eqb p "*" then
        fix any (name : string) : bool :=
          star_match pattern' name
          || match name with
             | EmptyString => false
             | String _ name' => any name'
             end
      else
        fun name =>
          match name with
          | String c name' => Ascii.eqb p c && star_match pattern' name'
          | EmptyString => false
          end
  end.

End Py.

Import Py.

Declare Scope py_scope.
Delimit Scope py_scope with py.
Notation "x <- c1 ;; c2" := (Py.bind c1 (fun x => c2))
  (at level 100, c1 at next level, right associativity) : py_scope.
Notation "c1 ;;; c2" := (Py.bind c1 (fun _ => c2))
  (at level 100, right associativity) : py_scope.
Local Open Scope py_scope.

(** ** gnirsCheckData.py: consistency of a manifest *)

Module CheckData.

(** The header fields [checklist] reads from [headerdict[f]]. *)
Record header : Type := Header {
  CONFIG : string;
  COORDS : string;
  EXPTIME : float;
  OBJECT : string;
  OBSTYPE : string }.

(** A text file is the list of its lines; the manifest with lines [l1 .. ln]
    holds the text [l1\n..ln\n]. *)
Record state : Type := State {
  fs : gmap string (list string);
  log : list record }.

Definition logger (lvl : level) (msg : string) : M state unit :=
  modify (fun s => State (fs s) (log s ++ [(lvl, msg)])%list).

Definition exists_file (p : string) : M state bool :=
  s <- get ;; ret (bool_decide (is_Some (fs s !! p))).

(** [f.read().strip().split('\n')]: the lines; the empty text splits into one
    empty name. *)
Definition read_names (p : string) : M state (list string) :=
  s <- get ;;
  match fs s !! p with
  | None => raise (IOError p)
  | Some [] => ret [""]
  | Some ls => ret ls
  end.

(** [shutil.copy2(src, dst)] *)
Definition copy2 (src dst : string) : M state unit :=
  s <- get ;;
  match fs s !! src with
  | None => raise (IOError src)
  | Some ls => modify (fun s => State (<[dst := ls]> (fs s)) (log s))
  end.

(** [open(p, "w")] truncates; [fout.write(f + '\n')] appends a line. *)
Definition open_w (p : string) : M state unit :=
  modify (fun s => State (<[p := []]> (fs s)) (log s)).

Definition write_line (p f : string) : M state unit :=
  modify (fun s => State (<[p := (default [] (fs s !! p) ++ [f])%list]> (fs s)) (log s)).

(** [len(list(set(l)))] *)
Fixpoint distinct_floats (l : list float) : list float :=
  match l with
  | [] => []
  | x :: l' => x :: filter (fun y => negb (PrimFloat.eqb y x)) (distinct_floats l')
  end.

(** [collections.Counter(exptimes)]: one [(value, count)] item per distinct
    value. *)
Fixpoint counter_add (x : float) (c : list (float * nat)) : list (float * nat) :=
  match c with
  | [] => [(x, 1%nat)]
  | (k, n) :: c' =>
      if PrimFloat.eqb k x then (k, S n) :: c' else (k, n) :: counter_add x c'
  end.

Definition Counter (l : list float) : list (float * nat) :=
  fold_left (fun c x => counter_add x c) l [].

(** [freq.most_common(1)[0]]: the first item, in the dictionary's iteration
    order, whose count is maximal. *)
Fixpoint first_max (best : float * nat) (items : list (float * nat)) : float * nat :=
  match items with
  | [] => best
  | it :: items' =>
      if (snd best <? snd it)%nat then first_max it items' else first_max best items'
  end.

Definition most_common1 (items : list (float * nat)) : result (float * nat) :=
  match items with
  | [] => Raise IndexError
  | it :: items' => Ok (first_max it items')
  end.

(** [freq.values().count(val)]: how many of the counts equal [val]. *)
Definition values_count (items : list (float * nat)) (val : float) : nat :=
  length (filter (fun n => PrimFloat.eqb (float_of_Z (Z.of_nat n)) val) (map snd items)).

Definition lookup_header (headerdict : gmap string header) (f : string) : M state header :=
  match headerdict !! f with
  | Some h => ret h
  | None => raise (KeyError f)
  end.

Definition check_same (n : nat) (same different : string) : M state unit :=
  if (n =? 1)%nat then logger DEBUG same else logger ERROR different.

Section Checklist.

(** The iteration order of a Python 2 dictionary is fixed by the hashes of
    its keys: [dict_order] puts the items of the counter in that order. *)
Variable dict_order : list (float * nat) -> list (float * nat).

Definition checklist (filelist path : string) (headerdict : gmap string header)
  : M state unit :=
  logger DEBUG "Checking %s/%s" ;;;
  found <- exists_file (path +:+ "/" +:+ filelist) ;;
  if negb found then logger ERROR "Could not find %s"
  else
    logger INFO "Found %s" ;;;
    files <- read_names (path +:+ "/" +:+ filelist) ;;
    logger DEBUG "files: %s" ;;;
    for_each files (fun f =>
      if bool_decide (is_Some (headerdict !! f)) then ret tt
      else logger ERROR "%s is in %s but can not be found") ;;;
    let known := omap (fun f => headerdict !! f) files in
    let configs := map CONFIG known in
    let coords := map COORDS known in
    let exptimes := map EXPTIME known in
    let objects := map OBJECT known in
    let obstypes := map OBSTYPE known in
    (* [f] still names the last file of the list here *)
    h <- lookup_header headerdict (List.last files "") ;;
    let minfiles := if String.eqb (OBSTYPE h) "OBJECT" then 2%nat else 1%nat in
    logger DEBUG "Minimum number of files: %d" ;;;
    (if (length files <? minfiles)%nat then logger ERROR "%s only has %d files"
     else ret tt) ;;;
    check_same (length (remove_dups configs))
      "Configs match" "Multiple configurations: %s" ;;;
    check_same (length (remove_dups coords))
      "Coordinates match" "Multiple coordinates: %s" ;;;
    check_same (length (remove_dups objects))
      "Target names match" "Multiple target names: %s" ;;;
    check_same (length (remove_dups obstypes))
      "Observation types match" "Multiple observation types: %s" ;;;
    if (length (distinct_floats exptimes) =? 1)%nat then
      logger DEBUG "Exposure times match"
    else
      logger WARNING "Multiple exposure times: %s" ;;;
      let freq := dict_order (Counter exptimes) in
      logger DEBUG "Exposure time %s" ;;;
      vn <- lift (most_common1 freq) ;;
      let val := fst vn in
      let num := snd vn in
      logger INFO "The most common exposure time is %.2f sec" ;;;
      let npeak := values_count freq val in
      (if (1 <? npeak)%nat then
         logger ERROR "But the most common value occurs %n times." ;;;
         logger ERROR "You will need to fix this." ;;;
         raise (SystemExit "")
       else ret tt) ;;;
      let backup := filelist +:+ ".bak" in
      logger INFO "Backing up %s to %s" ;;;
      copy2 (path +:+ "/" +:+ filelist) (path +:+ "/" +:+ backup) ;;;
      logger WARNING "Updating %s to only include files with EXPTIME = %s" ;;;
      open_w (path +:+ "/" +:+ filelist) ;;;
      for_each files (fun f =>
        hf <- lookup_header headerdict f ;;
        if PrimFloat.eqb (EXPTIME hf) val
        then write_line (path +:+ "/" +:+ filelist) f
        else ret tt) ;;;
      if (num <? minfiles)%nat then logger ERROR "%s only has %d files" else ret tt.

End Checklist.

(** A manifest of [n] frames named [N1.fits .. Nn.fits] whose exposure times
    are the given list. *)
Definition frame (t : float) : header := Header "SXD" "12:00:00 +30:00:00" t "HIP1" "OBJECT".

Definition frame_names (n : nat) : list string :=
  map (fun i => "N" +:+ pretty (Z.of_nat i) +:+ ".fits") (seq 1 n).

Definition headers_of (times : list float) : gmap string header :=
  list_to_map (zip (frame_names (length times)) (map frame times)).

Definition manifest_state (times : list float) : state :=
  State {[ "obs/src.list" := frame_names (length times) ]} [].

Definition run (order : list (float * nat) -> list (float * nat)) (times : list float)
  : result unit * state :=
  checklist order "src.list" "obs" (headers_of times) (manifest_state times).

(** The names [checklist] reads from a manifest whose lines are [ls]
    (line 132). *)
Definition names_of (ls : list string) : list string :=
  match ls with [] => [""] | _ => ls end.

(** The exposure times [checklist] collects (lines 141-151): those of the
    listed files that have a header. *)
Definition exposures (headerdict : gmap string header) (files : list string) : list float :=
  map EXPTIME (omap (fun f => headerdict !! f) files).

(** The listed files whose exposure time is [val]. *)
Definition kept (headerdict : gmap string header) (val : float) (files : list string)
  : list string :=
  List.filter (fun f => match headerdict !! f with
                        | Some h => PrimFloat.eqb (EXPTIME h) val
                        | None => false
                        end) files.

(** The listed files up to the first one that has no header, and that one. *)
Fixpoint split_unknown (headerdict : gmap string header) (files : list string)
  : list string * option string :=
  match files with
  | [] => ([], None)
  | f :: files' =>
      if bool_decide (is_Some (headerdict !! f)) then
        let '(pre, unknown) := split_unknown headerdict files' in (f :: pre, unknown)
      else ([], Some f)
  end.

(** The result of [checklist] and the files it leaves, as a function of the
    files it finds: what [checklist_run] proves of it. *)
Definition checklist_files (dict_order : list (float * nat) -> list (float * nat))
    (filelist path : string) (headerdict : gmap string header)
    (F : gmap string (list string)) : result unit * gmap string (list string) :=
  match F !! (path +:+ "/" +:+ filelist) with
  | None => (Ok tt, F)
  | Some ls =>
      match headerdict !! List.last (names_of ls) "" with
      | None => (Raise (KeyError (List.last (names_of ls) "")), F)
      | Some _ =>
          if (length (distinct_floats (exposures headerdict (names_of ls))) =? 1)%nat
          then (Ok tt, F)
          else
            match most_common1 (dict_order (Counter (exposures headerdict (names_of ls)))) with
            | Raise e => (Raise e, F)
            | Ok vn =>
                if (1 <? values_count
                           (dict_order (Counter (exposures headerdict (names_of ls))))
                           (fst vn))%nat
                then (Raise (SystemExit ""), F)
                else
                  (match snd (split_unknown headerdict (names_of ls)) with
                   | None => Ok tt
                   | Some f => Raise (KeyError f)
                   end,
                   <[path +:+ "/" +:+ filelist :=
                       kept headerdict (fst vn) (fst (split_unknown headerdict (names_of ls)))]>
                     (<[path +:+ "/" +:+ (filelist +:+ ".bak") := ls]> F))
            end
      end
  end.

(** A computation that ends with the result [r] and the files [F]. *)
Definition ends {A} (c : M state A) (s : state) (r : result A)
    (F : gmap string (list string)) : Prop :=
  exists lg, c s = (r, State F lg).

(** A computation that returns after writing to the log only. *)
Definition logs_only (m : M state unit) : Prop :=
  forall s, exists lg, m s = (Ok tt, State (fs s) lg).

End CheckData.


(** ** gnirsBaselineCalibration.py: the five-step stage runner *)

Module BaselineCalibration.

(** What a run does that an observer can see: the warning about an invalid
    range, the prompts, and the steps entered and completed. *)
Inductive event : Type :=
| InvalidRange
| Prompt (text : string)
| Enter (valindex : Z)
| Completed (valindex : Z).

(** [stdin] holds the lines the user will type. *)
Record state : Type := State {
  stdin : list string;
  trace : list event }.

Definition emit (e : event) : M state unit :=
  modify (fun s => State (stdin s) (trace s ++ [e])%list).

(** [raw_input(text)] *)
Definition raw_input (text : string) : M state string :=
  emit (Prompt text) ;;;
  s <- get ;;
  match stdin s with
  | [] => raise EOFError
  | line :: rest => modify (fun s => State rest (trace s)) ;;; ret line
  end.

(** Lines 163-180: the orders of the cross-dispersed configuration; the
    nominal wavelengths are bound for SB_SXD only. *)
Definition xd_configuration (calpath : string) : result (list Z * bool) :=
  if contains "LB_SXD" calpath then Ok ([3; 4; 5]%Z, false)
  else if contains "LB_LXD" calpath then Ok ([3; 4; 5; 6; 7; 8]%Z, false)
  else if contains "SB_SXD" calpath then Ok ([3; 4; 5; 6; 7; 8]%Z, true)
  else Raise (SystemExit "").

(** Lines 251-263: the range check, asking again while the range is invalid.
    Every round reads two lines; [None] is returned when the fuel is used up
    while the range is still invalid. *)
Definition invalid (valindex stop : Z) : bool :=
  (stop <? valindex)%Z || (valindex <? 1)%Z || (5 <? stop)%Z.

Fixpoint check_range (fuel : nat) (valindex stop : Z) : M state (option (Z * Z)) :=
  if invalid valindex stop then
    match fuel with
    | O => ret None
    | S fuel' =>
        emit InvalidRange ;;;
        a <- raw_input "Please enter a valid start value (1 to 5, default 1): " ;;
        valindex' <- lift (int a) ;;
        b <- raw_input "Please enter a valid stop value (1 to 5, default 5): " ;;
        stop' <- lift (int b) ;;
        check_range fuel' valindex' stop'
    end
  else ret (Some (valindex, stop)).

Section Steps.

Variable manualMode : bool.
Variable calpath : string.
Variable nominal_wavelengths : bool.
(** [rawHeader['ARRAYID'].strip()] *)
Variable arrayid : string.
(** What the step functions do is IRAF's; only whether they return matters
    here. *)
Variable prepareCalibrations : string -> result unit.
Variable makeFlat : result unit.
Variable makeSdistortion : string -> Z -> result unit.
Variable makeWaveCal : string -> result unit.

Definition manual_pause (text : string) : M state unit :=
  if manualMode then raw_input text ;;; ret tt else ret tt.

(** Lines 272-482: the branch of the step counter. *)
Definition step (valindex : Z) : M state unit :=
  if (valindex =? 1)%Z then
    emit (Enter 1) ;;;
    manual_pause "About to enter step 1: clean calibration frames."
  else if (valindex =? 2)%Z then
    emit (Enter 2) ;;;
    manual_pause "About to enter step 2: preparing all calibration frames." ;;;
    bpmfile <- (if String.eqb arrayid "SN7638228.1"
                then ret "gnirs$data/gnirsn_2011apr07_bpm.fits"
                else if String.eqb arrayid "SN7638228.1.2"
                then ret "gnirs$data/gnirsn_2012dec05_bpm.fits"
                else raise (SystemExit "")) ;;
    lift (prepareCalibrations bpmfile)
  else if (valindex =? 3)%Z then
    emit (Enter 3) ;;;
    manual_pause "About to enter step 3: create flat field." ;;;
    lift makeFlat
  else if (valindex =? 4)%Z then
    emit (Enter 4) ;;;
    manual_pause "About to enter step 4: spatial curvature and spectral distortion." ;;;
    pin <- (if contains "LB_SXD" calpath || contains "LB_LXD" calpath
            then ret ("gnirs$data/pinholes-long-dense-north.lis", 9%Z)
            else if contains "SB_SXD" calpath
            then ret ("gnirs$data/pinholes-short-dense-north.lis", 6%Z)
            else raise (SystemExit "")) ;;
    lift (makeSdistortion (fst pin) (snd pin))
  else if (valindex =? 5)%Z then
    emit (Enter 5) ;;;
    manual_pause "About to enter step 5: wavelength solution." ;;;
    coordlist <- (if contains "10" calpath && contains "32" calpath
                  then ret "gnirs$data/lowresargon.dat"
                  else if contains "110" calpath
                  then ret "gnirs$data/argon.dat"
                  else raise (SystemExit "")) ;;
    (if nominal_wavelengths then ret tt
     else raise (UnboundLocalError "nominal_wavelengths")) ;;;
    lift (makeWaveCal coordlist)
  else
    raise (SystemExit "").

(** Lines 265-484: [while valindex <= stop: ...; valindex += 1].  [None] is
    returned when the fuel is used up before the condition fails. *)
Fixpoint steps (fuel : nat) (valindex stop : Z) : M state (option unit) :=
  if (valindex <=? stop)%Z then
    match fuel with
    | O => ret None
    | S fuel' =>
        step valindex ;;;
        emit (Completed valindex) ;;;
        steps fuel' (valindex + 1)%Z stop
    end
  else ret (Some tt).

(** Lines 251-484 for one calibration directory.  The range check reads two
    lines per round, so it has fuel for more rounds than there are lines;
    the step loop needs one round per index from [valindex] to [stop]. *)
Definition reduce (start stop : Z) : M state (option unit) :=
  s <- get ;;
  checked <- check_range (S (length (stdin s))) start stop ;;
  match checked with
  | None => ret None
  | Some (valindex, stop') =>
      steps (Z.to_nat (stop' + 1 - valindex)) valindex stop'
  end.

End Steps.

(** The steps entered, in the order of the trace. *)
Definition entered (t : list event) : list Z :=
  omap (fun e => match e with Enter k => Some k | _ => None end) t.

Definition prompts (t : list event) : list string :=
  omap (fun e => match e with Prompt p => Some p | _ => None end) t.

(** *** The calibration directories of [start] *)

Section Start.

Variable manualMode : bool.
(** [iraf.chdir] *)
Variable chdir : string -> result unit.
(** The lines of a list of a calibration directory; [None] when the directory
    has no such list. *)
Variable list_file : string -> string -> option (list string).
(** [fits.open(frame)[0].header], of which step 2 reads ARRAYID, stripped:
    the oracle gives that keyword, which raw frames have. *)
Variable raw_header : string -> result string.
(** The step functions, in a calibration directory. *)
Variable prepareCalibrations : string -> string -> result unit.
Variable makeFlat : string -> result unit.
Variable makeSdistortion : string -> string -> Z -> result unit.
Variable makeWaveCal : string -> string -> result unit.

(** Lines 185-246: a list that is there is read, its lines stripped; a list
    that is not there ends the run. *)
Definition required_list (calpath name : string) : M state (list string) :=
  match list_file calpath name with
  | Some lines => ret (map strip lines)
  | None => raise (SystemExit "")
  end.

(** Lines 157-491: one enabled directory.  [stop] and the binding of
    [nominal_wavelengths] are what the directories before left; the result is
    what this one leaves of them, [None] when the fuel of a loop is used up. *)
Definition calibrate (calpath : string) (start stop : Z) (nominal : bool)
  : M state (option (Z * bool)) :=
  lift (chdir calpath) ;;;
  cfg <- lift (xd_configuration calpath) ;;
  let nominal := nominal || snd cfg in
  allcalslist <- required_list calpath "all.list" ;;
  frame <- lift (nth_item allcalslist 0) ;;
  arrayid <- lift (raw_header frame) ;;
  required_list calpath "QHflats.list" ;;;
  required_list calpath "IRflats.list" ;;;
  pinholeslist <- required_list calpath "pinholes.list" ;;
  lift (nth_item pinholeslist 0) ;;;
  required_list calpath "arcs.list" ;;;
  s <- get ;;
  checked <- check_range (S (length (stdin s))) start stop ;;
  match checked with
  | None => ret None
  | Some (valindex, stop') =>
      finished <- steps manualMode calpath nominal arrayid
                    (prepareCalibrations calpath) (makeFlat calpath)
                    (makeSdistortion calpath) (makeWaveCal calpath)
                    (Z.to_nat (stop' + 1 - valindex)) valindex stop' ;;
      match finished with
      | None => ret None
      | Some _ => ret (Some (stop', nominal))
      end
  end.

(** Lines 154-501: the loop over the options of [CalibrationDirectories], each
    with the text of its value. *)
Fixpoint calibrate_all (directories : list (string * string)) (start stop : Z)
    (nominal : bool) : M state (option unit) :=
  match directories with
  | [] => ret (Some tt)
  | (calpath, text) :: directories' =>
      enabled <- lift (getboolean text) ;;
      if enabled : bool then
        outcome <- calibrate calpath start stop nominal ;;
        match outcome with
        | None => ret None
        | Some (stop', nominal') => calibrate_all directories' start stop' nominal'
        end
      else calibrate_all directories' start stop nominal
  end.

End Start.

(** The five lists that [start] requires of a calibration directory. *)
Definition required_lists : list string :=
  ["all.list"; "QHflats.list"; "IRflats.list"; "pinholes.list"; "arcs.list"].

(** *** The step functions *)

(** An argument of an IRAF task: a text or a flag. *)
Inductive argument : Type :=
| Name (text : string)
| Flag (on : bool).

(** What a step function does: its warnings, the files it removes and the
    IRAF tasks it runs, with the arguments that are not constants of the
    call. *)
Inductive action : Type :=
| Warn (msg : string)
| Removed (path : string)
| Iraf (task : string) (arguments : list argument).

Record work : Type := Work {
  files : gset string;
  did : list action }.

Definition note (a : action) : M work unit :=
  modify (fun s => Work (files s) (did s ++ [a])%list).

(** [os.path.exists(p)] *)
Definition file_exists (p : string) : M work bool :=
  s <- get ;; ret (bool_decide (p ∈ files s)).

(** [os.remove(p)] *)
Definition remove_file (p : string) : M work unit :=
  s <- get ;;
  if bool_decide (p ∈ files s)
  then modify (fun s => Work (files s ∖ {[p]}) (did s ++ [Removed p])%list)
  else raise (OSError p).

Section StepFunctions.

(** [fnmatch]: whether a name matches a pattern. *)
Variable matches : string -> string -> bool.
(** An IRAF task: the files it leaves. *)
Variable iraf : string -> list argument -> gset string -> result (gset string).

(** [glob.glob(pattern)] *)
Definition glob (pattern : string) : M work (list string) :=
  s <- get ;; ret (List.filter (matches pattern) (elements (files s))).

Definition run_task (task : string) (arguments : list argument) : M work unit :=
  note (Iraf task arguments) ;;;
  s <- get ;;
  after <- lift (iraf task arguments (files s)) ;;
  modify (fun s => Work after (did s)).

(** Lines 570-588 *)
Definition prepare_tasks (QHflatsfilename IRflatsfilename arcsfilename pinholesfilename
    : string) (interactive : bool) (preparedPrefix reducedPrefix bpmfile : string)
  : M work unit :=
  run_task "nsprepare"
    [Name ("@" +:+ QHflatsfilename +:+ ",@" +:+ IRflatsfilename +:+ ",@" +:+ arcsfilename
             +:+ ",@" +:+ pinholesfilename);
     Name preparedPrefix; Name bpmfile; Flag interactive] ;;;
  run_task "nsreduce"
    [Name (preparedPrefix +:+ "//@" +:+ QHflatsfilename +:+ "," +:+ preparedPrefix
             +:+ "//@" +:+ IRflatsfilename +:+ "," +:+ preparedPrefix +:+ "//@"
             +:+ arcsfilename +:+ "," +:+ preparedPrefix +:+ "//@" +:+ pinholesfilename);
     Name reducedPrefix].

(** Lines 544-590 *)
Definition prepareCalibrations (QHflatsfilename IRflatsfilename arcsfilename
    pinholesfilename : string) (interactive : bool)
    (preparedPrefix reducedPrefix bpmfile : string) (overwrite : bool) : M work unit :=
  old1 <- glob (preparedPrefix +:+ "N*.fits") ;;
  old2 <- glob (reducedPrefix +:+ preparedPrefix +:+ "N*.fits") ;;
  let oldfiles := (old1 ++ old2)%list in
  if (0 <? length oldfiles)%nat then
    if overwrite then
      note (Warn "Removing old files: %sN*.fits and %s%sN*.fits files") ;;;
      for_each oldfiles remove_file ;;;
      prepare_tasks QHflatsfilename IRflatsfilename arcsfilename pinholesfilename
        interactive preparedPrefix reducedPrefix bpmfile
    else
      note (Warn "Output exists and -overwrite not set.") ;;;
      note (Warn "Skipping nsprepare and nsreduce for all calibration frames.\n")
  else
    prepare_tasks QHflatsfilename IRflatsfilename arcsfilename pinholesfilename
      interactive preparedPrefix reducedPrefix bpmfile.

(** What the two patterns of line 561 find. *)
Definition oldfiles (preparedPrefix reducedPrefix : string) (s : work) : list string :=
  (List.filter (matches (preparedPrefix +:+ "N*.fits")) (elements (files s))
   ++ List.filter (matches (reducedPrefix +:+ preparedPrefix +:+ "N*.fits"))
        (elements (files s)))%list.

(** Lines 614-624, and the same statements for the three other outputs of
    nsflat (lines 625-635, 651-661, 662-672): an old output is removed, or
    kept and flagged. *)
Definition old_output (name : string) (overwrite : bool) : M work bool :=
  there <- file_exists name ;;
  if there : bool then
    if overwrite then
      note (Warn "Removing old %s") ;;;
      remove_file name ;;;
      ret false
    else
      note (Warn "Old %s exists and -overwrite not set - using existing output for further ") ;;;
      note (Warn "reduction.") ;;;
      ret true
  else ret false.

(** Lines 614-649 for the QH lamp, lines 651-686 for the IR lamp: the flat
    and the bad pixel mask of a lamp.  The two calls of nsflat differ in
    [thr_fup], [order] and [scale]. *)
Definition lamp_flat (lampson flat bpm thr_fup : string) (nsflatInter : bool)
    (order scale : string) (overwrite : bool) : M work unit :=
  flat_flag <- old_output flat overwrite ;;
  bpm_flag <- old_output bpm overwrite ;;
  if flat_flag && bpm_flag then ret tt
  else run_task "nsflat"
         [Name lampson; Name flat; Name bpm; Name thr_fup; Flag nsflatInter;
          Name order; Name scale].

Definition group_flats (QHflat IRflat masterflat : string) : M work unit :=
  run_task "fxcopy" [Name IRflat; Name masterflat] ;;;
  run_task "fxinsert" [Name QHflat; Name (masterflat +:+ "[3]")].

(** Lines 594-701 *)
Definition makeFlat (preparedPrefix reducedPrefix QHflatsfilename IRflatsfilename
    QHflat QHflat_bpm IRflat IRflat_bpm masterflat : string) (nsflatInter overwrite : bool)
  : M work unit :=
  lamp_flat (reducedPrefix +:+ preparedPrefix +:+ "//@" +:+ QHflatsfilename)
    QHflat QHflat_bpm "4.0" nsflatInter "5" "median" overwrite ;;;
  lamp_flat (reducedPrefix +:+ preparedPrefix +:+ "//@" +:+ IRflatsfilename)
    IRflat IRflat_bpm "1.5" nsflatInter "10" "none" overwrite ;;;
  there <- file_exists masterflat ;;
  if there : bool then
    if overwrite then
      note (Warn "Removing old %s") ;;;
      remove_file masterflat ;;;
      group_flats QHflat IRflat masterflat
    else
      note (Warn "Old %s exists") ;;;
      note (Warn "create the masterflat.")
  else
    group_flats QHflat IRflat masterflat.

End StepFunctions.

(** The IRAF tasks of a record of actions, and the files removed. *)
Definition tasks (l : list action) : list string :=
  omap (fun a => match a with Iraf task _ => Some task | _ => None end) l.

Definition removals (l : list action) : list string :=
  omap (fun a => match a with Removed p => Some p | _ => None end) l.

(** The outputs of [makeFlat]. *)
Definition flat_outputs (QHflat QHflat_bpm IRflat IRflat_bpm masterflat : string)
  : list string :=
  [QHflat; QHflat_bpm; IRflat; IRflat_bpm; masterflat].

(** Whether a directory binds [nominal_wavelengths] (lines 163-180). *)
Definition binds_nominal (calpath : string) : bool :=
  match xd_configuration calpath with
  | Ok (_, bound) => bound
  | Raise _ => false
  end.

(** *** Examples *)

(** A task that leaves the files as they are; but nsflat, which makes the
    flat and the mask it is asked for and does not write over either. *)
Definition example_iraf (task : string) (arguments : list argument) (fs : gset string)
  : result (gset string) :=
  if String.eqb task "nsflat" then
    match arguments with
    | _ :: Name flat :: Name bpm :: _ =>
        if bool_decide (flat ∈ fs) then Raise (IOError flat)
        else if bool_decide (bpm ∈ fs) then Raise (IOError bpm)
        else Ok ({[flat; bpm]} ∪ fs)
    | _ => Ok fs
    end
  else Ok fs.

(** A calibration directory after an earlier run: a prepared and a reduced
    frame, the QH flat without its mask, and the master flat. *)
Definition example_work : work :=
  Work {[ "all.list"; "nN20110516S0181.fits"; "rnN20110516S0181.fits";
          "QHflat.fits"; "masterflat.fits" ]} [].

(** A directory with the five outputs of [makeFlat]. *)
Definition example_flats : work :=
  Work {[ "QHflat.fits"; "QHflat_bpm.pl"; "IRflat.fits"; "IRflat_bpm.pl";
          "masterflat.fits" ]} [].

Definition example_prepare (reducedPrefix : string) (overwrite : bool) : M work unit :=
  prepareCalibrations star_match example_iraf "QHflats.list" "IRflats.list" "arcs.list"
    "pinholes.list" false "n" reducedPrefix "gnirs$data/gnirsn_2012dec05_bpm.fits"
    overwrite.

Definition example_flat : M work unit :=
  makeFlat example_iraf "n" "r" "QHflats.list" "IRflats.list" "QHflat.fits"
    "QHflat_bpm.pl" "IRflat.fits" "IRflat_bpm.pl" "masterflat.fits" false false.

(** Calibration directories with the five lists, of one frame each, where
    every step function returns. *)
Definition example_list_file (calpath name : string) : option (list string) :=
  if existsb (String.eqb name) required_lists
  then Some ["N20110516S0181.fits "]
  else None.

Definition example_calibrate (calpath : string) (start stop : Z)
  : M state (option (Z * bool)) :=
  calibrate false (fun _ => Ok tt) example_list_file (fun _ => Ok "SN7638228.1.2")
    (fun _ _ => Ok tt) (fun _ => Ok tt) (fun _ _ _ => Ok tt) (fun _ _ => Ok tt)
    calpath start stop false.

Definition example_calibrate_all (directories : list (string * string)) (start stop : Z)
  : M state (option unit) :=
  calibrate_all false (fun _ => Ok tt) example_list_file (fun _ => Ok "SN7638228.1.2")
    (fun _ _ => Ok tt) (fun _ => Ok tt) (fun _ _ _ => Ok tt) (fun _ _ => Ok tt)
    directories start stop false.

(** The trace of a run that enters and completes the steps from [valindex]
    through [stop], one after the other. *)
Definition run_in_order (valindex stop : Z) : list event :=
  flat_map (fun k => [Enter k; Completed k]) (seqZ valindex (stop + 1 - valindex)).

End BaselineCalibration.

(** ** gnirsExtractSpectra1D.py: matching the science and telluric peaks *)

Module ExtractSpectra1D.

(** The names bound at module level: the imports of lines 29-31 and the
    functions the module defines. *)
Definition module_globals : list string :=
  ["log"; "os"; "glob"; "ConfigParser"; "fits"; "iraf";
   "start"; "nofits"; "extractSpectra1D"; "peaksFind"; "peaksMatch";
   "reExtractSpectra1D"].

Definition bound : list string := (module_globals ++ builtins)%list.

Inductive event : Type :=
| Log (lvl : level) (msg : string)
| Remove (path : string)
| WriteAperture (path : string) (center : string)
| Copy (src dst : string)
| Nsextract (inimages trace : string)
| Gemextn (inimages : string).

(** The files that exist, and what the run did. *)
Record state : Type := State {
  fs : gset string;
  trace : list event }.

Definition emit (e : event) : M state unit :=
  modify (fun s => State (fs s) (trace s ++ [e])%list).

Definition logger (lvl : level) (msg : string) : M state unit := emit (Log lvl msg).

Definition path_exists (p : string) : M state bool :=
  s <- get ;; ret (bool_decide (p ∈ fs s)).

Definition os_remove (p : string) : M state unit :=
  s <- get ;;
  if bool_decide (p ∈ fs s)
  then modify (fun s => State (fs s ∖ {[p]}) (trace s ++ [Remove p])%list)
  else raise (OSError p).

Definition open_r (p : string) : M state unit :=
  s <- get ;;
  if bool_decide (p ∈ fs s) then ret tt else raise (IOError p).

Definition index {A} (l : list A) (i : nat) : M state A :=
  match l !! i with
  | Some x => ret x
  | None => raise IndexError
  end.

Definition header_get (h : gmap string float) (key : string) : M state float :=
  match h !! key with
  | Some v => ret v
  | None => raise (KeyError key)
  end.

(** [s[:-5]] *)
Definition drop_last5 (s : string) : string :=
  String.substring 0 (String.length s - 5) s.

(** The names that [peaksMatch] and [reExtractSpectra1D] read without binding
    them, with the values they would hold if the module bound them. *)
Record free_names : Type := Free {
  sciacq : string;
  scisrccomb : string;
  telacq : string;
  telsrccomb : string;
  peaks_flag : list bool;
  telpeaks_global : list string;
  pixeldifference_global : float }.

Section Extract.

(** [G] lists the names bound in the global namespace when a function runs. *)
Variable G : list string.
Variable free : free_names.
(** [float(s)] on the strings of the aperture files. *)
Variable py_float : string -> result float.
(** [fits.open(path)[0].header] *)
Variable fits_open : string -> result (gmap string float).
(** Whether [open(path, 'w')] succeeds. *)
Variable writable : string -> bool.
(** What IRAF's tasks return. *)
Variable nsextract : result unit.
Variable gemextn : result (list string).

Definition open_w (p : string) : M state unit :=
  if writable p then modify (fun s => State (fs s ∪ {[p]}) (trace s))
  else raise (IOError p).

(** Lines 468-489: one round of the comparison.  The pair carried around is
    [peaksMatched] and [reExtract], which is unbound before the first round. *)
Definition compare_peak (telpeaks : list string) (pixeldifference toleranceOffset : float)
    (acc : list bool * option bool) (ip : nat * string) : M state (list bool * option bool) :=
  let '(i, scipeak) := ip in
  telpeak <- index telpeaks i ;;
  t <- lift (py_float telpeak) ;;
  let expectedPeak := PrimFloat.add t pixeldifference in
  if String.eqb scipeak "Peak not found" then
    logger WARNING "In extension %d for the science, nsextract did not extract anything. Re-extracting " ;;;
    logger WARNING "the spectrum forcing the aperture to be at the expected peak location %.4g" ;;;
    ret ((fst acc ++ [false])%list, Some true)
  else
    locatedPeak <- lift (py_float scipeak) ;;
    if PrimFloat.ltb (PrimFloat.abs (PrimFloat.sub locatedPeak expectedPeak)) toleranceOffset then
      logger INFO "In extension %d for the science, nsextract detected the spectrum close to the " ;;;
      logger INFO "expected peak location along slit (located position = %s vs. expected " ;;;
      logger INFO "position = %s ." ;;;
      ret ((fst acc ++ [true])%list, Some false)
    else
      logger WARNING "In extension %d for the science, nsextract extracted an unexpected peak location " ;;;
      logger WARNING "along the slit (located position = %s vs. expected position = " ;;;
      logger WARNING "%s . It is probably extracting noise; re-extracting the spectrum " ;;;
      logger WARNING "forcing the aperture to be at the expected peak location.'" ;;;
      ret ((fst acc ++ [false])%list, Some true).

(** Lines 463-491 *)
Definition compare_peaks (scipeaks telpeaks : list string)
    (pixeldifference toleranceOffset : float) : M state (list bool * bool) :=
  acc <- fold_m (compare_peak telpeaks pixeldifference toleranceOffset)
           (imap (fun i p => (i, p)) scipeaks) ([], None) ;;
  match snd acc with
  | Some reExtract => ret (fst acc, reExtract)
  | None => raise (UnboundLocalError "reExtract")
  end.

(** Lines 434-491 *)
Definition peaksMatch (obspath telpath combinedimage : string)
    (scipeaks telpeaks : list string) (toleranceOffset : float) : M state (list bool * bool) :=
  read_global G "log" tt ;;;
  read_global G "fits" tt ;;;
  p <- read_global G "sciacq" (sciacq free) ;;
  sciacqHeader <- lift (fits_open p) ;;
  read_global G "fits" tt ;;;
  p <- read_global G "scisrccomb" (scisrccomb free) ;;
  scisrccombHeader <- lift (fits_open p) ;;
  a <- header_get sciacqHeader "QOFFSET" ;;
  b <- header_get scisrccombHeader "QOFFSET" ;;
  let scisrccombQoffset := PrimFloat.abs (PrimFloat.sub a b) in
  read_global G "fits" tt ;;;
  p <- read_global G "telacq" (telacq free) ;;
  telacqHeader <- lift (fits_open p) ;;
  read_global G "fits" tt ;;;
  p <- read_global G "telsrccomb" (telsrccomb free) ;;
  telsrccombHeader <- lift (fits_open p) ;;
  a <- header_get telacqHeader "QOFFSET" ;;
  b <- header_get telsrccombHeader "QOFFSET" ;;
  let telsrccombQoffset := PrimFloat.abs (PrimFloat.sub a b) in
  pixelscale <- header_get scisrccombHeader "PIXSCALE" ;;
  pixeldifference <-
    lift (float_div (PrimFloat.sub scisrccombQoffset telsrccombQoffset) pixelscale) ;;
  compare_peaks scipeaks telpeaks pixeldifference toleranceOffset.

(** Lines 503-521: the aperture files of one order.  The centre written to the
    new telluric file is the text that replaces the telluric peak. *)
Definition rewrite_aperture (scidatabasepath teldatabasepath sci_combinedsrc
    tel_combinedsrc newtelapfilePrefix : string) (i : nat) : M state unit :=
  let extension := pretty (Z.of_nat (i + 1)) in
  let oldsciapfile :=
    scidatabasepath +:+ "/ap" +:+ drop_last5 sci_combinedsrc +:+ "_SCI_" +:+ extension +:+ "_" in
  there <- path_exists oldsciapfile ;;
  (if there : bool then os_remove oldsciapfile else ret tt) ;;;
  open_r (teldatabasepath +:+ "ap" +:+ tel_combinedsrc +:+ "_SCI_" +:+ extension +:+ "_") ;;;
  let newtelapfile :=
    teldatabasepath +:+ "ap" +:+ newtelapfilePrefix +:+ tel_combinedsrc
      +:+ "_SCI_" +:+ extension +:+ "_" in
  open_w newtelapfile ;;;
  flags <- read_global G "peaks_flag" (peaks_flag free) ;;
  flag <- index flags i ;;
  telpeaks <- read_global G "telpeaks" (telpeaks_global free) ;;
  telpeak <- index telpeaks i ;;
  (if negb flag then
     t <- lift (py_float telpeak) ;;
     pixeldifference <- read_global G "pixeldifference" (pixeldifference_global free) ;;
     emit (WriteAperture newtelapfile "str(float(telpeaks[i])+pixeldifference)+' '")
   else
     emit (WriteAperture newtelapfile "telpeaks[i]+' '")).

(** Lines 495-553 *)
Definition reExtractSpectra1D (scidatabasepath teldatabasepath telpath : string)
    (scitelPeaksMatched : list bool) (sci_combinedsrc tel_combinedsrc newtelapfilePrefix : string)
    (orders : list Z) : M state unit :=
  read_global G "log" tt ;;;
  logger INFO "Creating new aperture files in database." ;;;
  for_each (seq 0 (length orders))
    (rewrite_aperture scidatabasepath teldatabasepath sci_combinedsrc tel_combinedsrc
       newtelapfilePrefix) ;;;
  read_global G "shutil" tt ;;;
  emit (Copy (telpath +:+ "/" +:+ tel_combinedsrc)
          (telpath +:+ "/" +:+ newtelapfilePrefix +:+ tel_combinedsrc)) ;;;
  read_global G "os" tt ;;;
  os_remove ("v" +:+ sci_combinedsrc) ;;;
  read_global G "iraf" tt ;;;
  (* [lower=-str(extractApertureRadius)]: a string has no negation *)
  (raise TypeError : M state unit) ;;;
  emit (Nsextract sci_combinedsrc (telpath +:+ "/" +:+ newtelapfilePrefix +:+ tel_combinedsrc)) ;;;
  lift nsextract ;;;
  emit (Gemextn sci_combinedsrc) ;;;
  extractedSpectraExtensions <- lift gemextn ;;
  if negb (length extractedSpectraExtensions =? length orders)%nat then
    logger ERROR "The combined science image file contains only %d extensions." ;;;
    logger ERROR "Please run gnirsCombineSpectra2D.py to create the combined 2D science image with the right" ;;;
    logger ERROR "number of extensions or provide the combined science image with the right number of extensions" ;;;
    logger ERROR "manually. Exiting script." ;;;
    raise (SystemExit "")
  else ret tt.

(** Lines 308-325 of [start] *)
Definition match_and_reextract (obspath telpath combinedsrc databaseDir : string)
    (scipeaks telpeaks : list string) (toleranceOffset : float) (orders : list Z)
    : M state unit :=
  let scidatabasepath := obspath +:+ "/" +:+ databaseDir in
  let teldatabasepath := "../Telluric/Intermediate/" +:+ databaseDir in
  let sci_combinedsrc := obspath +:+ "/" +:+ combinedsrc in
  let tel_combinedsrc := telpath +:+ "/" +:+ combinedsrc in
  logger INFO "Matching the peaks found by nsextract." ;;;
  matched <- peaksMatch obspath telpath combinedsrc scipeaks telpeaks toleranceOffset ;;
  logger INFO "Completed matching the peaks found by nsextract." ;;;
  if snd matched : bool then
    logger INFO "Re-extracting one or more science spectra." ;;;
    reExtractSpectra1D scidatabasepath teldatabasepath telpath (fst matched)
      sci_combinedsrc tel_combinedsrc "re" orders ;;;
    logger INFO "Completed re-extracting one or more science spectra."
  else
    logger INFO "Not re-extracting any science spectra.".

End Extract.

(** Whether a trace shows a re-extraction being started or IRAF being run. *)
Definition reextraction_started (t : list event) : bool :=
  existsb (fun e => match e with
                    | Log INFO msg => String.eqb msg "Re-extracting one or more science spectra."
                    | _ => false
                    end) t.

Definition nsextract_ran (t : list event) : bool :=
  existsb (fun e => match e with Nsextract _ _ => true | _ => false end) t.

(** A world for the examples: acquisition and combined headers whose slit
    offsets put the science 2 pixels from the telluric. *)
Definition example_free : free_names :=
  Free "sci_acq.fits" "sci_src_comb.fits" "tel_acq.fits" "tel_src_comb.fits" [] [] 0%float.

Definition example_headers (path : string) : result (gmap string float) :=
  if String.eqb path "sci_acq.fits" then Ok {[ "QOFFSET" := 0%float ]}
  else if String.eqb path "sci_src_comb.fits"
  then Ok (<[ "QOFFSET" := 1%float ]> {[ "PIXSCALE" := 0.5%float ]})
  else if String.eqb path "tel_acq.fits" then Ok {[ "QOFFSET" := 0%float ]}
  else if String.eqb path "tel_src_comb.fits" then Ok {[ "QOFFSET" := 0%float ]}
  else Raise (IOError path).

(** The module as it would be with the four names of [peaksMatch] bound. *)
Definition bound_with_acquisitions : list string :=
  (["sciacq"; "scisrccomb"; "telacq"; "telsrccomb"] ++ bound)%list.

Definition example_match (G : list string) (scipeaks telpeaks : list string)
  : result unit * state :=
  match_and_reextract G example_free float_of_string example_headers (fun _ => true)
    (Ok tt) (Ok []) "obs" "../Telluric/Intermediate" "src_comb.fits" "database"
    scipeaks telpeaks 5%float [3; 4; 5]%Z (State ∅ []).

Definition example_peaks (G : list string) (scipeaks telpeaks : list string)
  : result (list bool * bool) :=
  fst (peaksMatch G example_free float_of_string example_headers
         "obs" "../Telluric/Intermediate" "src_comb.fits" scipeaks telpeaks 5%float
         (State ∅ [])).

(** *** The first extraction and the peaks of the aperture files *)

Section Extraction.

(** IRAF's nsextract on an image with an output prefix (lines 402-408, whose
    other arguments do not bear on what follows): the files it leaves. *)
Variable nsextract_task : string -> string -> gset string -> result (gset string).
(** The lines of a text file. *)
Variable lines_of : string -> list string.

(** Lines 402-408 *)
Definition run_nsextract (inimage outPrefix : string) : M state unit :=
  emit (Nsextract inimage "") ;;;
  s <- get ;;
  files <- lift (nsextract_task inimage outPrefix (fs s)) ;;
  modify (fun s => State files (trace s)).

(** Lines 385-408 *)
Definition extractSpectra1D (inimage outPrefix : string) (overwrite : bool) : M state unit :=
  logger DEBUG "%s" ;;;
  logger DEBUG "%s" ;;;
  there <- path_exists (outPrefix +:+ inimage) ;;
  if there : bool then
    if overwrite then
      logger WARNING "Removing old %s" ;;;
      os_remove (outPrefix +:+ inimage) ;;;
      run_nsextract inimage outPrefix
    else
      logger WARNING "Old %s exists and -overwrite not set - skipping nsextract for observations."
  else run_nsextract inimage outPrefix.

(** Line 422: the aperture file of extension [i+1] *)
Definition aperture_file (databasepath combinedimage : string) (i : nat) : string :=
  databasepath +:+ "/ap" +:+ combinedimage +:+ "_SCI_" +:+ pretty (Z.of_nat (i + 1)) +:+ "_".

(** Lines 423-429: every line of the file appends one entry. *)
Definition peak_of_line (peaks : list string) (line : string) : M state (list string) :=
  if contains "center" line then
    peak <- lift (nth_item (words line) 1) ;;
    ret (peaks ++ [peak])%list
  else
    logger ERROR "Peak not found" ;;;
    ret (peaks ++ ["Peak not found"])%list.

(** Lines 412-430 *)
Definition peaksFind (databasepath : string) (apfileslength : nat) (combinedimage : string)
  : M state (list string) :=
  fold_m (fun peaks i =>
            open_r (aperture_file databasepath combinedimage i) ;;;
            fold_m peak_of_line (lines_of (aperture_file databasepath combinedimage i)) peaks)
    (seq 0 apfileslength) [].

End Extraction.

(** The entry that a line of an aperture file appends to the peaks. *)
Definition peak_entry (line : string) : string :=
  if contains "center" line then default "" (words line !! 1%nat) else "Peak not found".

End ExtractSpectra1D.

(** ** flux_calibrate.py: the flux calibration of the orders *)

Module FluxCalibrate.

(** The names bound at module level: the imports of lines 3-11 and the three
    functions the module defines. *)
Definition module_globals : list string :=
  ["fits"; "ConfigParser"; "glob"; "header"; "log"; "iraf"; "obslog"; "os"; "utils";
   "start"; "float_from_singleElementList"; "fluxcalib_units_in_headers"].

Definition bound : list string := (module_globals ++ builtins)%list.

Inductive event : Type :=
| Log (lvl : level) (msg : string)
| Pause (message : string)
| Remove (path : string)
| Blackbody (order : Z) (flambda : float)
| Imarith (operand1 operand2 output : string)
| Hedit (image value : string)
| Wmef (input output : string).

(** The files that exist, the FUNITS keyword of the images, and what was done. *)
Record state : Type := State {
  fs : gset string;
  funits : gmap string string;
  trace : list event }.

Definition emit (e : event) : M state unit :=
  modify (fun s => State (fs s) (funits s) (trace s ++ [e])%list).

Definition logger (lvl : level) (msg : string) : M state unit := emit (Log lvl msg).

Definition create (p : string) : M state unit :=
  modify (fun s => State (fs s ∪ {[p]}) (funits s) (trace s)).

(** [glob.glob(p)] for a name without wildcards *)
Definition glob (p : string) : M state (list string) :=
  s <- get ;; ret (if bool_decide (p ∈ fs s) then [p] else []).

Definition os_remove (p : string) : M state unit :=
  s <- get ;;
  if bool_decide (p ∈ fs s)
  then modify (fun s => State (fs s ∖ {[p]}) (funits s) (trace s ++ [Remove p])%list)
  else raise (OSError p).

Definition index {A} (l : list A) (i : nat) : M state A :=
  match l !! i with
  | Some x => ret x
  | None => raise IndexError
  end.

Definition item {K A} `{Countable K} (d : gmap K A) (k : K) (name : string) : M state A :=
  match d !! k with
  | Some x => ret x
  | None => raise (KeyError name)
  end.

(** The names that [start] reads without binding them, with the values they
    would hold if the module bound them. *)
Record free_names : Type := Free {
  sci_header_info : gmap string (gmap string float);
  tel_header_info : gmap string (gmap string float);
  sci_telluricCorrected : list string;
  tel_dividedContinuum : list string;
  stdMagnitudes : list string }.

(** The settings [start] has read by line 134. *)
Record settings : Type := Settings {
  overwrite : bool;
  bb_unscaled : string;
  bb_scaled : string;
  fluxCalibPrefix : string;
  fluxCalibrationMethod : string;
  orders : list Z;
  std_pars : gmap string string;
  zeroMagnitudeFluxes_items : list (string * string) }.

Section Flux.

(** [G] lists the names bound in the global namespace when [start] runs. *)
Variable G : list string.
Variable free : free_names.
Variable cfg : settings.
(** [float(s)] and [x ** y] *)
Variable py_float : string -> result float.
Variable py_pow : float -> float -> result float.
(** [utils.pause], which waits for the user *)
Variable pause : string -> result unit.
(** Lines 201-329, IRAF's work: the blackbody of an order, scaled with
    [flambda] or with the overlap with the order before. *)
Variable scale_blackbody : Z -> float -> result unit.
Variable imarith : result unit.
Variable wmef : result unit.

(** Lines 403-416 *)
Definition fluxcalib_units_in_headers (image : string) (abs_fluxcal : bool) : M state unit :=
  read_global G "log" tt ;;;
  read_global G "iraf" tt ;;;
  let value := if abs_fluxcal then "erg/cm^2/s/A" else "Flambda, relative" in
  emit (Hedit image value) ;;;
  modify (fun s => State (fs s) (<[image := value]> (funits s)) (trace s)).

(** Lines 185-199: the flux density of the standard and whether the
    calibration is absolute. *)
Definition flux_density_scale (zeroMagnitudeFluxes : gmap Z string)
    (stdExptime sciExptime : float) (i : nat) : M state (float * bool) :=
  logger INFO "Converting magnitude to flux density for the telluric." ;;;
  mags <- read_global G "stdMagnitudes" (stdMagnitudes free) ;;
  mag <- index mags i ;;
  if truthy mag then
    logger INFO "Performing absolute flux calibration accounting for the ratio of standard to science" ;;;
    logger INFO "exposure times." ;;;
    m <- lift (py_float mag) ;;
    p <- lift (py_pow 10%float (PrimFloat.div (PrimFloat.opp m) 2.5%float)) ;;
    order <- index (orders cfg) i ;;
    zeroFlux <- item zeroMagnitudeFluxes order (pretty order) ;;
    z <- lift (py_float zeroFlux) ;;
    ratio <- lift (float_div stdExptime sciExptime) ;;
    ret (PrimFloat.mul (PrimFloat.mul p z) ratio, true)
  else
    logger INFO "Performing relative flux calibration accounting for the ratio of standard to science" ;;;
    logger INFO "exposure times." ;;;
    ratio <- lift (float_div stdExptime sciExptime) ;;
    ret (PrimFloat.mul 1%float ratio, false).

(** Lines 164-170: the names of the outputs of order [i]. *)
Definition output_SEF (input : string) : string :=
  fluxCalibPrefix cfg +:+ upto_last_underscore (nofits (basename input)) +:+ "SEF.fits".

Definition output_MEF (input : string) : string :=
  fluxCalibPrefix cfg +:+ basename input.

(** Lines 172-173: the outputs of the order that exist already. *)
Definition old_outputs (input : string) (order : Z) : M state (list string) :=
  read_global G "glob" tt ;;;
  old1 <- glob (bb_unscaled cfg +:+ pretty order +:+ ".fits") ;;
  old2 <- glob (bb_scaled cfg +:+ pretty order +:+ ".fits") ;;
  old3 <- glob (output_SEF input) ;;
  old4 <- glob (output_MEF input) ;;
  ret (old1 ++ old2 ++ old3 ++ old4)%list.

(** Lines 175-177 *)
Definition remove_old_outputs (oldfiles : list string) : M state unit :=
  logger WARNING "Removing old %s%d.fits, %s%d.fits," ;;;
  logger WARNING "%s, and %s" ;;;
  for_each oldfiles os_remove.

(** Lines 201-329: the blackbody of the order and its scaling. *)
Definition scaled_blackbody (order : Z) (flambda : float) (i : nat) : M state unit :=
  logger INFO "Making a %dK blackbody." ;;;
  tels <- read_global G "tel_dividedContinuum" (tel_dividedContinuum free) ;;
  tel <- index tels i ;;
  emit (Blackbody order flambda) ;;;
  lift (scale_blackbody order flambda) ;;;
  create (bb_unscaled cfg +:+ pretty order +:+ ".fits") ;;;
  create (bb_scaled cfg +:+ pretty order +:+ ".fits") ;;;
  logger INFO "Completed scaling the blackbody to the telluric magnitude.".

(** Lines 331-369: the science spectrum times the scaled blackbody, the units
    in the header of the product, and the multi-extension copy. *)
Definition apply_blackbody (input : string) (order : Z) (absolute_fluxcalib : bool)
  : M state unit :=
  logger INFO "Applying the blackbody to telluric magnitude scaling fator to the telluric corrected" ;;;
  logger INFO "science 1D source spectra." ;;;
  emit (Imarith (basename input +:+ "[1]") (bb_scaled cfg +:+ pretty order) (output_SEF input)) ;;;
  lift imarith ;;;
  create (output_SEF input) ;;;
  fluxcalib_units_in_headers (output_SEF input) absolute_fluxcalib ;;;
  emit (Wmef (output_SEF input) (output_MEF input)) ;;;
  lift wmef ;;;
  create (output_MEF input) ;;;
  logger INFO "Completed applying the blackbody to telluric magnitude scaling fator to the telluric" ;;;
  logger INFO "corrected science 1D source spectra." ;;;
  logger INFO "Completed flux calibrating order %d of %s.\n".

(** Lines 162-369: one round of the loop over the orders. *)
Definition calibrate_order (zeroMagnitudeFluxes : gmap Z string)
    (stdExptime sciExptime : float) (i : nat) : M state unit :=
  read_global G "os" tt ;;;
  inputs <- read_global G "sci_telluricCorrected" (sci_telluricCorrected free) ;;
  input <- index inputs i ;;
  logger DEBUG "fluxCalibrationOutput_SEF: %s" ;;;
  logger DEBUG "fluxCalibrationOutput_MEF: %s" ;;;
  order <- index (orders cfg) i ;;
  oldfiles <- old_outputs input order ;;
  if overwrite cfg then
    remove_old_outputs oldfiles ;;;
    logger INFO "Flux calibrating order %d of %s." ;;;
    scale <- flux_density_scale zeroMagnitudeFluxes stdExptime sciExptime i ;;
    scaled_blackbody order (fst scale) i ;;;
    apply_blackbody input order (snd scale)
  else
    logger WARNING "Output exists and -overwrite not set - skipping flux calibration for %d" ;;;
    logger WARNING "of the telluric corrected science 1D source spectra.".

(** Lines 158-160 *)
Definition read_zero_fluxes : M state (gmap Z string) :=
  fold_m (fun d kv =>
            order <- lift (int (fst kv)) ;;
            ret (<[order := snd kv]> d))
    (zeroMagnitudeFluxes_items cfg) ∅.

(** Lines 140-369: the branch of the method telluricapproximate. *)
Definition telluricapproximate : M state unit :=
  read_global G "utils" tt ;;;
  emit (Pause "About to start flux calibration") ;;;
  lift (pause "About to start flux calibration") ;;;
  stdTemperature <- item (std_pars cfg) "Temperature" "Temperature" ;;
  sci_info <- read_global G "sci_header_info" (sci_header_info free) ;;
  read_global G "os" tt ;;;
  scis <- read_global G "sci_telluricCorrected" (sci_telluricCorrected free) ;;
  sci0 <- index scis 0 ;;
  sci_header <- item sci_info (basename sci0) (basename sci0) ;;
  sciExptime <- item sci_header "EXPTIME" "EXPTIME" ;;
  tel_info <- read_global G "tel_header_info" (tel_header_info free) ;;
  read_global G "os" tt ;;;
  tels <- read_global G "tel_dividedContinuum" (tel_dividedContinuum free) ;;
  tel0 <- index tels 0 ;;
  tel_header <- item tel_info (basename tel0) (basename tel0) ;;
  stdExptime <- item tel_header "EXPTIME" "EXPTIME" ;;
  zeroMagnitudeFluxes <- read_zero_fluxes ;;
  for_each (seq 0 (length (orders cfg)))
    (calibrate_order zeroMagnitudeFluxes stdExptime sciExptime).

(** Lines 134-377: the pause and the choice of the method. *)
Definition calibrate_from_pause : M state unit :=
  read_global G "utils" tt ;;;
  emit (Pause "STOP HERE *********************************************************************************") ;;;
  lift (pause "STOP HERE *********************************************************************************") ;;;
  if String.eqb (fluxCalibrationMethod cfg) "fluxcalibrator" then
    logger ERROR "Method not implemented" ;;;
    raise (SystemExit "")
  else if String.eqb (fluxCalibrationMethod cfg) "telluricapproximate" then
    telluricapproximate
  else
    logger ERROR "#     ERROR in flux calibration: unknown flux calibration method. Exiting script.     #" ;;;
    raise (SystemExit "").

End Flux.

(** The orders whose calibration was started, in the order of the trace. *)
Definition calibrated (t : list event) : list Z :=
  omap (fun e => match e with Blackbody order _ => Some order | _ => None end) t.

Definition flambdas (t : list event) : list float :=
  omap (fun e => match e with Blackbody _ flambda => Some flambda | _ => None end) t.

(** The module as it would be with the five names bound. *)
Definition bound_with_free : list string :=
  (["sci_header_info"; "tel_header_info"; "sci_telluricCorrected";
    "tel_dividedContinuum"; "stdMagnitudes"] ++ bound)%list.

(** A world for the examples: one order of one science spectrum, a standard
    exposed for 300 s and a science exposed for 5 s; [magnitude] is the entry of
    the standard for that order. *)
Definition example_free (magnitude : string) : free_names :=
  Free {[ "dvsrc_comb_order3_MEF.fits" := {[ "EXPTIME" := 5%float ]} ]}
       {[ "hvsrc_comb_order3_MEF.fits" := {[ "EXPTIME" := 300%float ]} ]}
       ["sci/Intermediate/dvsrc_comb_order3_MEF.fits"]
       ["../Telluric/Intermediate/hvsrc_comb_order3_MEF.fits"]
       [magnitude].

Definition example_settings (overwrite : bool) (temperature : gmap string string) : settings :=
  Settings overwrite "blackbody_order" "scaled_blackbody_order" "b" "telluricapproximate"
    [3%Z] temperature [("3", "1.0e-10")].

Definition example_order (G : list string) (magnitude : string) (overwrite : bool)
    (files : gset string) : result unit * state :=
  calibrate_order G (example_free magnitude) (example_settings overwrite ∅)
    float_of_string (fun _ _ => Raise OverflowError) (fun _ _ => Ok tt) (Ok tt) (Ok tt)
    {[ 3%Z := "1.0e-10" ]} 300%float 5%float 0 (State files ∅ []).

Definition example_branch (G : list string) (magnitude : string)
    (temperature : gmap string string) : result unit * state :=
  calibrate_from_pause G (example_free magnitude) (example_settings true temperature)
    float_of_string (fun _ _ => Raise OverflowError) (fun _ => Ok tt)
    (fun _ _ => Ok tt) (Ok tt) (Ok tt) (State ∅ ∅ []).

(** *** The science directories of [start] *)

Section Start.

Variable G : list string.
Variable free : free_names.
(** What lines 49-65 have read; the orders and the parameters of the standard
    are those of the directory at hand. *)
Variable cfg : settings.
Variables combinedsrc extractRegularPrefix hLinePrefix : string.
Variables dividedTelContinuumPrefix telluricPrefix : string.
Variable py_float : string -> result float.
Variable py_pow : float -> float -> result float.
Variable pause : string -> result unit.
Variable scale_blackbody : Z -> float -> result unit.
Variable imarith : result unit.
Variable wmef : result unit.
(** [iraf.chdir] and [os.chdir] *)
Variable chdir : string -> result unit.
(** [os.path.exists] of a path, seen from a directory *)
Variable path_exists : string -> string -> bool.
(** [utils.get_orders], [utils.requires], [utils.dictify] *)
Variable get_orders : string -> result (list Z).
Variable requires : list string -> result unit.
Variable dictify : list (string * string) -> result (gmap string string).
(** [obslog.readcsv]: the rows by file name, in the order of the keys *)
Variable readcsv : string -> result (list (string * gmap string string)).
(** [config.items] of a section *)
Variable config_items : string -> result (list (string * string)).
(** [fits.getheader] *)
Variable getheader : string -> result (gmap string float).

(** Lines 82-94 *)
Definition standard_path (scipath : string) : M state string :=
  if String.eqb (fluxCalibrationMethod cfg) "fluxcalibrator" then
    read_global G "os" tt ;;;
    if path_exists scipath "../Standard/Intermediate"
    then ret "../Standard/Intermediate"
    else
      logger ERROR "fluxCalibrationMethod is fluxcalibrator but could not find Standard star directory" ;;;
      raise (SystemExit "")
  else if String.eqb (fluxCalibrationMethod cfg) "telluricapproximate" then
    read_global G "os" tt ;;;
    if path_exists scipath "../Telluric/Intermediate"
    then ret "../Telluric/Intermediate"
    else
      logger ERROR "fluxCalibrationMethod is telluricapproximate but could not find Telluric directory" ;;;
      raise (SystemExit "")
  else
    logger ERROR "Uknown fluxCalibrationMethod" ;;;
    raise (SystemExit "").

Definition order_files (root : string) (orders : list Z) : list string :=
  map (fun o => root +:+ "_order" +:+ pretty o +:+ ".fits") orders.

(** Lines 74-384: a science directory that is turned on. *)
Definition science_directory (scipath : string) : M state unit :=
  logger INFO " ------------------ " ;;;
  logger INFO "| Flux Calibration |" ;;;
  logger INFO " ------------------ " ;;;
  let scipath := scipath +:+ "/Intermediate" in
  read_global G "iraf" tt ;;;
  lift (chdir scipath) ;;;
  logger INFO "%s" ;;;
  stdpath <- standard_path scipath ;;
  logger DEBUG "stdpath: %s" ;;;
  read_global G "utils" tt ;;;
  orders <- lift (get_orders scipath) ;;
  let sciroot := scipath +:+ "/" +:+ dividedTelContinuumPrefix +:+ telluricPrefix
                   +:+ extractRegularPrefix +:+ nofits combinedsrc in
  let stdroot := stdpath +:+ "/" +:+ dividedTelContinuumPrefix +:+ hLinePrefix
                   +:+ extractRegularPrefix +:+ nofits combinedsrc in
  let scifiles := order_files sciroot orders in
  let stdfiles := order_files stdroot orders in
  logger DEBUG "scifiles: %s" ;;;
  logger DEBUG "stdfiles: %s" ;;;
  lift (requires (scifiles ++ stdfiles)%list) ;;;
  read_global G "obslog" tt ;;;
  std_obslog <- lift (readcsv (stdpath +:+ "/obslog.csv")) ;;
  firstfile <- index std_obslog 0 ;;
  logger DEBUG "firstfile: %s" ;;;
  std_name <- item (snd firstfile) "OBJECT" "OBJECT" ;;
  logger DEBUG "Standard: %s" ;;;
  items <- lift (config_items std_name) ;;
  pars <- lift (dictify items) ;;
  logger DEBUG "Standard pars: %s" ;;;
  read_global G "fits" tt ;;;
  scifile <- index scifiles 0 ;;
  sci_header <- lift (getheader scifile) ;;
  item sci_header "EXPTIME" "EXPTIME" ;;;
  stdfile <- index stdfiles 0 ;;
  std_header <- lift (getheader stdfile) ;;
  item std_header "EXPTIME" "EXPTIME" ;;;
  logger DEBUG "Sci Exptime: %s" ;;;
  logger DEBUG "Std Exptime: %s" ;;;
  calibrate_from_pause G free
    (Settings (overwrite cfg) (bb_unscaled cfg) (bb_scaled cfg) (fluxCalibPrefix cfg)
       (fluxCalibrationMethod cfg) orders pars (zeroMagnitudeFluxes_items cfg))
    py_float py_pow pause scale_blackbody imarith wmef ;;;
  logger INFO "##############################################################################" ;;;
  logger INFO "#                                                                            #" ;;;
  logger INFO "#  COMPLETE - Flux calibration completed for                                 #" ;;;
  logger INFO "#  %s" ;;;
  logger INFO "#                                                                            #" ;;;
  logger INFO "##############################################################################".

(** Lines 68-384: the loop over the options of [ScienceDirectories], each with
    the text of its value. *)
Definition science_directories (directories : list (string * string)) : M state unit :=
  for_each directories
    (fun d =>
       enabled <- lift (getboolean (snd d)) ;;
       if enabled : bool then science_directory (fst d)
       else logger INFO "Skipping flux calibaration in %s").

(** Lines 68-389, with [path] the directory the script was begun from. *)
Definition start (path : string) (directories : list (string * string)) : M state unit :=
  science_directories directories ;;;
  read_global G "os" tt ;;;
  lift (chdir path).

End Start.

(** What tells or asks the user, and nothing else. *)
Definition is_note (e : event) : bool :=
  match e with Log _ _ | Pause _ => true | _ => false end.

(** Whether the key of an item of [zeroMagnitudeFluxes] reads as an order. *)
Definition reads_as (order : Z) (key : string) : bool :=
  match int key with
  | Ok n => (n =? order)%Z
  | Raise _ => false
  end.

(** A run of [start] in the world of the examples, where every directory has
    what the lines before the pause ask for. *)
Definition example_start (directories : list (string * string)) : result unit * state :=
  start bound (example_free "") (example_settings true {[ "Temperature" := "9700" ]})
    "src_comb.fits" "v" "h" "d" "u"
    float_of_string (fun _ _ => Raise OverflowError) (fun _ => Ok tt)
    (fun _ _ => Ok tt) (Ok tt) (Ok tt)
    (fun _ => Ok tt) (fun _ _ => true) (fun _ => Ok [3%Z]) (fun _ => Ok tt)
    (fun _ => Ok {[ "Temperature" := "9700" ]})
    (fun _ => Ok [("N20110516S0170.fits", {[ "OBJECT" := "HIP 58616" ]})])
    (fun _ => Ok [("Temperature", "9700")])
    (fun _ => Ok {[ "EXPTIME" := 5%float ]})
    "/data" directories (State ∅ ∅ []).

(** Settings with two items for order 3. *)
Definition example_fluxes : settings :=
  Settings true "blackbody_order" "scaled_blackbody_order" "b" "telluricapproximate"
    [3%Z; 4%Z] ∅ [("3", "1.0e-10"); (" +3 ", "2.0e-10"); ("4", "5.0e-11")].

End FluxCalibrate.

(** ** write_pdf.py: the data sheet of a target *)

Module WritePdf.

(** The values of FITS keywords and of the measurements. *)
Inductive value : Type :=
| PyNone
| PyBool (b : bool)
| PyInt (z : Z)
| PyFloat (f : float)
| PyStr (s : string).

Inductive event : Type :=
| Log (lvl : level) (msg arg : string)
| PdfPages (path : string)
| Render (path : string)
| PdfClose (path : string).

(** The state is what the run has done so far. *)
Definition state : Type := list event.

Definition emit (e : event) : M state unit := modify (fun t => (t ++ [e])%list).

Definition logger (lvl : level) (msg arg : string) : M state unit := emit (Log lvl msg arg).

Definition item (d : gmap string value) (key : string) : M state value :=
  match d !! key with
  | Some v => ret v
  | None => raise (KeyError key)
  end.

(** Line 206 *)
Definition header_keys : list string :=
  ["GEMPRGID"; "AIRMASS"; "RA"; "DEC"; "HA"; "AZIMUTH"; "PA";
   "OBSERVAT"; "RAWIQ"; "RAWCC"; "RAWWV"; "RAWBG"; "DATE-OBS"].

(** [v.strip() if isinstance(v, str) else v] *)
Definition stripped (v : value) : value :=
  match v with
  | PyStr s => PyStr (strip s)
  | _ => v
  end.

(** Lines 208-212: one keyword, under its [try]. *)
Definition read_key (header : gmap string value) (data : gmap string value) (key : string)
  : M state (gmap string value) :=
  try_except
    (v <- item header key ;; ret (<[key := stripped v]> data))
    (logger WARNING "%s[%s] is undefined" key ;;; ret (<[key := PyNone]> data)).

(** Lines 204-214: the keywords of the header, then the name of the target. *)
Definition read_headers (header : gmap string value) (data : gmap string value)
  : M state (gmap string value) :=
  logger DEBUG "Reading some FITS header keywords..." "" ;;;
  data <- fold_m (read_key header) header_keys data ;;
  object <- item header "OBJECT" ;;
  match object with
  | PyStr s => ret (<["OBJECT" := PyStr (keep_alphanumeric s)]> data)
  | _ => raise TypeError
  end.

(** Lines 321-333: the latitude of the observatory. *)
Definition location (observatory : value) : result float :=
  match observatory with
  | PyStr o =>
      if String.eqb o "Gemini-North" then Ok 297.35709%float
      else if String.eqb o "Gemini-South" then Ok 453.61125%float
      else Raise (SystemExit "Unknown observatory")
  | _ => Raise (SystemExit "Unknown observatory")
  end.

Section Report.

(** [float(s)] on a string *)
Variable py_float : string -> result float.
(** numpy's constant and functions *)
Variable pi : float.
Variable cos : float -> float.
Variable sin : float -> float.
Variable arctan2 : float -> float -> float.
(** Lines 150-202 of [imexam], IRAF's measurement of the peak and the width,
    and [fits.open(fits_file)[0].header], for the directory of a target. *)
Variable measure : string -> result (value * value).
Variable fits_open : string -> result (gmap string value).
(** [estimate_snr], and lines 55-133: the tables and the plots. *)
Variable estimate_snr : string -> result value.
Variable render : string -> gmap string value -> gmap string value -> result unit.

(** [float(v)] *)
Definition to_float (v : value) : result float :=
  match v with
  | PyFloat f => Ok f
  | PyInt z => Ok (float_of_Z z)
  | PyBool b => Ok (if b then 1%float else 0%float)
  | PyStr s => py_float s
  | PyNone => Raise TypeError
  end.

(** Lines 141-219 *)
Definition imexam (path : string) : M state (gmap string value) :=
  measured <- lift (measure path) ;;
  let data := <["FWHM" := snd measured]> {[ "PEAK" := fst measured ]} in
  header <- lift (fits_open path) ;;
  read_headers header data.

(** Lines 313-317 *)
Definition hms2deg (angle : value) : result float :=
  match angle with
  | PyStr a =>
      match split_on ":" a with
      | [h; m; s] =>
          match py_float h, py_float m, py_float s with
          | Ok h, Ok m, Ok s =>
              let hours :=
                PrimFloat.add (PrimFloat.add h (PrimFloat.div m 60%float))
                  (PrimFloat.div s 3600%float) in
              Ok (PrimFloat.mul (PrimFloat.div hours 24%float) 360%float)
          | Raise e, _, _ => Raise e
          | _, Raise e, _ => Raise e
          | _, _, Raise e => Raise e
          end
      | _ => Raise ValueError
      end
  | _ => Raise AttributeError
  end.

(** Lines 277-309, for degrees *)
Definition parallactic (dec ha lat az : float) : float :=
  let k := PrimFloat.div pi 180%float in
  let dec := PrimFloat.mul dec k in
  let ha := PrimFloat.mul ha k in
  let lat := PrimFloat.mul lat k in
  let az := PrimFloat.mul az k in
  let pa :=
    if negb (PrimFloat.eqb (cos dec) 0%float) then
      let sinp :=
        PrimFloat.div (PrimFloat.mul (PrimFloat.mul (-1)%float (sin az)) (cos lat)) (cos dec) in
      let cosp :=
        PrimFloat.sub (PrimFloat.mul (PrimFloat.mul (-1)%float (cos az)) (cos ha))
          (PrimFloat.mul (PrimFloat.mul (sin az) (sin ha)) (sin lat)) in
      arctan2 sinp cosp
    else if PrimFloat.ltb 0%float lat then pi else 0%float in
  PrimFloat.mul pa (PrimFloat.div 180%float pi).

(** Lines 45-48: the arguments of [parallactic], evaluated in their order. *)
Definition parallactic_angle (d : gmap string value) : M state float :=
  v <- item d "DEC" ;;
  dec <- lift (to_float v) ;;
  v <- item d "HA" ;;
  ha <- lift (hms2deg v) ;;
  v <- item d "OBSERVAT" ;;
  lat <- lift (location v) ;;
  v <- item d "AZIMUTH" ;;
  az <- lift (to_float v) ;;
  ret (parallactic dec ha lat az).

(** Lines 37-135: the data sheet of one science directory. *)
Definition report (path : string) : M state unit :=
  emit (PdfPages (path +:+ "/Final/data_sheet.pdf")) ;;;
  sci <- imexam path ;;
  tel <- imexam (path +:+ "/Telluric") ;;
  snr <- lift (estimate_snr (path +:+ "/Intermediate/ zbduvsrc_comb_order3_MEF.fits[1]")) ;;
  let sci := <["SNR" := snr]> sci in
  snr <- lift (estimate_snr (path +:+ "/Telluric/Intermediate/hvsrc_comb_order3_SEF.fits")) ;;
  let tel := <["SNR" := snr]> tel in
  angle <- parallactic_angle sci ;;
  let sci := <["PARANGLE" := PyFloat angle]> sci in
  angle <- parallactic_angle tel ;;
  let tel := <["PARANGLE" := PyFloat angle]> tel in
  logger DEBUG "SCI: %s" "" ;;;
  logger DEBUG "TEL: %s" "" ;;;
  emit (Render path) ;;;
  lift (render path sci tel) ;;;
  emit (PdfClose path).

(** Lines 30-137: the loop over the items of [ScienceDirectories], whose values
    are the texts of the configuration file. *)
Definition start (items : list (string * string)) : M state unit :=
  for_each items (fun item =>
    let '(path, process) := item in
    logger DEBUG "%s = %s" path ;;;
    if negb (truthy process) then logger DEBUG "Skipping %s" path
    else report path).

End Report.

(** The directories whose data sheet was opened, and those skipped. *)
Definition opened (t : list event) : list string :=
  omap (fun e => match e with PdfPages p => Some p | _ => None end) t.

Definition skipped (t : list event) : list string :=
  omap (fun e => match e with
                 | Log DEBUG "Skipping %s" p => Some p
                 | _ => None
                 end) t.

Definition warned (t : list event) : list string :=
  omap (fun e => match e with
                 | Log WARNING "%s[%s] is undefined" key => Some key
                 | _ => None
                 end) t.

(** A world for the examples: both targets are measured, the headers of the
    science and of its telluric are [sci] and [tel], the numerical functions
    are stand-ins and the pages are drawn. *)
Definition example_header (observatory : option string) : gmap string value :=
  let h : gmap string value :=
    list_to_map
      [("GEMPRGID", PyStr "GN-2019A-Q-1"); ("AIRMASS", PyFloat 1.5%float);
       ("RA", PyFloat 180%float); ("DEC", PyFloat 30%float); ("HA", PyStr "+01:30:00.00");
       ("AZIMUTH", PyFloat 90%float); ("PA", PyFloat 0%float);
       ("RAWIQ", PyStr "70-percentile"); ("RAWCC", PyStr "50-percentile");
       ("RAWWV", PyStr "Any"); ("RAWBG", PyStr "Any"); ("DATE-OBS", PyStr "2019-03-01");
       ("OBJECT", PyStr "NGC 4736")] in
  match observatory with
  | Some o => <["OBSERVAT" := PyStr o]> h
  | None => h
  end.

Definition example_report (sci tel : gmap string value) (items : list (string * string))
  : result unit * state :=
  start float_of_string 3.25%float (fun x => x) (fun x => x) (fun x _ => x)
    (fun _ => Ok (PyFloat 1000%float, PyFloat 0.5%float))
    (fun path => if String.eqb path "obs" then Ok sci else Ok tel)
    (fun _ => Ok (PyFloat 50%float))
    (fun _ _ _ => Ok tt)
    items [].

(** *** The measurements of [imexam] and [estimate_snr] *)

Section Measures.

(** [float(s)] on a string *)
Variable py_float : string -> result float.
(** The lines of [Intermediate/database/apsrc_comb_SCI_1_] under a directory,
    IRAF's imexam with the cursor at a position (the lines of its log), and
    IRAF's continuum and bplot on a spectrum (the lines bplot printed). *)
Variable aperture_file : string -> result (list string).
Variable iraf_imexam : string -> float -> result (list string).
Variable iraf_bplot : string -> result (list string).
(** [fits.open(fits_file)[0].header], for the directory of a target. *)
Variable fits_open : string -> result (gmap string value).

(** Lines 157-160: the loop ends at the first line that contains [center]. *)
Fixpoint center_of (lines : list string) : result (option float) :=
  match lines with
  | [] => Ok None
  | line :: lines' =>
      if contains "center" line then
        and_then (nth_item (words line) 1) (fun w =>
        and_then (py_float w) (fun xpos => Ok (Some xpos)))
      else center_of lines'
  end.

(** Lines 156-161: [xpos] is read by line 161, bound or not. *)
Definition spectrum_position (lines : list string) : result float :=
  and_then (center_of lines) (fun xpos =>
  match xpos with
  | Some x => Ok x
  | None => Raise (UnboundLocalError "xpos")
  end).

(** The variables of lines 184-196. *)
Record measures : Type := Measures {
  center : option float;
  peak : value;
  fwhm : value }.

(** Lines 187-196: the loop over the lines of the log; a line that is no
    comment is logged before its words are read. *)
Fixpoint read_imexam_log (lines : list string) (m : measures) : M state measures :=
  match lines with
  | [] => ret m
  | line :: lines' =>
      if contains "#" line then read_imexam_log lines' m
      else
        logger DEBUG "%s" (strip line) ;;;
        let vals := words (replace_char "=" " " line) in
        v0 <- lift (nth_item vals 0) ;;
        if String.eqb v0 "Lines" then
          v3 <- lift (nth_item vals 3) ;;
          c <- lift (py_float v3) ;;
          v5 <- lift (nth_item vals 5) ;;
          p <- lift (py_float v5) ;;
          v9 <- lift (nth_item vals 9) ;;
          f <- lift (py_float v9) ;;
          ret (Measures (Some c) (PyFloat p) (PyFloat f))
        else read_imexam_log lines' m
  end.

(** Lines 184-198: PEAK and FWHM, the first entries of [data]; [center] is
    read by line 197, bound or not. *)
Definition imexam_log (lines : list string) : M state (value * value) :=
  m <- read_imexam_log lines (Measures None PyNone PyNone) ;;
  match center m with
  | Some _ =>
      logger DEBUG "center = %s  peak = %s  fwhm = %s" "" ;;;
      ret (peak m, fwhm m)
  | None => raise (UnboundLocalError "center")
  end.

(** The rows of the log that the loop of line 187 passes over: comments, and
    rows whose first word is not [Lines]. *)
Definition no_lines_row (line : string) : Prop :=
  contains "#" line = true
  \/ exists w ws, words (replace_char "=" " " line) = w :: ws /\ w <> "Lines".

(** Lines 150-202 of [imexam], with what they log: what [measure] stands for
    in [Report].  The log of IRAF's imexam is taken to be there when the call
    of line 179 returns. *)
Definition measure_spectrum (path : string) : M state (value * value) :=
  lines <- lift (aperture_file path) ;;
  xpos <- lift (spectrum_position lines) ;;
  logger DEBUG "Spectrum X-position: %.2f pix" "" ;;;
  logger INFO "Running IRAF imexam to measure the spectrum peak and FHWM..." "" ;;;
  logger DEBUG "iraf.jimexam.sigma = %0.3f" "" ;;;
  logger DEBUG "iraf.jimexam.naverage = %0.3f" "" ;;;
  log_lines <- lift (iraf_imexam path xpos) ;;
  logger DEBUG "Parsing imexam results from the log file..." "" ;;;
  measured <- imexam_log log_lines ;;
  logger DEBUG "Cleaning up..." "" ;;;
  ret measured.

(** Lines 141-219 with the measurement written out: [imexam] on what
    [measure_spectrum] has measured. *)
Definition imexam_measured (path : string) : M state (gmap string value) :=
  measured <- measure_spectrum path ;;
  imexam (fun _ => Ok measured) fits_open path.

(** What lines 161-190 log when the log of IRAF's imexam holds [log_lines]
    and the loop reads all of them. *)
Definition measurement_logs (log_lines : list string) : list event :=
  ([Log DEBUG "Spectrum X-position: %.2f pix" "";
    Log INFO "Running IRAF imexam to measure the spectrum peak and FHWM..." "";
    Log DEBUG "iraf.jimexam.sigma = %0.3f" "";
    Log DEBUG "iraf.jimexam.naverage = %0.3f" "";
    Log DEBUG "Parsing imexam results from the log file..." ""]
   ++ map (fun line => Log DEBUG "%s" (strip line))
        (List.filter (fun line => negb (contains "#" line)) log_lines))%list.

(** Lines 263-267: the last line that contains [snr] sets the value. *)
Fixpoint snr_of (lines : list string) (snr : value) : result value :=
  match lines with
  | [] => Ok snr
  | line :: lines' =>
      if contains "snr" line then
        match last (words line) with
        | Some w => and_then (py_float w) (fun x => snr_of lines' (PyFloat x))
        | None => Raise IndexError
        end
      else snr_of lines' snr
  end.

(** Lines 223-273 *)
Definition estimate_snr_of (onedspectrum : string) : result value :=
  and_then (iraf_bplot onedspectrum) (fun lines => snr_of lines PyNone).

End Measures.

(** *** The pages of the data sheet *)

(** [d[key]] *)
Definition lookup_item (d : gmap string value) (key : string) : result value :=
  match d !! key with
  | Some v => Ok v
  | None => Raise (KeyError key)
  end.

Fixpoint lookups (d : gmap string value) (keys : list string) : result (list value) :=
  match keys with
  | [] => Ok []
  | key :: keys' =>
      and_then (lookup_item d key) (fun v =>
      and_then (lookups d keys') (fun vs => Ok (v :: vs)))
  end.

(** [a + b] where one side is text: the other side must be text too. *)
Definition plus_text (a : value) (b : string) : result string :=
  match a with
  | PyStr s => Ok (s +:+ b)
  | _ => Raise TypeError
  end.

Definition text_plus (a : string) (b : value) : result string :=
  match b with
  | PyStr s => Ok (a +:+ s)
  | _ => Raise TypeError
  end.

(** [abs(a - b)]: integers (and booleans) stay integers, a float on either
    side makes a float, anything else has no subtraction. *)
Definition as_int (v : value) : option Z :=
  match v with
  | PyInt z => Some z
  | PyBool b => Some (if b then 1 else 0)%Z
  | _ => None
  end.

Definition as_float (v : value) : option float :=
  match v with
  | PyFloat f => Some f
  | _ => option_map float_of_Z (as_int v)
  end.

Definition abs_difference (a b : value) : result value :=
  match as_int a, as_int b with
  | Some x, Some y => Ok (PyInt (Z.abs (x - y)))
  | _, _ =>
      match as_float a, as_float b with
      | Some x, Some y => Ok (PyFloat (PrimFloat.abs (PrimFloat.sub x y)))
      | _, _ => Raise TypeError
      end
  end.

(** The options of the configuration file that lines 110-133 read. *)
Record page_options : Type := PageOptions {
  orderScalingRegions : list (string * string);
  extractFullSlit : string;
  extractStepwise : string }.

(** The names bound at module level: the imports of lines 3-16 and the
    functions the module defines. *)
Definition module_globals : list string :=
  ["fits"; "ConfigParser"; "datetime"; "log"; "matplotlib"; "pyplot"; "PdfPages"; "table";
   "iraf"; "numpy"; "os"; "re"; "utils";
   "start"; "imexam"; "estimate_snr"; "parallactic"; "hms2deg"; "location"; "plot_orders"].

Section Pages.

Variable options : page_options.
(** matplotlib and numpy: the figure of lines 58-61, [table], the footer and
    the second axes of lines 75-82, lines 84-104 (the spectrum of the target,
    read from the file named, and Vega), and the call of [plot_orders] of
    lines 115-126 with the regions of the orders.  The sections and options
    that lines 88-131 read are taken to be in the configuration file. *)
Variable figure : result unit.
Variable table : string -> list (list value) -> result unit.
Variable annotate : result unit.
Variable plot_spectrum : string -> result unit.
Variable plot_scaled_orders : gmap Z string -> result unit.

(** [sci['GEMPRGID'] + '\n' + sci['DATE-OBS']] *)
Definition heading (sci : gmap string value) : result string :=
  and_then (lookup_item sci "GEMPRGID") (fun program =>
  and_then (plus_text program (String "010" "")) (fun s =>
  and_then (lookup_item sci "DATE-OBS") (fun date =>
  text_plus s date))).

(** A row of the bottom table (lines 71-72) *)
Definition bottom_row (d : gmap string value) : result (list value) :=
  and_then (lookups d ["OBJECT"; "PA"; "PARANGLE"]) (fun first =>
  and_then (lookup_item d "PA") (fun pa =>
  and_then (lookup_item d "PARANGLE") (fun parangle =>
  and_then (abs_difference pa parangle) (fun diff =>
  and_then (lookups d ["RAWIQ"; "RAWCC"; "RAWWV"; "RAWBG"]) (fun rest =>
  Ok (first ++ diff :: rest)%list))))).

(** Lines 110-112 *)
Fixpoint regions_of (items : list (string * string)) (regions : gmap Z string)
  : result (gmap Z string) :=
  match items with
  | [] => Ok regions
  | (order, r) :: items' =>
      and_then (int order) (fun o => regions_of items' (<[o := r]> regions))
  end.

(** Lines 128-133: [plot_orders] takes three arguments and is given two;
    [steps] is not a name of the module, so the loop of line 132 has no
    round. *)
Definition plot_other_extractions : result unit :=
  and_then (getboolean (extractFullSlit options)) (fun full =>
  and_then (if full : bool then Raise TypeError else Ok tt) (fun _ =>
  and_then (getboolean (extractStepwise options)) (fun stepwise =>
  if stepwise : bool then
    if bool_decide ("steps" ∈ (module_globals ++ builtins)%list) then Ok tt
    else Raise (NameError "steps")
  else Ok tt))).

(** Lines 58-133: what [render] stands for in [Report]. *)
Definition pages (path : string) (sci tel : gmap string value) : result unit :=
  and_then figure (fun _ =>
  and_then (heading sci) (fun labels =>
  and_then (lookups sci ["OBJECT"; "PEAK"; "FWHM"; "SNR"; "AIRMASS"; "HA"]) (fun row1 =>
  and_then (lookups tel ["OBJECT"; "PEAK"; "FWHM"; "SNR"; "AIRMASS"; "HA"]) (fun row2 =>
  and_then (table labels [row1; row2]) (fun _ =>
  and_then (heading sci) (fun labels =>
  and_then (bottom_row sci) (fun row1 =>
  and_then (bottom_row tel) (fun row2 =>
  and_then (table labels [row1; row2]) (fun _ =>
  and_then annotate (fun _ =>
  and_then (lookup_item sci "OBJECT") (fun object =>
  and_then (text_plus (path +:+ "/Final/") object) (fun file =>
  and_then (plot_spectrum (file +:+ "_src.txt")) (fun _ =>
  and_then (regions_of (orderScalingRegions options) ∅) (fun regions =>
  and_then (plot_scaled_orders regions) (fun _ =>
  plot_other_extractions))))))))))))))).

End Pages.

(** The directories whose data sheet was closed. *)
Definition closed (t : list event) : list string :=
  omap (fun e => match e with PdfClose p => Some p | _ => None end) t.

(** A computation that closes no data sheet, and one that closes a data
    sheet only if [P] holds. *)
Definition unclosed {A} (m : M state A) : Prop :=
  forall t r t', m t = (r, t') -> closed t' = closed t.

Definition closes_only_if (P : Prop) {A} (m : M state A) : Prop :=
  forall t r t', m t = (r, t') -> closed t' = closed t \/ P.

(** A header that has a keyword, with a value. *)
Definition has_keyword (header : gmap string value) (key : string) : Prop :=
  exists v, header !! key = Some v /\ v <> PyNone.

(** A world for the examples, with the pages drawn by [pages] from stand-ins
    for matplotlib: the two options are the texts of the configuration. *)
Definition example_pages (full stepwise : string)
  : string -> gmap string value -> gmap string value -> result unit :=
  pages (PageOptions [("3", "200:800")] full stepwise)
    (Ok tt) (fun _ _ => Ok tt) (Ok tt) (fun _ => Ok tt) (fun _ => Ok tt).

Definition example_sheet (sci tel : gmap string value) (full stepwise : string)
  : result unit * state :=
  report float_of_string 3.25%float (fun x => x) (fun x => x) (fun x _ => x)
    (fun _ => Ok (PyFloat 1000%float, PyFloat 0.5%float))
    (fun path => if String.eqb path "obs" then Ok sci else Ok tel)
    (fun _ => Ok (PyFloat 50%float))
    (example_pages full stepwise)
    "obs" [].

(** A world for the examples of [imexam]: an aperture file, the log of
    IRAF's imexam, and a header. *)
Definition example_imexam (aperture log_lines : list string)
  : result (gmap string value) * state :=
  imexam_measured float_of_string (fun _ => Ok aperture) (fun _ _ => Ok log_lines)
    (fun _ => Ok (example_header (Some "Gemini-North"))) "obs" [].

End WritePdf.

(** ** Properties of [CheckData.checklist] *)

Section CheckDataFacts.

Import CheckData.

(** Every order in which the dictionary can list the items of a counter is
    one of the enumerated permutations. *)
Lemma dict_order_cases (freq items : list (float * nat)) :
  Permutation freq items -> freq ∈ permutations items.
Proof.
  intros Hperm. apply permutations_Permutation. symmetry. exact Hperm.
Qed.

(** The outcome of a run on a manifest: the result, the backup and the list. *)
Definition outcome (freq : list (float * nat)) (times : list float)
  : result unit * option (list string) * option (list string) :=
  let '(r, s) := run (fun _ => freq) times in
  (r, fs s !! "obs/src.list.bak", fs s !! "obs/src.list").

(** The exposure times of the spec's example are pruned as it says, whatever
    the order of the counter: the three 5 s frames stay, the original list is
    kept in the backup. *)
Lemma checklist_prunes_5_5_5_300 (freq : list (float * nat)) :
  Permutation freq (Counter [5; 5; 5; 300]%float) ->
  outcome freq [5; 5; 5; 300]%float
  = (Ok tt, Some ["N1.fits"; "N2.fits"; "N3.fits"; "N4.fits"],
     Some ["N1.fits"; "N2.fits"; "N3.fits"]).
Proof.
  intros Hperm. apply dict_order_cases in Hperm. vm_compute in Hperm.
  repeat (apply elem_of_cons in Hperm as [-> | Hperm]); try (vm_compute; reflexivity).
  apply elem_of_nil in Hperm. destruct Hperm.
Qed.

(** C5. Exposure times 1, 1, 5 and 300 s have the unique most common value
    1 s (two frames); [checklist] nevertheless ends the run with SystemExit,
    makes no backup and leaves the list as it was, because the count of peaks
    compares the counts 2, 1, 1 with the value 1. *)
Theorem checklist_unique_mode_1_1_5_300_exits (freq : list (float * nat)) :
  Permutation freq (Counter [1; 1; 5; 300]%float) ->
  most_common1 freq = Ok (1%float, 2%nat)
  /\ values_count freq 1%float = 2%nat
  /\ outcome freq [1; 1; 5; 300]%float
     = (Raise (SystemExit ""), None,
        Some ["N1.fits"; "N2.fits"; "N3.fits"; "N4.fits"]).
Proof.
  intros Hperm. apply dict_order_cases in Hperm. vm_compute in Hperm.
  repeat (apply elem_of_cons in Hperm as [-> | Hperm]);
    try (vm_compute; repeat split; reflexivity).
  apply elem_of_nil in Hperm. destruct Hperm.
Qed.

Lemma checklist_unique_mode_1_1_5_300_exits_witness :
  Permutation (Counter [1; 1; 5; 300]%float) (Counter [1; 1; 5; 300]%float)
  /\ outcome (Counter [1; 1; 5; 300]%float) [1; 1; 5; 300]%float
     = (Raise (SystemExit ""), None,
        Some ["N1.fits"; "N2.fits"; "N3.fits"; "N4.fits"]).
Proof.
  split; [reflexivity |].
  apply (checklist_unique_mode_1_1_5_300_exits (Counter [1; 1; 5; 300]%float)).
  reflexivity.
Defined.

(** C6. Exposure times 5, 5, 300, 300 s tie for the most common value; the
    run is not terminated: [checklist] returns normally, backs the list up and
    rewrites it to the two frames of whichever value the counter lists
    first. *)
Theorem checklist_tie_5_5_300_300_prunes (freq : list (float * nat)) :
  Permutation freq (Counter [5; 5; 300; 300]%float) ->
  values_count freq 5%float = 0%nat
  /\ values_count freq 300%float = 0%nat
  /\ (outcome freq [5; 5; 300; 300]%float
      = (Ok tt, Some ["N1.fits"; "N2.fits"; "N3.fits"; "N4.fits"],
         Some ["N1.fits"; "N2.fits"])
      \/ outcome freq [5; 5; 300; 300]%float
      = (Ok tt, Some ["N1.fits"; "N2.fits"; "N3.fits"; "N4.fits"],
         Some ["N3.fits"; "N4.fits"])).
Proof.
  intros Hperm. apply dict_order_cases in Hperm. vm_compute in Hperm.
  repeat (apply elem_of_cons in Hperm as [-> | Hperm]);
    try (vm_compute; repeat split; try reflexivity;
         first [left; reflexivity | right; reflexivity]).
  apply elem_of_nil in Hperm. destruct Hperm.
Qed.

Lemma checklist_tie_5_5_300_300_prunes_witness :
  Permutation (Counter [5; 5; 300; 300]%float) (Counter [5; 5; 300; 300]%float)
  /\ is_ok (fst (fst (outcome (Counter [5; 5; 300; 300]%float) [5; 5; 300; 300]%float)))
     = true.
Proof.
  split; [reflexivity |].
  destruct (checklist_tie_5_5_300_300_prunes (Counter [5; 5; 300; 300]%float))
    as (_ & _ & [H | H]); [reflexivity | rewrite H; reflexivity | rewrite H; reflexivity].
Defined.

End CheckDataFacts.

(** ** Properties of the monad *)

Section MonadFacts.

Context {S : Type}.

Lemma bind_inv {A B} (m : M S A) (k : A -> M S B) s r s' :
  Py.bind m k s = (r, s') ->
  (exists a s1, m s = (Ok a, s1) /\ k a s1 = (r, s'))
  \/ (exists e, m s = (Raise e, s') /\ r = Raise e).
Proof.
  unfold Py.bind. destruct (m s) as [[a | e] s1] eqn:Hm; intros H.
  - left. exists a, s1. split; [reflexivity | exact H].
  - right. exists e. inversion H; subst. split; reflexivity.
Qed.

Lemma lift_inv {A} (x : result A) (s : S) r s' :
  Py.lift x s = (r, s') -> r = x /\ s' = s.
Proof. unfold Py.lift. intros H. inversion H. split; reflexivity. Qed.

Lemma ret_inv {A} (a : A) (s : S) r s' :
  Py.ret a s = (r, s') -> r = Ok a /\ s' = s.
Proof. unfold Py.ret. intros H. inversion H. split; reflexivity. Qed.

Lemma raise_inv {A} e (s : S) (r : result A) s' :
  Py.raise e s = (r, s') -> r = Raise e /\ s' = s.
Proof. unfold Py.raise. intros H. inversion H. split; reflexivity. Qed.

End MonadFacts.

(** ** Properties of the stage runner *)

Section BaselineFacts.

Import BaselineCalibration.

(** A computation only appends events to the trace, all of them in [P]. *)
Definition appends (P : event -> Prop) {A} (m : M state A) : Prop :=
  forall s r s', m s = (r, s') ->
    exists evs, trace s' = (trace s ++ evs)%list /\ Forall P evs.

Lemma appends_ret P {A} (a : A) : appends P (Py.ret a).
Proof.
  intros s r s' H. apply ret_inv in H as [_ ->]. exists [].
  rewrite app_nil_r. split; [reflexivity | constructor].
Qed.

Lemma appends_raise P {A} e : appends P (@Py.raise state A e).
Proof.
  intros s r s' H. apply raise_inv in H as [_ ->]. exists [].
  rewrite app_nil_r. split; [reflexivity | constructor].
Qed.

Lemma appends_lift P {A} (x : result A) : appends P (@Py.lift state A x).
Proof.
  intros s r s' H. apply lift_inv in H as [_ ->]. exists [].
  rewrite app_nil_r. split; [reflexivity | constructor].
Qed.

Lemma appends_bind P {A B} (m : M state A) (k : A -> M state B) :
  appends P m -> (forall a, appends P (k a)) -> appends P (Py.bind m k).
Proof.
  intros Hm Hk s r s' H.
  apply bind_inv in H as [(a & s1 & H1 & H2) | (e & H1 & _)].
  - apply Hm in H1 as (evs1 & E1 & F1). apply Hk in H2 as (evs2 & E2 & F2).
    exists (evs1 ++ evs2)%list. split.
    + rewrite E2, E1, app_assoc. reflexivity.
    + apply Forall_app. split; assumption.
  - apply Hm in H1. exact H1.
Qed.

Lemma appends_emit (P : event -> Prop) e : P e -> appends P (emit e).
Proof.
  intros He s r s' H. unfold emit, Py.modify in H. inversion H; subst.
  exists [e]. split; [reflexivity | repeat constructor; exact He].
Qed.

Lemma appends_raw_input (P : event -> Prop) text :
  P (Prompt text) -> appends P (raw_input text).
Proof.
  intros HP. unfold raw_input. apply appends_bind; [apply appends_emit; exact HP |].
  intros _. apply appends_bind.
  - intros s r s' H. unfold Py.get in H. inversion H; subst. exists [].
    rewrite app_nil_r. split; [reflexivity | constructor].
  - intros st. destruct (stdin st) as [| line rest]; [apply appends_raise |].
    apply appends_bind; [| intros _; apply appends_ret].
    intros s r s' H. unfold Py.modify in H. inversion H; subst. exists [].
    simpl. rewrite app_nil_r. split; [reflexivity | constructor].
Qed.

Definition not_a_step (e : event) : Prop :=
  match e with Enter _ | Completed _ => False | _ => True end.

Definition is_prompt (e : event) : Prop :=
  match e with Prompt _ => True | _ => False end.

Lemma entered_app t1 t2 : entered (t1 ++ t2) = (entered t1 ++ entered t2)%list.
Proof. unfold entered. apply omap_app. Qed.

Lemma entered_not_a_step evs : Forall not_a_step evs -> entered evs = [].
Proof.
  induction 1 as [| e evs He _ IH]; [reflexivity |].
  destruct e; simpl in *; try contradiction; exact IH.
Qed.

Lemma entered_prompts evs : Forall is_prompt evs -> entered evs = [].
Proof.
  induction 1 as [| e evs He _ IH]; [reflexivity |].
  destruct e; simpl in *; try contradiction; exact IH.
Qed.

(** The range check enters no step. *)
Lemma check_range_appends fuel :
  forall valindex stop, appends not_a_step (check_range fuel valindex stop).
Proof.
  induction fuel as [| fuel IH]; intros valindex stop; simpl;
    destruct (invalid valindex stop); try apply appends_ret.
  apply appends_bind; [apply appends_emit; exact I | intros _].
  apply appends_bind; [apply appends_raw_input; exact I | intros a].
  apply appends_bind; [apply appends_lift | intros v].
  apply appends_bind; [apply appends_raw_input; exact I | intros b].
  apply appends_bind; [apply appends_lift | intros w].
  apply IH.
Qed.

(** A range that the check lets through is valid. *)
Lemma check_range_valid fuel :
  forall valindex stop s v w s',
    check_range fuel valindex stop s = (Ok (Some (v, w)), s') ->
    invalid v w = false.
Proof.
  induction fuel as [| fuel IH]; intros valindex stop s v w s'; simpl;
    destruct (invalid valindex stop) eqn:Hinv; intros H;
    try (apply ret_inv in H as [H _]; inversion H; subst; try exact Hinv; fail).
  apply bind_inv in H as [(? & s1 & _ & H) | (e & _ & H)]; [| discriminate].
  apply bind_inv in H as [(a & s2 & _ & H) | (e & _ & H)]; [| discriminate].
  apply bind_inv in H as [(v' & s3 & _ & H) | (e & _ & H)]; [| discriminate].
  apply bind_inv in H as [(b & s4 & _ & H) | (e & _ & H)]; [| discriminate].
  apply bind_inv in H as [(w' & s5 & _ & H) | (e & _ & H)]; [| discriminate].
  eapply IH. exact H.
Qed.

Lemma raw_input_stdin text s r s' :
  raw_input text s = (r, s') ->
  (r = Raise EOFError /\ stdin s = [])
  \/ (exists line, r = Ok line /\ stdin s = line :: stdin s').
Proof.
  unfold raw_input, emit, Py.bind, Py.modify, Py.get. simpl.
  destruct (stdin s) as [| line rest] eqn:Hs; simpl; intros H; inversion H; subst.
  - left. split; reflexivity.
  - right. exists line. split; reflexivity.
Qed.

Lemma emit_stdin e s r s' : emit e s = (r, s') -> stdin s' = stdin s.
Proof. unfold emit, Py.modify. intros H. inversion H. reflexivity. Qed.

(** With more fuel than typed lines the range check does not run out. *)
Lemma check_range_fuel fuel :
  forall valindex stop s s',
    (length (stdin s) < fuel)%nat ->
    check_range fuel valindex stop s <> (Ok None, s').
Proof.
  induction fuel as [| fuel IH]; intros valindex stop s s' Hlen; [lia |].
  simpl. destruct (invalid valindex stop).
  2: { intros H. apply ret_inv in H as [H _]. discriminate. }
  intros H.
  apply bind_inv in H as [(? & s1 & H1 & H) | (e & _ & H)]; [| discriminate].
  apply emit_stdin in H1.
  apply bind_inv in H as [(a & s2 & H2 & H) | (e & _ & H)]; [| discriminate].
  apply raw_input_stdin in H2 as [[H2 _] | (line & _ & H2)]; [discriminate |].
  apply bind_inv in H as [(v' & s3 & H3 & H) | (e & _ & H)]; [| discriminate].
  apply lift_inv in H3 as [_ ->].
  apply bind_inv in H as [(b & s4 & H4 & H) | (e & _ & H)]; [| discriminate].
  apply raw_input_stdin in H4 as [[H4 _] | (line' & _ & H4)]; [discriminate |].
  apply bind_inv in H as [(w' & s5 & H5 & H) | (e & _ & H)]; [| discriminate].
  apply lift_inv in H5 as [_ ->].
  apply IH in H; [exact H |].
  rewrite <- H1, H2, H4 in Hlen. simpl in Hlen. lia.
Qed.

Section WithSteps.

Variable manualMode : bool.
Variable calpath : string.
Variable nominal_wavelengths : bool.
Variable arrayid : string.
Variable prepareCalibrations : string -> result unit.
Variable makeFlat : result unit.
Variable makeSdistortion : string -> Z -> result unit.
Variable makeWaveCal : string -> result unit.

Let step := step manualMode calpath nominal_wavelengths arrayid
              prepareCalibrations makeFlat makeSdistortion makeWaveCal.
Let steps := steps manualMode calpath nominal_wavelengths arrayid
               prepareCalibrations makeFlat makeSdistortion makeWaveCal.

Lemma appends_manual_pause (P : event -> Prop) text :
  P (Prompt text) -> appends P (manual_pause manualMode text).
Proof.
  intros HP. unfold manual_pause. destruct manualMode; [| apply appends_ret].
  apply appends_bind; [apply appends_raw_input; exact HP | intros _; apply appends_ret].
Qed.

(** A step index between 1 and 5 enters exactly its own branch. *)
Lemma step_enters valindex s r s' :
  (1 <= valindex <= 5)%Z ->
  step valindex s = (r, s') ->
  entered (trace s') = (entered (trace s) ++ [valindex])%list.
Proof.
  intros Hv H.
  assert (Hcases : valindex = 1%Z \/ valindex = 2%Z \/ valindex = 3%Z
                   \/ valindex = 4%Z \/ valindex = 5%Z) by lia.
  assert (Hrest : forall (rest : M state unit),
             appends is_prompt rest ->
             (emit (Enter valindex) ;;; rest) s = (r, s') ->
             entered (trace s') = (entered (trace s) ++ [valindex])%list).
  { intros rest Hrest Hrun.
    apply bind_inv in Hrun as [(? & s1 & H1 & H2) | (e & H1 & _)].
    - unfold emit, Py.modify in H1. inversion H1; subst.
      apply Hrest in H2 as (evs & -> & Hevs). simpl.
      rewrite !entered_app, (entered_prompts _ Hevs), app_nil_r. reflexivity.
    - unfold emit, Py.modify in H1. inversion H1. }
  unfold step, BaselineCalibration.step in H.
  destruct Hcases as [-> | [-> | [-> | [-> | ->]]]]; simpl in H;
    (eapply Hrest; [| exact H]).
  - apply appends_manual_pause; exact I.
  - apply appends_bind; [apply appends_manual_pause; exact I | intros _].
    apply appends_bind; [| intros; apply appends_lift].
    destruct (String.eqb arrayid "SN7638228.1"); [apply appends_ret |].
    destruct (String.eqb arrayid "SN7638228.1.2");
      [apply appends_ret | apply appends_raise].
  - apply appends_bind; [apply appends_manual_pause; exact I | intros _; apply appends_lift].
  - apply appends_bind; [apply appends_manual_pause; exact I | intros _].
    apply appends_bind; [| intros; apply appends_lift].
    destruct (contains "LB_SXD" calpath || contains "LB_LXD" calpath);
      [apply appends_ret |].
    destruct (contains "SB_SXD" calpath); [apply appends_ret | apply appends_raise].
  - apply appends_bind; [apply appends_manual_pause; exact I | intros _].
    apply appends_bind.
    { destruct (contains "10" calpath && contains "32" calpath);
        [apply appends_ret |].
      destruct (contains "110" calpath); [apply appends_ret | apply appends_raise]. }
    intros coordlist. apply appends_bind; [| intros; apply appends_lift].
    destruct nominal_wavelengths; [apply appends_ret | apply appends_raise].
Qed.

(** The step loop enters the indices from [valindex] upwards, one after the
    other, and all of them up to [stop] when it returns; it does not run out
    of fuel. *)
Lemma steps_sequence fuel :
  forall valindex stop s r s',
    (1 <= valindex)%Z -> (stop <= 5)%Z ->
    (Z.to_nat (stop + 1 - valindex) <= fuel)%nat ->
    steps fuel valindex stop s = (r, s') ->
    r <> Ok None
    /\ exists c : Z,
        (0 <= c <= Z.max 0 (stop + 1 - valindex))%Z
        /\ entered (trace s') = (entered (trace s) ++ seqZ valindex c)%list
        /\ (r = Ok (Some tt) -> c = Z.max 0 (stop + 1 - valindex)).
Proof.
  induction fuel as [| fuel IH]; intros valindex stop s r s' Hlo Hhi Hfuel H;
    unfold steps in H; simpl in H; fold steps in H;
    destruct (Z.leb_spec valindex stop) as [Hle | Hgt]; try lia.
  - apply ret_inv in H as [-> ->]. split; [discriminate |].
    exists 0%Z. rewrite app_nil_r. repeat split; lia.
  - apply bind_inv in H as [(? & s1 & H1 & H) | (e & H1 & ->)].
    + apply step_enters in H1; [| lia].
      apply bind_inv in H as [(? & s2 & H2 & H) | (e & H2 & ->)].
      * unfold emit, Py.modify in H2. inversion H2; subst s2. clear H2.
        apply IH in H as (Hnone & c & Hc & Hent & Hall); [| lia | lia | lia].
        split; [exact Hnone |]. exists (c + 1)%Z. split; [lia |]. split.
        -- rewrite Hent. simpl. rewrite entered_app, H1. simpl.
           rewrite app_nil_r, <- app_assoc. simpl.
           rewrite (seqZ_cons valindex (c + 1)) by lia.
           replace (Z.pred (c + 1)) with c by lia.
           replace (Z.succ valindex) with (valindex + 1)%Z by lia. reflexivity.
        -- intros Hr. specialize (Hall Hr). lia.
      * unfold emit, Py.modify in H2. inversion H2.
    + apply step_enters in H1; [| lia]. split; [discriminate |].
      exists 1%Z. split; [lia |]. split; [exact H1 | discriminate].
  - apply ret_inv in H as [-> ->]. split; [discriminate |].
    exists 0%Z. rewrite app_nil_r. repeat split; lia.
Qed.

Definition after_the_check (e : event) : Prop := e <> InvalidRange.

Ltac appends_steps :=
  repeat first
    [ apply appends_ret | apply appends_raise | apply appends_lift
    | apply appends_emit; discriminate
    | apply appends_manual_pause; discriminate
    | apply appends_bind; [| intros ?]
    | match goal with
      | |- appends _ (if ?c then _ else _) => destruct c
      end ].

(** The step loop never warns about the range. *)
Lemma steps_appends fuel :
  forall valindex stop, appends after_the_check (steps fuel valindex stop).
Proof.
  induction fuel as [| fuel IH]; intros valindex stop;
    unfold steps; simpl; fold steps; unfold after_the_check.
  - appends_steps.
  - destruct (valindex <=? stop)%Z; [| apply appends_ret].
    apply appends_bind; [| intros ?].
    + unfold BaselineCalibration.step. appends_steps.
    + apply appends_bind; [apply appends_emit; discriminate | intros ?].
      apply IH.
Qed.

(** One calibration directory, with the lines the user will type.  The
    range check enters no step; a valid configured range passes it untouched
    and without a prompt; it ends with an exception (no step is run) or with
    a range 1 <= valindex <= stop <= 5.  The step loop then enters the
    indices valindex, valindex + 1, ... in this order, each once, warns no
    more about the range, and has entered all of them through stop when it
    returns normally. *)
Theorem stage_runner_steps_in_order (start stop : Z) (lines : list string) :
  let s0 := State lines [] in
  let checked := check_range (S (length lines)) start stop s0 in
  let run := reduce manualMode calpath nominal_wavelengths arrayid
               prepareCalibrations makeFlat makeSdistortion makeWaveCal
               start stop s0 in
  entered (trace (snd checked)) = []
  /\ (invalid start stop = false -> checked = (Ok (Some (start, stop)), s0))
  /\ match fst checked with
     | Raise e => run = (Raise e, snd checked)
     | Ok None => False
     | Ok (Some (valindex, stop')) =>
         (1 <= valindex <= stop')%Z /\ (stop' <= 5)%Z
         /\ fst run <> Ok None
         /\ (exists evs, trace (snd run) = (trace (snd checked) ++ evs)%list
                         /\ Forall after_the_check evs)
         /\ exists c : Z,
             (0 <= c <= stop' + 1 - valindex)%Z
             /\ entered (trace (snd run)) = seqZ valindex c
             /\ (fst run = Ok (Some tt) -> c = (stop' + 1 - valindex)%Z)
     end.
Proof.
  intros s0 checked run.
  destruct checked as [rc sc] eqn:Hc. unfold checked in Hc. simpl.
  pose proof (check_range_appends _ _ _ _ _ _ Hc) as (evs & Htr & Hevs).
  assert (Hent : entered (trace sc) = []).
  { rewrite Htr. simpl. apply entered_not_a_step. exact Hevs. }
  split; [exact Hent |]. split.
  { intros Hvalid. rewrite <- Hc. simpl. rewrite Hvalid. reflexivity. }
  assert (Hrun : run = match rc with
                       | Ok (Some (valindex, stop')) =>
                           steps (Z.to_nat (stop' + 1 - valindex)) valindex stop' sc
                       | Ok None => (Ok None, sc)
                       | Raise e => (Raise e, sc)
                       end).
  { unfold run, reduce, Py.bind, Py.get. fold s0. simpl stdin.
    rewrite Hc. destruct rc as [[[v w] |] | e]; reflexivity. }
  destruct rc as [[[valindex stop'] |] | e].
  - pose proof (check_range_valid _ _ _ _ _ _ _ Hc) as Hvalid.
    unfold invalid in Hvalid.
    apply orb_false_elim in Hvalid as [Hvalid H5].
    apply orb_false_elim in Hvalid as [Hvs H1].
    apply Z.ltb_ge in Hvs, H1, H5.
    split; [lia |]. split; [lia |].
    destruct run as [r s'] eqn:Hr. simpl. symmetry in Hrun.
    pose proof (steps_appends _ _ _ _ _ _ Hrun) as Hafter.
    apply steps_sequence in Hrun as (Hnone & c & Hc' & Hseq & Hall); try lia.
    split; [exact Hnone |]. split; [exact Hafter |].
    exists c. rewrite Hseq, Hent. simpl. repeat split; try lia.
    intros Hok. specialize (Hall Hok). lia.
  - eapply check_range_fuel; [| exact Hc]. simpl. lia.
  - exact Hrun.
Qed.

End WithSteps.

Lemma bind_assoc {S A B C} (m : M S A) (f : A -> M S B) (g : B -> M S C) s :
  Py.bind (Py.bind m f) g s = Py.bind m (fun x => Py.bind (f x) g) s.
Proof. unfold Py.bind. destruct (m s) as [[a | e] s1]; reflexivity. Qed.

Lemma bind_ok {S A B} (m : M S A) (k : A -> M S B) s a s1 :
  m s = (Ok a, s1) -> Py.bind m k s = k a s1.
Proof. intros H. unfold Py.bind. rewrite H. reflexivity. Qed.

Lemma bind_raise {S A B} (m : M S A) (k : A -> M S B) s e s1 :
  m s = (Raise e, s1) -> Py.bind m k s = (Raise e, s1).
Proof. intros H. unfold Py.bind. rewrite H. reflexivity. Qed.

Lemma for_each_app {S A} (l1 l2 : list A) (body : A -> M S unit) s :
  for_each (l1 ++ l2) body s = Py.bind (for_each l1 body) (fun _ => for_each l2 body) s.
Proof.
  revert s. induction l1 as [| x l1 IH]; intros s; simpl; [reflexivity |].
  rewrite bind_assoc.
  destruct (body x s) as [[[] | e] s1] eqn:Hx.
  - rewrite !(bind_ok _ _ _ _ _ Hx). apply IH.
  - rewrite !(bind_raise _ _ _ _ _ Hx). reflexivity.
Qed.

Lemma emit_run e s : emit e s = (Ok tt, State (stdin s) (trace s ++ [e])%list).
Proof. reflexivity. Qed.

Section ReturningSteps.

Variable calpath : string.
Variable nominal_wavelengths : bool.
Variable arrayid : string.
Variable prepareCalibrations : string -> result unit.
Variable makeFlat : result unit.
Variable makeSdistortion : string -> Z -> result unit.
Variable makeWaveCal : string -> result unit.

Let step := step false calpath nominal_wavelengths arrayid
              prepareCalibrations makeFlat makeSdistortion makeWaveCal.
Let steps := steps false calpath nominal_wavelengths arrayid
               prepareCalibrations makeFlat makeSdistortion makeWaveCal.

(** The loop of lines 265-484 is the steps from [valindex] through [stop] in
    increasing order, each followed by its completion, whatever the steps
    do. *)
Lemma steps_run_in_order fuel :
  forall valindex stop s,
    (Z.to_nat (stop + 1 - valindex) <= fuel)%nat ->
    steps fuel valindex stop s
    = (for_each (seqZ valindex (stop + 1 - valindex))
         (fun k => step k ;;; emit (Completed k)) ;;;
       Py.ret (Some tt)) s.
Proof.
  assert (Hnil : forall valindex stop,
             (stop < valindex)%Z -> seqZ valindex (stop + 1 - valindex) = []).
  { intros valindex stop Hgt. unfold seqZ.
    replace (Z.to_nat (stop + 1 - valindex)) with 0%nat by lia. reflexivity. }
  induction fuel as [| fuel IH]; intros valindex stop s Hfuel;
    unfold steps; simpl; fold steps;
    destruct (Z.leb_spec valindex stop) as [Hle | Hgt]; try lia;
    try (rewrite (Hnil _ _ Hgt); reflexivity).
  rewrite (seqZ_cons valindex (stop + 1 - valindex)) by lia.
  replace (Z.pred (stop + 1 - valindex)) with (stop + 1 - (valindex + 1))%Z by lia.
  replace (Z.succ valindex) with (valindex + 1)%Z by lia.
  cbn [for_each]. rewrite !bind_assoc. fold step.
  destruct (step valindex s) as [[[] | e] s1] eqn:Hstep.
  - rewrite !(bind_ok _ _ _ _ _ Hstep), !(bind_ok _ _ _ _ _ (emit_run _ _)).
    apply IH. lia.
  - rewrite !(bind_raise _ _ _ _ _ Hstep). reflexivity.
Qed.

Hypothesis known_array : arrayid = "SN7638228.1" \/ arrayid = "SN7638228.1.2".
Hypothesis known_configuration : is_ok (xd_configuration calpath) = true.
Hypothesis known_grating :
  contains "10" calpath && contains "32" calpath || contains "110" calpath = true.
Hypothesis prepared : forall bpmfile, prepareCalibrations bpmfile = Ok tt.
Hypothesis flat_made : makeFlat = Ok tt.
Hypothesis distortion_traced :
  forall coordlist pinholes, makeSdistortion coordlist pinholes = Ok tt.
Hypothesis wavelengths_calibrated : forall coordlist, makeWaveCal coordlist = Ok tt.

Definition entering (k : Z) (s : state) : state :=
  State (stdin s) (trace s ++ [Enter k])%list.

(** Steps 1 to 4 return when their functions do. *)
Lemma step_returns k s :
  (1 <= k <= 4)%Z -> step k s = (Ok tt, entering k s).
Proof.
  intros Hk.
  assert (Hcases : k = 1%Z \/ k = 2%Z \/ k = 3%Z \/ k = 4%Z) by lia.
  unfold step, BaselineCalibration.step, entering.
  destruct Hcases as [-> | [-> | [-> | ->]]]; simpl;
    unfold manual_pause, emit, Py.bind, Py.modify, Py.ret, Py.lift, Py.raise; simpl.
  - reflexivity.
  - destruct known_array as [-> | ->]; simpl; rewrite prepared; reflexivity.
  - rewrite flat_made. reflexivity.
  - unfold xd_configuration in known_configuration.
    destruct (contains "LB_SXD" calpath); simpl;
      [rewrite distortion_traced; reflexivity |].
    destruct (contains "LB_LXD" calpath); simpl;
      [rewrite distortion_traced; reflexivity |].
    destruct (contains "SB_SXD" calpath); simpl;
      [rewrite distortion_traced; reflexivity | discriminate].
Qed.

(** Step 5 calls [makeWaveCal] only where [nominal_wavelengths] is bound. *)
Lemma step_five s :
  step 5 s
  = (if nominal_wavelengths then Ok tt
     else Raise (UnboundLocalError "nominal_wavelengths"),
     entering 5 s).
Proof.
  unfold step, BaselineCalibration.step, entering. simpl.
  unfold manual_pause, emit, Py.bind, Py.modify, Py.ret, Py.lift, Py.raise. simpl.
  destruct (contains "10" calpath && contains "32" calpath); simpl.
  - destruct nominal_wavelengths; [rewrite wavelengths_calibrated |]; reflexivity.
  - simpl in known_grating. rewrite known_grating.
    destruct nominal_wavelengths; [rewrite wavelengths_calibrated |]; reflexivity.
Qed.

Lemma steps_all_return (n : nat) :
  forall valindex s,
    (1 <= valindex)%Z ->
    (valindex + Z.of_nat n - 1 <= (if nominal_wavelengths then 5 else 4))%Z ->
    for_each (seqZ valindex (Z.of_nat n)) (fun k => step k ;;; emit (Completed k)) s
    = (Ok tt,
       State (stdin s)
         (trace s ++ flat_map (fun k => [Enter k; Completed k])
                       (seqZ valindex (Z.of_nat n)))%list).
Proof.
  induction n as [| n IH]; intros valindex s Hlo Hhi.
  - simpl. rewrite app_nil_r. destruct s. reflexivity.
  - rewrite (seqZ_cons valindex (Z.of_nat (S n))) by lia.
    replace (Z.pred (Z.of_nat (S n))) with (Z.of_nat n) by lia.
    cbn [for_each flat_map]. rewrite bind_assoc.
    assert (Hstep : step valindex s = (Ok tt, entering valindex s)).
    { destruct (Z.eq_dec valindex 5%Z) as [-> | Hne].
      - rewrite step_five. destruct nominal_wavelengths; [reflexivity | lia].
      - apply step_returns. destruct nominal_wavelengths; lia. }
    rewrite (bind_ok _ _ _ _ _ Hstep), (bind_ok _ _ _ _ _ (emit_run _ _)).
    rewrite IH by (destruct nominal_wavelengths; lia).
    unfold entering. cbn [stdin trace]. rewrite <- !app_assoc. reflexivity.
Qed.

(** C8. One calibration directory with a valid range, no manual mode, a known
    array, configuration and grating, and step functions that return.  Where
    [nominal_wavelengths] is bound, or the range ends before step 5, the
    steps from [start] through [stop] are entered and completed one after the
    other, each once, and the run returns.  Where it is not bound and the
    range ends with step 5, the steps before it are entered and completed,
    and step 5 is entered and ends the run with the UnboundLocalError of
    [nominal_wavelengths]: [makeWaveCal] is not called. *)
Theorem stage_runner_stops_at_the_wavelength_step (start stop : Z) (lines : list string) :
  invalid start stop = false ->
  reduce false calpath nominal_wavelengths arrayid prepareCalibrations makeFlat
    makeSdistortion makeWaveCal start stop (State lines [])
  = if nominal_wavelengths || (stop <? 5)%Z
    then (Ok (Some tt), State lines (run_in_order start stop))
    else (Raise (UnboundLocalError "nominal_wavelengths"),
          State lines (run_in_order start 4 ++ [Enter 5])%list).
Proof.
  intros Hvalid.
  assert (Hrange : (1 <= start <= stop)%Z /\ (stop <= 5)%Z).
  { unfold invalid in Hvalid.
    apply orb_false_elim in Hvalid as [Hvalid H5].
    apply orb_false_elim in Hvalid as [Hvs H1].
    apply Z.ltb_ge in Hvs, H1, H5. lia. }
  assert (Hchecked : check_range (S (length lines)) start stop (State lines [])
                     = (Ok (Some (start, stop)), State lines []))
    by (simpl; rewrite Hvalid; reflexivity).
  unfold reduce.
  rewrite (bind_ok Py.get _ (State lines []) (State lines []) (State lines []) eq_refl).
  cbn [stdin]. rewrite (bind_ok _ _ _ _ _ Hchecked).
  fold steps. rewrite steps_run_in_order by lia.
  destruct (nominal_wavelengths || (stop <? 5)%Z) eqn:Hends.
  - assert (Hall : for_each (seqZ start (stop + 1 - start))
                     (fun k => step k ;;; emit (Completed k)) (State lines [])
                   = (Ok tt, State lines (run_in_order start stop))).
    { unfold run_in_order.
      replace (stop + 1 - start)%Z with (Z.of_nat (Z.to_nat (stop + 1 - start))) by lia.
      rewrite steps_all_return; [reflexivity | lia |].
      apply orb_true_iff in Hends as [-> | Hlt]; [lia |].
      apply Z.ltb_lt in Hlt. destruct nominal_wavelengths; lia. }
    rewrite (bind_ok _ _ _ _ _ Hall). reflexivity.
  - apply orb_false_elim in Hends as [Hnominal Hstop]. apply Z.ltb_ge in Hstop.
    assert (stop = 5%Z) as -> by lia.
    assert (Hcut : for_each (seqZ start (5 + 1 - start))
                     (fun k => step k ;;; emit (Completed k)) (State lines [])
                   = (Raise (UnboundLocalError "nominal_wavelengths"),
                      State lines (run_in_order start 4 ++ [Enter 5])%list)).
    { unfold run_in_order.
      replace (5 + 1 - start)%Z with (Z.of_nat (Z.to_nat (5 - start)) + 1)%Z by lia.
      replace (4 + 1 - start)%Z with (Z.of_nat (Z.to_nat (5 - start))) by lia.
      rewrite seqZ_app by lia.
      replace (start + Z.of_nat (Z.to_nat (5 - start)))%Z with 5%Z by lia.
      change (seqZ 5 1) with [5%Z].
      rewrite for_each_app.
      assert (Hbefore := steps_all_return (Z.to_nat (5 - start)) start (State lines [])).
      rewrite Hnominal in Hbefore.
      rewrite (bind_ok _ _ _ _ _ (Hbefore ltac:(lia) ltac:(lia))).
      cbn [for_each]. rewrite !bind_assoc.
      assert (Hfive := step_five (State lines
                 (flat_map (fun k => [Enter k; Completed k])
                    (seqZ start (Z.of_nat (Z.to_nat (5 - start))))))).
      rewrite Hnominal in Hfive. cbn [stdin trace app] in *.
      rewrite (bind_raise _ _ _ _ _ Hfive). reflexivity. }
    rewrite (bind_raise _ _ _ _ _ Hcut). reflexivity.
Qed.

End ReturningSteps.

End BaselineFacts.


Section BaselineRunExamples.

Import BaselineCalibration.

Lemma stage_runner_stops_at_the_wavelength_step_witness :
  reduce false "LB_SXD_10_32" false "SN7638228.1.2"
    (fun _ => Ok tt) (Ok tt) (fun _ _ => Ok tt) (fun _ => Ok tt) 1 5 (State [] [])
  = (Raise (UnboundLocalError "nominal_wavelengths"),
     State [] [Enter 1; Completed 1; Enter 2; Completed 2; Enter 3; Completed 3;
               Enter 4; Completed 4; Enter 5])
  /\ reduce false "SB_SXD_10_32" true "SN7638228.1.2"
       (fun _ => Ok tt) (Ok tt) (fun _ _ => Ok tt) (fun _ => Ok tt) 1 5 (State [] [])
     = (Ok (Some tt),
        State [] [Enter 1; Completed 1; Enter 2; Completed 2; Enter 3; Completed 3;
                  Enter 4; Completed 4; Enter 5; Completed 5]).
Proof.
  split.
  - exact (stage_runner_stops_at_the_wavelength_step "LB_SXD_10_32" false "SN7638228.1.2"
             (fun _ => Ok tt) (Ok tt) (fun _ _ => Ok tt) (fun _ => Ok tt)
             (or_intror eq_refl) eq_refl eq_refl (fun _ => eq_refl) eq_refl
             (fun _ _ => eq_refl) (fun _ => eq_refl) 1 5 [] eq_refl).
  - exact (stage_runner_stops_at_the_wavelength_step "SB_SXD_10_32" true "SN7638228.1.2"
             (fun _ => Ok tt) (Ok tt) (fun _ _ => Ok tt) (fun _ => Ok tt)
             (or_intror eq_refl) eq_refl eq_refl (fun _ => eq_refl) eq_refl
             (fun _ _ => eq_refl) (fun _ => eq_refl) 1 5 [] eq_refl).
Defined.

End BaselineRunExamples.
(** ** Properties of the peak matching *)

Section ExtractFacts.

Import ExtractSpectra1D.

Lemma read_bound_log {A} (v : A) : read_global (S := state) bound "log" v = Py.ret v.
Proof. reflexivity. Qed.

Lemma read_bound_fits {A} (v : A) : read_global (S := state) bound "fits" v = Py.ret v.
Proof. reflexivity. Qed.

Lemma read_unbound {A} (name : string) (v : A) :
  bool_decide (name ∈ bound) = false ->
  read_global (S := state) bound name v = Py.raise (NameError name).
Proof. intros H. unfold read_global. rewrite H. reflexivity. Qed.

(** None of the names is bound by an import, a definition or a builtin. *)
Lemma free_names_unbound :
  Forall (fun name => name ∉ bound)
    ["sciacq"; "scisrccomb"; "telacq"; "telsrccomb";
     "peaks_flag"; "telpeaks"; "pixeldifference"; "shutil"].
Proof.
  apply (bool_decide_unpack _). vm_compute. exact I.
Qed.

Section World.

Variable free : free_names.
Variable py_float : string -> result float.
Variable fits_open : string -> result (gmap string float).
Variable writable : string -> bool.
Variable nsextract : result unit.
Variable gemextn : result (list string).

(** [peaksMatch] stops at its first statement that reads [sciacq]. *)
Lemma peaksMatch_unbound obspath telpath combinedimage scipeaks telpeaks tol s :
  peaksMatch bound free py_float fits_open obspath telpath combinedimage
    scipeaks telpeaks tol s
  = (Raise (NameError "sciacq"), s).
Proof. reflexivity. Qed.

(** The events of a trace that are not IRAF's extraction. *)
Definition quiet (e : event) : Prop :=
  match e with Nsextract _ _ => False | _ => True end.

Lemma nsextract_ran_quiet evs : Forall quiet evs -> nsextract_ran evs = false.
Proof.
  induction 1 as [| e evs He _ IH]; [reflexivity |].
  destruct e; simpl in *; try contradiction; exact IH.
Qed.

Definition quietly {A} (m : M state A) : Prop :=
  forall s r s', m s = (r, s') ->
    exists evs, trace s' = (trace s ++ evs)%list /\ Forall quiet evs.

Lemma path_exists_inv p s r s' :
  path_exists p s = (r, s') -> r = Ok (bool_decide (p ∈ fs s)) /\ s' = s.
Proof. unfold path_exists, Py.bind, Py.get, Py.ret. intros H. inversion H. auto. Qed.

Lemma os_remove_present p s r s' :
  bool_decide (p ∈ fs s) = true ->
  os_remove p s = (r, s') -> r = Ok tt /\ trace s' = (trace s ++ [Remove p])%list.
Proof.
  intros Hp. unfold os_remove, Py.bind, Py.get, Py.modify. rewrite Hp.
  intros H. inversion H. auto.
Qed.

Lemma open_r_inv p s r s' :
  open_r p s = (r, s') -> (r = Ok tt \/ r = Raise (IOError p)) /\ s' = s.
Proof.
  unfold open_r, Py.bind, Py.get, Py.ret, Py.raise.
  destruct (bool_decide (p ∈ fs s)); intros H; inversion H; auto.
Qed.

Lemma open_w_inv p s r s' :
  open_w writable p s = (r, s') ->
  (r = Ok tt \/ r = Raise (IOError p)) /\ trace s' = trace s.
Proof.
  unfold open_w, Py.modify, Py.raise.
  destruct (writable p); intros H; inversion H; auto.
Qed.

(** A round of the loop of [reExtractSpectra1D] does not get past its files or
    past [peaks_flag]. *)
Lemma rewrite_aperture_unbound scidatabasepath teldatabasepath sci_combinedsrc
    tel_combinedsrc prefix i s r s' :
  rewrite_aperture bound free py_float writable scidatabasepath teldatabasepath
    sci_combinedsrc tel_combinedsrc prefix i s = (r, s') ->
  (r = Raise (NameError "peaks_flag") \/ exists p, r = Raise (IOError p))
  /\ exists evs, trace s' = (trace s ++ evs)%list /\ Forall quiet evs.
Proof.
  unfold rewrite_aperture. intros H.
  apply bind_inv in H as [(there & s1 & H1 & H) | (e & H1 & _)].
  2: { apply path_exists_inv in H1 as [H1 _]. discriminate. }
  apply path_exists_inv in H1 as [H1 ->]. inversion H1 as [Hthere]. clear H1.
  apply bind_inv in H as [(? & s2 & H2 & H) | (e & H2 & _)].
  - assert (Hs2 : exists evs, trace s2 = (trace s ++ evs)%list /\ Forall quiet evs).
    { destruct there.
      - symmetry in Hthere. apply (os_remove_present _ _ _ _ Hthere) in H2 as [_ H2].
        eexists. split; [exact H2 | repeat constructor].
      - apply ret_inv in H2 as [_ ->]. exists []. rewrite app_nil_r.
        split; [reflexivity | constructor]. }
    apply bind_inv in H as [(? & s3 & H3 & H) | (e & H3 & ->)].
    + apply open_r_inv in H3 as [_ ->].
      apply bind_inv in H as [(? & s4 & H4 & H) | (e & H4 & ->)].
      * apply open_w_inv in H4 as [_ H4].
        apply bind_inv in H as [(? & s5 & H5 & H) | (e & H5 & ->)].
        -- rewrite read_unbound in H5 by reflexivity.
           apply raise_inv in H5 as [H5 _]. discriminate.
        -- rewrite read_unbound in H5 by reflexivity.
           apply raise_inv in H5 as [H5 ->]. inversion H5; subst e.
           split; [left; reflexivity |]. rewrite H4. exact Hs2.
      * apply open_w_inv in H4 as [[H4 | H4] Htr]; [discriminate |].
        split; [right; eexists; exact H4 |]. rewrite Htr. exact Hs2.
    + apply open_r_inv in H3 as [[H3 | H3] ->]; [discriminate |].
      split; [right; eexists; exact H3 | exact Hs2].
  - destruct there.
    + symmetry in Hthere. apply (os_remove_present _ _ _ _ Hthere) in H2 as [H2 _].
      discriminate.
    + apply ret_inv in H2 as [H2 _]. discriminate.
Qed.

(** [reExtractSpectra1D] raises before IRAF is called: in the first round of
    its loop, or at [shutil] when there is no order. *)
Lemma reExtractSpectra1D_unbound scidatabasepath teldatabasepath telpath matched
    sci_combinedsrc tel_combinedsrc prefix orders s r s' :
  reExtractSpectra1D bound free py_float writable nsextract gemextn
    scidatabasepath teldatabasepath telpath matched
    sci_combinedsrc tel_combinedsrc prefix orders s = (r, s') ->
  (r = Raise (NameError "peaks_flag")
   \/ r = Raise (NameError "shutil")
   \/ exists p, r = Raise (IOError p))
  /\ exists evs, trace s' = (trace s ++ evs)%list /\ Forall quiet evs.
Proof.
  unfold reExtractSpectra1D. rewrite read_bound_log. intros H.
  apply bind_inv in H as [(? & s1 & H1 & H) | (e & H1 & _)].
  2: { apply ret_inv in H1 as [H1 _]. discriminate. }
  apply ret_inv in H1 as [_ ->].
  apply bind_inv in H as [(? & s2 & H2 & H) | (e & H2 & _)].
  2: { inversion H2. }
  unfold logger, emit, Py.modify in H2. inversion H2; subst s2. clear H2.
  destruct orders as [| o orders]; simpl length in H; simpl seq in H; simpl for_each in H.
  - apply bind_inv in H as [(? & s3 & H3 & H) | (e & H3 & _)].
    2: { apply ret_inv in H3 as [H3 _]. discriminate. }
    apply ret_inv in H3 as [_ ->].
    rewrite read_unbound in H by reflexivity.
    apply bind_inv in H as [(? & ? & H4 & _) | (e & H4 & ->)];
      apply raise_inv in H4 as [H4 Hs]; [discriminate |].
    inversion H4; subst e s'. split; [right; left; reflexivity |].
    simpl. eexists. split; [reflexivity | repeat constructor].
  - apply bind_inv in H as [(? & s3 & H3 & _) | (e & H3 & ->)].
    + apply bind_inv in H3 as [(? & s4 & H4 & _) | (e & H4 & H3)].
      * apply rewrite_aperture_unbound in H4 as [[H4 | [p H4]] _]; discriminate.
      * discriminate.
    + apply bind_inv in H3 as [(? & s4 & H4 & _) | (e' & H4 & H3)].
      * apply rewrite_aperture_unbound in H4 as [[H4 | [p H4]] _]; discriminate.
      * apply rewrite_aperture_unbound in H4 as [Hr (evs & Htr & Hq)].
        simpl in Htr. split.
        -- rewrite H3. destruct Hr as [Hr | [p Hr]]; [left | right; right; exists p];
             exact Hr.
        -- exists (Log INFO "Creating new aperture files in database." :: evs).
           split; [rewrite Htr, <- app_assoc; reflexivity |].
           constructor; [exact I | exact Hq].
Qed.

(** C4. With the names the module binds, [peaksMatch] raises NameError at
    [sciacq] on every call, before any peak is compared; [reExtractSpectra1D]
    raises on every call (NameError at [peaks_flag] or [shutil], or IOError at
    its aperture files) before IRAF's extraction is run; and the matching of
    [start] ends with the NameError of [peaksMatch] without starting a
    re-extraction. *)
Theorem peak_matching_never_completes :
  Forall (fun name => name ∉ bound)
    ["sciacq"; "scisrccomb"; "telacq"; "telsrccomb";
     "peaks_flag"; "telpeaks"; "pixeldifference"; "shutil"]
  /\ (forall obspath telpath combinedimage scipeaks telpeaks tol s,
        peaksMatch bound free py_float fits_open obspath telpath combinedimage
          scipeaks telpeaks tol s
        = (Raise (NameError "sciacq"), s))
  /\ (forall scidatabasepath teldatabasepath telpath matched sci_combinedsrc
        tel_combinedsrc prefix orders files,
        let run := reExtractSpectra1D bound free py_float writable nsextract gemextn
                     scidatabasepath teldatabasepath telpath matched
                     sci_combinedsrc tel_combinedsrc prefix orders (State files []) in
        (fst run = Raise (NameError "peaks_flag")
         \/ fst run = Raise (NameError "shutil")
         \/ exists p, fst run = Raise (IOError p))
        /\ nsextract_ran (trace (snd run)) = false)
  /\ (forall obspath telpath combinedsrc databaseDir scipeaks telpeaks tol orders files,
        let run := match_and_reextract bound free py_float fits_open writable
                     nsextract gemextn obspath telpath combinedsrc databaseDir
                     scipeaks telpeaks tol orders (State files []) in
        fst run = Raise (NameError "sciacq")
        /\ reextraction_started (trace (snd run)) = false
        /\ nsextract_ran (trace (snd run)) = false).
Proof.
  split; [exact free_names_unbound |].
  split; [intros; apply peaksMatch_unbound |].
  split.
  - intros. destruct run as [r s'] eqn:Hrun. unfold run in Hrun.
    apply reExtractSpectra1D_unbound in Hrun as [Hr (evs & Htr & Hq)].
    simpl in *. split; [exact Hr |]. rewrite Htr. apply nsextract_ran_quiet. exact Hq.
  - intros. repeat split; reflexivity.
Qed.

End World.

Section Comparison.

Variable py_float : string -> result float.

(** What one round of the comparison decides for a located peak. *)
Definition within_tolerance (locatedPeak telpeak pixeldifference toleranceOffset : float)
  : bool :=
  PrimFloat.ltb
    (PrimFloat.abs (PrimFloat.sub locatedPeak (PrimFloat.add telpeak pixeldifference)))
    toleranceOffset.

(** A round appends one entry to [peaksMatched] and sets [reExtract] to its
    negation; the entry is true exactly for a located peak within the
    tolerance of the expected one. *)
Lemma compare_peak_round telpeaks pixeldifference tol acc i scipeak s acc' s' :
  compare_peak py_float telpeaks pixeldifference tol acc (i, scipeak) s = (Ok acc', s') ->
  exists m telpeak t,
    telpeaks !! i = Some telpeak /\ py_float telpeak = Ok t
    /\ acc' = ((fst acc ++ [m])%list, Some (negb m))
    /\ (m = true <->
        scipeak <> "Peak not found"
        /\ exists located, py_float scipeak = Ok located
                           /\ within_tolerance located t pixeldifference tol = true).
Proof.
  unfold compare_peak. intros H.
  apply bind_inv in H as [(telpeak & s1 & H1 & H) | (e & _ & H)]; [| discriminate].
  unfold index in H1. destruct (telpeaks !! i) as [tp |] eqn:Htp;
    [| apply raise_inv in H1 as [H1 _]; discriminate].
  apply ret_inv in H1 as [H1 ->]. inversion H1; subst tp. clear H1.
  apply bind_inv in H as [(t & s2 & H2 & H) | (e & _ & H)]; [| discriminate].
  apply lift_inv in H2 as [H2 ->]. symmetry in H2.
  destruct (String.eqb_spec scipeak "Peak not found") as [Heq | Hne].
  - exists false, telpeak, t. split; [reflexivity |]. split; [exact H2 |].
    unfold logger, emit, Py.bind, Py.modify, Py.ret in H. inversion H. split; [reflexivity |].
    split; [discriminate | intros [Hc _]; contradiction].
  - apply bind_inv in H as [(located & s3 & H3 & H) | (e & _ & H)]; [| discriminate].
    apply lift_inv in H3 as [H3 ->]. symmetry in H3.
    fold (within_tolerance located t pixeldifference tol) in H.
    destruct (within_tolerance located t pixeldifference tol) eqn:Hw.
    + exists true, telpeak, t. split; [reflexivity |]. split; [exact H2 |].
      unfold logger, emit, Py.bind, Py.modify, Py.ret in H. inversion H.
      split; [reflexivity |]. split; [intros _ | reflexivity].
      split; [exact Hne |]. exists located. split; [exact H3 | exact Hw].
    + exists false, telpeak, t. split; [reflexivity |]. split; [exact H2 |].
      unfold logger, emit, Py.bind, Py.modify, Py.ret in H. inversion H.
      split; [reflexivity |]. split; [discriminate |].
      intros (_ & located' & Hl & Hw'). rewrite H3 in Hl. inversion Hl; subst located'.
      rewrite Hw in Hw'. discriminate.
Qed.

(** After the loop [reExtract] only remembers the last extension. *)
Lemma compare_fold_last_wins telpeaks pixeldifference tol l :
  forall acc s acc' s',
    fold_m (compare_peak py_float telpeaks pixeldifference tol) l acc s = (Ok acc', s') ->
    exists ms,
      fst acc' = (fst acc ++ ms)%list /\ length ms = length l
      /\ snd acc' = match last ms with
                    | Some m => Some (negb m)
                    | None => snd acc
                    end.
Proof.
  induction l as [| [i scipeak] l IH]; intros acc s acc' s' H; simpl in H.
  - apply ret_inv in H as [H _]. inversion H; subst acc'. exists [].
    rewrite app_nil_r. repeat split.
  - apply bind_inv in H as [(acc1 & s1 & H1 & H) | (e & _ & H)]; [| discriminate].
    apply compare_peak_round in H1 as (m & _ & _ & _ & _ & -> & _).
    apply IH in H as (ms & Hfst & Hlen & Hsnd). simpl in *.
    exists (m :: ms). split; [rewrite Hfst, <- app_assoc; reflexivity |].
    split; [simpl; rewrite Hlen; reflexivity |].
    rewrite Hsnd. destruct ms as [| m' ms]; [reflexivity |].
    rewrite last_cons_cons. destruct (last (m' :: ms)) eqn:Hlast; [reflexivity |].
    apply last_None in Hlast. discriminate.
Qed.

Lemma compare_peaks_last_wins scipeaks telpeaks pixeldifference tol s matched reExtract s' :
  compare_peaks py_float scipeaks telpeaks pixeldifference tol s
  = (Ok (matched, reExtract), s') ->
  length matched = length scipeaks
  /\ last matched = Some (negb reExtract).
Proof.
  unfold compare_peaks. intros H.
  apply bind_inv in H as [(acc & s1 & H1 & H) | (e & _ & H)]; [| discriminate].
  apply compare_fold_last_wins in H1 as (ms & Hfst & Hlen & Hsnd). simpl in *.
  rewrite length_imap in Hlen. subst ms. rewrite Hsnd in H.
  destruct (last (fst acc)) as [m |] eqn:Hlast.
  - apply ret_inv in H as [H _]. inversion H; subst. split; [exact Hlen |].
    rewrite Hlast, negb_involutive. reflexivity.
  - apply raise_inv in H as [H _]. discriminate.
Qed.

End Comparison.

(** The two examples of the spec, with one order: a peak located at 4.0 px
    matches the expected 2.0 px within 5 px and nothing is re-extracted; a peak
    at 10.0 px does not match and the re-extraction is started. *)
Lemma peaks_single_order_examples :
  example_peaks bound_with_acquisitions ["4.0"] ["0.0"] = Ok ([true], false)
  /\ reextraction_started (trace (snd (example_match bound_with_acquisitions ["4.0"] ["0.0"])))
     = false
  /\ example_peaks bound_with_acquisitions ["10.0"] ["0.0"] = Ok ([false], true)
  /\ reextraction_started (trace (snd (example_match bound_with_acquisitions ["10.0"] ["0.0"])))
     = true.
Proof. vm_compute. repeat split; reflexivity. Qed.

(** C3. Two orders, even with the four names of [peaksMatch] bound: the peak
    of the first order is 8 px from the expected one (no match), the peak of the
    second order matches; [reExtract] is false and [start] re-extracts nothing.
    The same happens when the first order has no peak at all.  With the module
    as it is, no peak is compared. *)
Theorem peaks_mismatch_before_last_order_not_reextracted :
  example_peaks bound_with_acquisitions ["10.0"; "4.0"] ["0.0"; "0.0"]
  = Ok ([false; true], false)
  /\ example_match bound_with_acquisitions ["10.0"; "4.0"] ["0.0"; "0.0"]
     = (Ok tt, snd (example_match bound_with_acquisitions ["10.0"; "4.0"] ["0.0"; "0.0"]))
  /\ reextraction_started
       (trace (snd (example_match bound_with_acquisitions ["10.0"; "4.0"] ["0.0"; "0.0"])))
     = false
  /\ example_peaks bound_with_acquisitions ["Peak not found"; "4.0"] ["0.0"; "0.0"]
     = Ok ([false; true], false)
  /\ example_peaks bound ["10.0"; "4.0"] ["0.0"; "0.0"] = Raise (NameError "sciacq").
Proof. vm_compute. repeat split; reflexivity. Qed.

End ExtractFacts.

(** ** Properties of the flux calibration *)

Section FluxFacts.

Import FluxCalibrate.

Lemma calibrated_app t1 t2 : calibrated (t1 ++ t2) = (calibrated t1 ++ calibrated t2)%list.
Proof. unfold calibrated. apply omap_app. Qed.

Lemma flambdas_app t1 t2 : flambdas (t1 ++ t2) = (flambdas t1 ++ flambdas t2)%list.
Proof. unfold flambdas. apply omap_app. Qed.

(** A computation is steady when it leaves the FUNITS keywords alone and starts
    no blackbody. *)
Definition steady {A} (m : M state A) : Prop :=
  forall s r s', m s = (r, s') ->
    funits s' = funits s
    /\ exists evs, trace s' = (trace s ++ evs)%list
                   /\ calibrated evs = [] /\ flambdas evs = [].

Lemma steady_same {A} (m : M state A) :
  (forall s r s', m s = (r, s') -> funits s' = funits s /\ trace s' = trace s) ->
  steady m.
Proof.
  intros Hm s r s' H. apply Hm in H as [Hf Ht]. split; [exact Hf |].
  exists []. rewrite app_nil_r. repeat split. exact Ht.
Qed.

Lemma steady_ret {A} (a : A) : steady (Py.ret a).
Proof. apply steady_same. intros s r s' H. apply ret_inv in H as [_ ->]. auto. Qed.

Lemma steady_raise {A} e : steady (@Py.raise state A e).
Proof. apply steady_same. intros s r s' H. apply raise_inv in H as [_ ->]. auto. Qed.

Lemma steady_lift {A} (x : result A) : steady (@Py.lift state A x).
Proof. apply steady_same. intros s r s' H. apply lift_inv in H as [_ ->]. auto. Qed.

Lemma steady_read_global {A} G name (v : A) : steady (read_global (S := state) G name v).
Proof.
  unfold read_global. destruct (bool_decide (name ∈ G));
    [apply steady_ret | apply steady_raise].
Qed.

Lemma steady_bind {A B} (m : M state A) (k : A -> M state B) :
  steady m -> (forall a, steady (k a)) -> steady (Py.bind m k).
Proof.
  intros Hm Hk s r s' H.
  apply bind_inv in H as [(a & s1 & H1 & H2) | (e & H1 & _)].
  - apply Hm in H1 as (F1 & evs1 & E1 & C1 & L1).
    apply Hk in H2 as (F2 & evs2 & E2 & C2 & L2).
    split; [congruence |]. exists (evs1 ++ evs2)%list.
    rewrite E2, E1, app_assoc, calibrated_app, flambdas_app, C1, C2, L1, L2.
    repeat split.
  - apply Hm in H1. exact H1.
Qed.

Lemma steady_emit e :
  match e with Blackbody _ _ => False | _ => True end -> steady (emit e).
Proof.
  intros He s r s' H. unfold emit, Py.modify in H. inversion H; subst. simpl.
  split; [reflexivity |]. exists [e]. destruct e; try contradiction; repeat split.
Qed.

Lemma steady_logger lvl msg : steady (logger lvl msg).
Proof. apply steady_emit. exact I. Qed.

Lemma steady_create p : steady (create p).
Proof.
  apply steady_same. intros s r s' H. unfold create, Py.modify in H.
  inversion H; subst. auto.
Qed.

Lemma steady_glob p : steady (glob p).
Proof.
  apply steady_same. intros s r s' H. unfold glob, Py.bind, Py.get, Py.ret in H.
  inversion H; subst. auto.
Qed.

Lemma steady_os_remove p : steady (os_remove p).
Proof.
  intros s r s' H. unfold os_remove, Py.bind, Py.get, Py.modify, Py.raise in H.
  destruct (bool_decide (p ∈ fs s)); inversion H; subst; simpl.
  - split; [reflexivity |]. exists [Remove p]. repeat split.
  - split; [reflexivity |]. exists []. rewrite app_nil_r. repeat split.
Qed.

Lemma steady_index {A} (l : list A) i : steady (index l i).
Proof. unfold index. destruct (l !! i); [apply steady_ret | apply steady_raise]. Qed.

Lemma steady_item {K A} `{Countable K} (d : gmap K A) k name : steady (item d k name).
Proof. unfold item. destruct (d !! k); [apply steady_ret | apply steady_raise]. Qed.

Lemma steady_for_each {A} (l : list A) (body : A -> M state unit) :
  (forall x, steady (body x)) -> steady (for_each l body).
Proof.
  intros Hbody. induction l as [| x l IH]; simpl; [apply steady_ret |].
  apply steady_bind; [apply Hbody | intros _; exact IH].
Qed.

Ltac steady :=
  repeat first
    [ apply steady_ret | apply steady_raise | apply steady_lift
    | apply steady_read_global | apply steady_logger | apply steady_create
    | apply steady_glob | apply steady_os_remove | apply steady_index
    | apply steady_item | apply steady_emit; exact I
    | apply steady_for_each; intros ?
    | apply steady_bind; [| intros ?]
    | match goal with
      | |- steady (if ?c then _ else _) => destruct c
      end ].

Section World.

Variable G : list string.
Variable free : free_names.
Variable cfg : settings.
Variable py_float : string -> result float.
Variable py_pow : float -> float -> result float.
Variable pause : string -> result unit.
Variable scale_blackbody : Z -> float -> result unit.
Variable imarith : result unit.
Variable wmef : result unit.

Lemma steady_old_outputs input order : steady (old_outputs G cfg input order).
Proof. unfold old_outputs. steady. Qed.

Lemma steady_remove_old_outputs oldfiles : steady (remove_old_outputs oldfiles).
Proof. unfold remove_old_outputs. steady. Qed.

Lemma steady_flux_density_scale zmf std sci i :
  steady (flux_density_scale G free cfg py_float py_pow zmf std sci i).
Proof. unfold flux_density_scale. steady. Qed.

(** Without [overwrite] a round of the loop computes nothing, whether outputs
    of the order exist or not. *)
Lemma calibrate_order_without_overwrite zmf std sci i s r s' :
  overwrite cfg = false ->
  calibrate_order G free cfg py_float py_pow scale_blackbody imarith wmef zmf std sci i s
  = (r, s') ->
  fs s' = fs s /\ funits s' = funits s
  /\ calibrated (trace s') = calibrated (trace s).
Proof.
  intros Hover H.
  assert (Hsteady : steady
            (calibrate_order G free cfg py_float py_pow scale_blackbody imarith wmef
               zmf std sci i)).
  { unfold calibrate_order, old_outputs. rewrite Hover. steady. }
  pose proof (Hsteady _ _ _ H) as (Hf & evs & Ht & Hc & _).
  split; [| split; [exact Hf | rewrite Ht, calibrated_app, Hc, app_nil_r; reflexivity]].
  clear Hsteady Hf evs Ht Hc. revert H. unfold calibrate_order. rewrite Hover.
  unfold old_outputs, glob, logger, emit, index, read_global, Py.bind, Py.get, Py.modify,
    Py.ret, Py.raise.
  repeat match goal with
         | |- context [if ?c then _ else _] => destruct c
         | |- context [match ?l !! ?i with _ => _ end] => destruct (l !! i)
         end; intros H; inversion H; reflexivity.
Qed.

Lemma float_div_ok a b r : float_div a b = Ok r -> r = PrimFloat.div a b.
Proof.
  unfold float_div. destruct (PrimFloat.eqb b 0); intros H; inversion H. reflexivity.
Qed.

Lemma index_ok {A} (l : list A) i (s : state) x s' :
  index l i s = (Ok x, s') -> l !! i = Some x /\ s' = s.
Proof.
  unfold index. destruct (l !! i) as [y |]; intros H.
  - apply ret_inv in H as [H ->]. inversion H. auto.
  - apply raise_inv in H as [H _]. discriminate.
Qed.

Lemma item_ok {K A} `{Countable K} (d : gmap K A) k name (s : state) x s' :
  item d k name s = (Ok x, s') -> d !! k = Some x /\ s' = s.
Proof.
  unfold item. destruct (d !! k) as [y |]; intros Hi.
  - apply ret_inv in Hi as [Hi ->]. inversion Hi. auto.
  - apply raise_inv in Hi as [Hi _]. discriminate.
Qed.

Lemma read_global_ok {A} name (v x : A) (s s' : state) :
  read_global G name v s = (Ok x, s') -> x = v /\ s' = s.
Proof.
  unfold read_global. destruct (bool_decide (name ∈ G)); intros H.
  - apply ret_inv in H as [H ->]. inversion H. auto.
  - apply raise_inv in H as [H _]. discriminate.
Qed.

(** What the code takes for the flux density of an order, given the entry
    [mag] of the standard's magnitudes. *)
Definition scale_of (zmf : gmap Z string) (std sci : float) (i : nat) (mag : string)
    (flambda : float) (absolute : bool) : Prop :=
  if truthy mag then
    absolute = true
    /\ exists m p order zeroFlux z,
        py_float mag = Ok m
        /\ py_pow 10%float (PrimFloat.div (PrimFloat.opp m) 2.5%float) = Ok p
        /\ orders cfg !! i = Some order
        /\ zmf !! order = Some zeroFlux
        /\ py_float zeroFlux = Ok z
        /\ flambda = PrimFloat.mul (PrimFloat.mul p z) (PrimFloat.div std sci)
  else
    absolute = false
    /\ flambda = PrimFloat.mul 1%float (PrimFloat.div std sci).

Lemma flux_density_scale_ok zmf std sci i s flambda absolute s' :
  flux_density_scale G free cfg py_float py_pow zmf std sci i s
  = (Ok (flambda, absolute), s') ->
  exists mag, stdMagnitudes free !! i = Some mag
              /\ scale_of zmf std sci i mag flambda absolute.
Proof.
  unfold flux_density_scale, scale_of. intros H.
  apply bind_inv in H as [(? & s1 & _ & H) | (e & _ & H)]; [| discriminate].
  apply bind_inv in H as [(mags & s2 & H2 & H) | (e & _ & H)]; [| discriminate].
  apply read_global_ok in H2 as [-> ->].
  apply bind_inv in H as [(mag & s3 & H3 & H) | (e & _ & H)]; [| discriminate].
  apply index_ok in H3 as [Hmag ->]. exists mag. split; [exact Hmag |].
  destruct (truthy mag).
  - apply bind_inv in H as [(? & s4 & _ & H) | (e & _ & H)]; [| discriminate].
    apply bind_inv in H as [(? & s5 & _ & H) | (e & _ & H)]; [| discriminate].
    apply bind_inv in H as [(m & s6 & H6 & H) | (e & _ & H)]; [| discriminate].
    apply lift_inv in H6 as [H6 ->].
    apply bind_inv in H as [(p & s7 & H7 & H) | (e & _ & H)]; [| discriminate].
    apply lift_inv in H7 as [H7 ->].
    apply bind_inv in H as [(order & s8 & H8 & H) | (e & _ & H)]; [| discriminate].
    apply index_ok in H8 as [Horder ->].
    apply bind_inv in H as [(zeroFlux & s9 & H9 & H) | (e & _ & H)]; [| discriminate].
    apply item_ok in H9 as [Hzero ->].
    apply bind_inv in H as [(z & s10 & H10 & H) | (e & _ & H)]; [| discriminate].
    apply lift_inv in H10 as [H10 ->].
    apply bind_inv in H as [(ratio & s11 & H11 & H) | (e & _ & H)]; [| discriminate].
    apply lift_inv in H11 as [H11 ->]. symmetry in H11. apply float_div_ok in H11.
    apply ret_inv in H as [H _]. inversion H. subst.
    split; [reflexivity |]. exists m, p, order, zeroFlux, z. repeat split; auto.
  - apply bind_inv in H as [(? & s4 & _ & H) | (e & _ & H)]; [| discriminate].
    apply bind_inv in H as [(? & s5 & _ & H) | (e & _ & H)]; [| discriminate].
    apply bind_inv in H as [(ratio & s6 & H6 & H) | (e & _ & H)]; [| discriminate].
    apply lift_inv in H6 as [H6 ->]. symmetry in H6. apply float_div_ok in H6.
    apply ret_inv in H as [H _]. inversion H. subst. split; reflexivity.
Qed.

Definition units_of (absolute : bool) : string :=
  if absolute then "erg/cm^2/s/A" else "Flambda, relative".

Lemma fluxcalib_units_ok image absolute s s' :
  fluxcalib_units_in_headers G image absolute s = (Ok tt, s') ->
  funits s' = <[image := units_of absolute]> (funits s)
  /\ trace s' = (trace s ++ [Hedit image (units_of absolute)])%list.
Proof.
  unfold fluxcalib_units_in_headers. intros H.
  apply bind_inv in H as [(? & s1 & H1 & H) | (e & _ & H)]; [| discriminate].
  apply read_global_ok in H1 as [_ ->].
  apply bind_inv in H as [(? & s2 & H2 & H) | (e & _ & H)]; [| discriminate].
  apply read_global_ok in H2 as [_ ->].
  unfold emit, Py.bind, Py.modify in H. inversion H. subst. simpl.
  unfold units_of. destruct absolute; split; reflexivity.
Qed.

Lemma scaled_blackbody_ok order flambda i s s' :
  scaled_blackbody G free cfg scale_blackbody order flambda i s = (Ok tt, s') ->
  funits s' = funits s
  /\ exists evs, trace s' = (trace s ++ evs)%list
                 /\ calibrated evs = [order] /\ flambdas evs = [flambda].
Proof.
  unfold scaled_blackbody. intros H.
  apply bind_inv in H as [(? & s1 & H1 & H) | (e & _ & H)]; [| discriminate].
  apply steady_logger in H1 as (F1 & evs1 & T1 & C1 & L1).
  apply bind_inv in H as [(tels & s2 & H2 & H) | (e & _ & H)]; [| discriminate].
  apply read_global_ok in H2 as [_ ->].
  apply bind_inv in H as [(tel & s3 & H3 & H) | (e & _ & H)]; [| discriminate].
  apply index_ok in H3 as [_ ->].
  apply bind_inv in H as [(? & s4 & H4 & H) | (e & _ & H)]; [| discriminate].
  unfold emit, Py.modify in H4. inversion H4; subst s4. clear H4.
  assert (Hrest : steady
            (lift (scale_blackbody order flambda) ;;;
             create (bb_unscaled cfg +:+ pretty order +:+ ".fits") ;;;
             create (bb_scaled cfg +:+ pretty order +:+ ".fits") ;;;
             logger INFO "Completed scaling the blackbody to the telluric magnitude."))
    by steady.
  apply Hrest in H as (F5 & evs5 & T5 & C5 & L5). simpl in *.
  split; [congruence |].
  exists (evs1 ++ [Blackbody order flambda] ++ evs5)%list.
  rewrite T5, T1, !calibrated_app, !flambdas_app, C1, C5, L1, L5, <- !app_assoc.
  repeat split.
Qed.

Lemma apply_blackbody_ok input order absolute s s' :
  apply_blackbody G cfg imarith wmef input order absolute s = (Ok tt, s') ->
  funits s' !! output_SEF cfg input = Some (units_of absolute)
  /\ exists evs, trace s' = (trace s ++ evs)%list
                 /\ calibrated evs = [] /\ flambdas evs = [].
Proof.
  unfold apply_blackbody. intros H.
  apply bind_inv in H as [(? & s1 & H1 & H) | (e & _ & H)]; [| discriminate].
  apply steady_logger in H1 as (F1 & evs1 & T1 & C1 & L1).
  apply bind_inv in H as [(? & s2 & H2 & H) | (e & _ & H)]; [| discriminate].
  apply steady_logger in H2 as (F2 & evs2 & T2 & C2 & L2).
  apply bind_inv in H as [(? & s3 & H3 & H) | (e & _ & H)]; [| discriminate].
  apply steady_emit in H3 as (F3 & evs3 & T3 & C3 & L3); [| exact I].
  apply bind_inv in H as [(? & s4 & H4 & H) | (e & _ & H)]; [| discriminate].
  apply lift_inv in H4 as [_ ->].
  apply bind_inv in H as [(? & s5 & H5 & H) | (e & _ & H)]; [| discriminate].
  apply steady_create in H5 as (F5 & evs5 & T5 & C5 & L5).
  apply bind_inv in H as [([] & s6 & H6 & H) | (e & _ & H)]; [| discriminate].
  apply fluxcalib_units_ok in H6 as [F6 T6].
  assert (Hrest : steady
            (emit (Wmef (output_SEF cfg input) (output_MEF cfg input)) ;;;
             lift wmef ;;;
             create (output_MEF cfg input) ;;;
             logger INFO "Completed applying the blackbody to telluric magnitude scaling fator to the telluric" ;;;
             logger INFO "corrected science 1D source spectra." ;;;
             logger INFO "Completed flux calibrating order %d of %s.\n"))
    by steady.
  apply Hrest in H as (F7 & evs7 & T7 & C7 & L7).
  split; [rewrite F7, F6; apply lookup_insert_eq |].
  exists (evs1 ++ evs2 ++ evs3 ++ evs5
          ++ [Hedit (output_SEF cfg input) (units_of absolute)] ++ evs7)%list.
  rewrite T7, T6, T5, T3, T2, T1, !calibrated_app, !flambdas_app,
    C1, C2, C3, C5, C7, L1, L2, L3, L5, L7, <- !app_assoc.
  repeat split.
Qed.

(** The loop body as it would run were the five names bound.  A round of the
    loop that computes its order ([overwrite] set) and returns normally has
    read the magnitude entry [mag] of the order.  With a
    non-empty entry the flux density passed to the scaling of the blackbody is
    [10 ** (-float(mag) / 2.5) * float(zeroMagnitudeFluxes[order]) *
    (stdExptime / sciExptime)] and the FUNITS keyword of the product is
    [erg/cm^2/s/A]; with an empty entry it is [1 * (stdExptime / sciExptime)]
    and the keyword is [Flambda, relative]. *)
Theorem flux_scale_and_units zmf std sci i s s' :
  overwrite cfg = true ->
  calibrate_order G free cfg py_float py_pow scale_blackbody imarith wmef zmf std sci i s
  = (Ok tt, s') ->
  exists input order mag flambda absolute,
    sci_telluricCorrected free !! i = Some input
    /\ orders cfg !! i = Some order
    /\ stdMagnitudes free !! i = Some mag
    /\ scale_of zmf std sci i mag flambda absolute
    /\ absolute = truthy mag
    /\ (exists evs, trace s' = (trace s ++ evs)%list
                    /\ calibrated evs = [order] /\ flambdas evs = [flambda])
    /\ funits s' !! output_SEF cfg input
       = Some (if truthy mag then "erg/cm^2/s/A" else "Flambda, relative").
Proof.
  intros Hover H. unfold calibrate_order in H. rewrite Hover in H.
  apply bind_inv in H as [(? & s1 & H1 & H) | (e & _ & H)]; [| discriminate].
  apply read_global_ok in H1 as [_ ->].
  apply bind_inv in H as [(inputs & s2 & H2 & H) | (e & _ & H)]; [| discriminate].
  apply read_global_ok in H2 as [-> ->].
  apply bind_inv in H as [(input & s3 & H3 & H) | (e & _ & H)]; [| discriminate].
  apply index_ok in H3 as [Hinput ->].
  apply bind_inv in H as [(? & s4 & H4 & H) | (e & _ & H)]; [| discriminate].
  apply steady_logger in H4 as (F4 & evs4 & T4 & C4 & L4).
  apply bind_inv in H as [(? & s5 & H5 & H) | (e & _ & H)]; [| discriminate].
  apply steady_logger in H5 as (F5 & evs5 & T5 & C5 & L5).
  apply bind_inv in H as [(order & s6 & H6 & H) | (e & _ & H)]; [| discriminate].
  apply index_ok in H6 as [Horder ->].
  apply bind_inv in H as [(oldfiles & s7 & H7 & H) | (e & _ & H)]; [| discriminate].
  apply steady_old_outputs in H7 as (F7 & evs7 & T7 & C7 & L7).
  apply bind_inv in H as [(? & s8 & H8 & H) | (e & _ & H)]; [| discriminate].
  apply steady_remove_old_outputs in H8 as (F8 & evs8 & T8 & C8 & L8).
  apply bind_inv in H as [(? & s9 & H9 & H) | (e & _ & H)]; [| discriminate].
  apply steady_logger in H9 as (F9 & evs9 & T9 & C9 & L9).
  apply bind_inv in H as [([flambda absolute] & s10 & H10 & H) | (e & _ & H)];
    [| discriminate].
  pose proof (steady_flux_density_scale _ _ _ _ _ _ _ H10) as (F10 & evs10 & T10 & C10 & L10).
  apply flux_density_scale_ok in H10 as (mag & Hmag & Hscale).
  apply bind_inv in H as [([] & s11 & H11 & H) | (e & _ & H)]; [| discriminate].
  apply scaled_blackbody_ok in H11 as (F11 & evs11 & T11 & C11 & L11).
  apply apply_blackbody_ok in H as (F12 & evs12 & T12 & C12 & L12). simpl in *.
  assert (Habs : absolute = truthy mag).
  { unfold scale_of in Hscale. destruct (truthy mag); destruct Hscale as [-> _]; reflexivity. }
  exists input, order, mag, flambda, absolute.
  split; [exact Hinput |]. split; [exact Horder |]. split; [exact Hmag |].
  split; [exact Hscale |]. split; [exact Habs |]. split.
  - exists (evs4 ++ evs5 ++ evs7 ++ evs8 ++ evs9 ++ evs10 ++ evs11 ++ evs12)%list.
    rewrite T12, T11, T10, T9, T8, T7, T5, T4, !calibrated_app, !flambdas_app,
      C4, C5, C7, C8, C9, C10, C11, C12, L4, L5, L7, L8, L9, L10, L11, L12,
      <- !app_assoc.
    repeat split.
  - rewrite F12, Habs. unfold units_of. reflexivity.
Qed.

End World.

Section Unreachable.

Variable free : free_names.
Variable cfg : settings.
Variable py_float : string -> result float.
Variable py_pow : float -> float -> result float.
Variable pause : string -> result unit.
Variable scale_blackbody : Z -> float -> result unit.
Variable imarith : result unit.
Variable wmef : result unit.

Lemma flux_read_bound {A} (name : string) (v : A) :
  bool_decide (name ∈ bound) = true ->
  read_global (S := state) bound name v = Py.ret v.
Proof. intros H. unfold read_global. rewrite H. reflexivity. Qed.

Lemma flux_read_unbound {A} (name : string) (v : A) :
  bool_decide (name ∈ bound) = false ->
  read_global (S := state) bound name v = Py.raise (NameError name).
Proof. intros H. unfold read_global. rewrite H. reflexivity. Qed.

Definition stop_here : string :=
  "STOP HERE *********************************************************************************".

(** The branch of the method telluricapproximate, with the names the module
    binds: it ends at the pause, at the temperature of the standard, or at
    [sci_header_info]. *)
Lemma telluricapproximate_unbound s :
  let run := telluricapproximate bound free cfg py_float py_pow pause
               scale_blackbody imarith wmef s in
  fs (snd run) = fs s /\ funits (snd run) = funits s
  /\ trace (snd run) = (trace s ++ [Pause "About to start flux calibration"])%list
  /\ match pause "About to start flux calibration" with
     | Raise e => fst run = Raise e
     | Ok _ =>
         match std_pars cfg !! "Temperature" with
         | None => fst run = Raise (KeyError "Temperature")
         | Some _ => fst run = Raise (NameError "sci_header_info")
         end
     end.
Proof.
  unfold telluricapproximate.
  rewrite (flux_read_bound "utils") by reflexivity.
  rewrite (flux_read_unbound "sci_header_info") by reflexivity.
  unfold Py.bind, Py.ret, Py.raise, Py.lift, emit, Py.modify, item. simpl.
  destruct (pause "About to start flux calibration") as [[] | e]; simpl.
  - destruct (std_pars cfg !! "Temperature"); simpl; repeat split; reflexivity.
  - repeat split; reflexivity.
Qed.

Definition paused (s : state) : state :=
  State (fs s) (funits s) (trace s ++ [Pause stop_here])%list.

Definition logged (lvl : level) (msg : string) (s : state) : state :=
  State (fs s) (funits s) (trace s ++ [Log lvl msg])%list.

(** The choice of the method, statement by statement. *)
Lemma calibrate_from_pause_cases s :
  calibrate_from_pause bound free cfg py_float py_pow pause scale_blackbody imarith wmef s
  = match pause stop_here with
    | Raise e => (Raise e, paused s)
    | Ok _ =>
        if String.eqb (fluxCalibrationMethod cfg) "fluxcalibrator" then
          (Raise (SystemExit ""), logged ERROR "Method not implemented" (paused s))
        else if String.eqb (fluxCalibrationMethod cfg) "telluricapproximate" then
          telluricapproximate bound free cfg py_float py_pow pause scale_blackbody
            imarith wmef (paused s)
        else
          (Raise (SystemExit ""),
           logged ERROR "#     ERROR in flux calibration: unknown flux calibration method. Exiting script.     #"
             (paused s))
    end.
Proof.
  unfold calibrate_from_pause. rewrite (flux_read_bound "utils") by reflexivity.
  fold stop_here. unfold Py.bind at 1. unfold Py.ret at 1.
  unfold Py.bind at 1. unfold emit at 1, Py.modify at 1. fold (paused s).
  unfold Py.bind at 1. unfold Py.lift at 1.
  destruct (pause stop_here) as [[] | e]; [| reflexivity].
  destruct (String.eqb (fluxCalibrationMethod cfg) "fluxcalibrator"); [reflexivity |].
  destruct (String.eqb (fluxCalibrationMethod cfg) "telluricapproximate"); reflexivity.
Qed.

(** C2, as the code has it.  From the pause before the choice of the method,
    every run ends with an exception before any order is calibrated, and
    changes no file and no header: the pause comes first; the methods other
    than telluricapproximate end the run; the branch of telluricapproximate ends
    with the NameError of [sci_header_info] when its pause returns and the
    standard has a temperature, with the KeyError of the temperature when it has
    none.  None of the five names is bound in the module. *)
Theorem flux_calibration_loop_unreachable (files : gset string) (units : gmap string string) :
  let run := calibrate_from_pause bound free cfg py_float py_pow pause
               scale_blackbody imarith wmef (State files units []) in
  Forall (fun name => name ∉ bound)
    ["sci_header_info"; "tel_header_info"; "sci_telluricCorrected";
     "tel_dividedContinuum"; "stdMagnitudes"]
  /\ head (trace (snd run)) = Some (Pause stop_here)
  /\ (exists e, fst run = Raise e)
  /\ calibrated (trace (snd run)) = []
  /\ fs (snd run) = files /\ funits (snd run) = units
  /\ (fluxCalibrationMethod cfg = "telluricapproximate" ->
      pause stop_here = Ok tt ->
      pause "About to start flux calibration" = Ok tt ->
      match std_pars cfg !! "Temperature" with
      | Some _ => fst run = Raise (NameError "sci_header_info")
      | None => fst run = Raise (KeyError "Temperature")
      end).
Proof.
  intros run. split; [apply (bool_decide_unpack _); vm_compute; exact I |].
  unfold run. clear run. rewrite calibrate_from_pause_cases.
  destruct (pause stop_here) as [[] | e0] eqn:Hstop.
  2: { simpl. repeat split; try reflexivity; [eexists; reflexivity | discriminate]. }
  destruct (String.eqb_spec (fluxCalibrationMethod cfg) "fluxcalibrator") as [Hm | Hm].
  { simpl. repeat split; try reflexivity; [eexists; reflexivity |].
    intros Hm'. rewrite Hm in Hm'. discriminate. }
  destruct (String.eqb_spec (fluxCalibrationMethod cfg) "telluricapproximate") as [Hm' | Hm'].
  2: { simpl. repeat split; try reflexivity; [eexists; reflexivity | contradiction]. }
  pose proof (telluricapproximate_unbound (paused (State files units [])))
    as (Hfs & Hfu & Htr & Hres).
  cbv zeta in Hfs, Hfu, Htr, Hres.
  destruct (telluricapproximate bound free cfg py_float py_pow pause scale_blackbody
              imarith wmef (paused (State files units []))) as [r s'].
  simpl in Hfs, Hfu, Htr, Hres. simpl. rewrite Htr.
  split; [reflexivity |]. split.
  { destruct (pause "About to start flux calibration") as [[] | e];
      [destruct (std_pars cfg !! "Temperature") |]; eexists; exact Hres. }
  split; [reflexivity |]. split; [exact Hfs |]. split; [exact Hfu |].
  intros _ _ Habout. rewrite Habout in Hres.
  destruct (std_pars cfg !! "Temperature"); exact Hres.
Qed.

End Unreachable.

(** A run of the branch with a standard that has a temperature: the pause
    returns and the run stops at [sci_header_info]. *)
Lemma flux_calibration_loop_unreachable_witness :
  fluxCalibrationMethod (example_settings true {[ "Temperature" := "9700" ]})
  = "telluricapproximate"
  /\ fst (example_branch bound "" {[ "Temperature" := "9700" ]})
     = Raise (NameError "sci_header_info").
Proof.
  split; [reflexivity |].
  pose proof (flux_calibration_loop_unreachable (example_free "")
                (example_settings true {[ "Temperature" := "9700" ]})
                float_of_string (fun _ _ => Raise OverflowError) (fun _ => Ok tt)
                (fun _ _ => Ok tt) (Ok tt) (Ok tt) ∅ ∅) as (_ & _ & _ & _ & _ & _ & H).
  exact (H eq_refl eq_refl eq_refl).
Defined.

(** C2, as the claim has it, fails for a standard without a temperature: the
    run ends with a KeyError, which is not an unbound name. *)
Lemma flux_branch_key_error_not_name_error :
  fst (example_branch bound "" ∅) = Raise (KeyError "Temperature")
  /\ ~ (exists name, fst (example_branch bound "" ∅) = Raise (NameError name)).
Proof.
  split; [reflexivity |]. intros [name H]. vm_compute in H. discriminate.
Qed.

(** The relative branch at the exposure times of the spec's example: 300 s for
    the standard and 5 s for the science give the flux density 60 and the
    keyword [Flambda, relative]. *)
Lemma flux_relative_example :
  let run := example_order bound_with_free "" true ∅ in
  fst run = Ok tt
  /\ flambdas (trace (snd run)) = [60%float]
  /\ funits (snd run) !! "bdvsrc_comb_order3_SEF.fits" = Some "Flambda, relative".
Proof. vm_compute. repeat split; reflexivity. Qed.

Lemma flux_scale_and_units_witness :
  overwrite (example_settings true ∅) = true
  /\ exists input order mag flambda absolute,
      sci_telluricCorrected (example_free "") !! 0%nat = Some input
      /\ orders (example_settings true ∅) !! 0%nat = Some order
      /\ stdMagnitudes (example_free "") !! 0%nat = Some mag
      /\ scale_of (example_settings true ∅) float_of_string
           (fun _ _ => Raise OverflowError) {[ 3%Z := "1.0e-10" ]}
           300%float 5%float 0 mag flambda absolute
      /\ absolute = truthy mag
      /\ (exists evs,
            trace (snd (example_order bound_with_free "" true ∅)) = ([] ++ evs)%list
            /\ calibrated evs = [order] /\ flambdas evs = [flambda])
      /\ funits (snd (example_order bound_with_free "" true ∅))
           !! output_SEF (example_settings true ∅) input
         = Some (if truthy mag then "erg/cm^2/s/A" else "Flambda, relative").
Proof.
  split; [reflexivity |].
  apply (flux_scale_and_units bound_with_free (example_free "") (example_settings true ∅)
           float_of_string (fun _ _ => Raise OverflowError) (fun _ _ => Ok tt)
           (Ok tt) (Ok tt) {[ 3%Z := "1.0e-10" ]} 300%float 5%float 0 (State ∅ ∅ [])).
  - reflexivity.
  - vm_compute. reflexivity.
Defined.

(** C7. An order none of whose outputs exists, with [overwrite] off: the round
    returns after its warning; no file is made, no header is written, no
    blackbody is started.  With [overwrite] on the same order is computed. *)
Theorem flux_order_without_outputs_not_computed :
  let run := example_order bound_with_free "" false ∅ in
  fst run = Ok tt
  /\ fs (snd run) = ∅ /\ funits (snd run) = ∅
  /\ calibrated (trace (snd run)) = []
  /\ last (trace (snd run))
     = Some (Log WARNING "of the telluric corrected science 1D source spectra.")
  /\ calibrated (trace (snd (example_order bound_with_free "" true ∅))) = [3%Z].
Proof. vm_compute. repeat split; reflexivity. Qed.

(** C1. With the module as it is written no flux density is computed and no
    header is tagged, whatever the order, the magnitude, the exposure times and
    the external calls: a round of the loop over the orders ends at line 164
    with the NameError of [sci_telluricCorrected], the state as it was, and
    the lines of the scale themselves (186-199) end at line 187 with the
    NameError of [stdMagnitudes], after their first message.  So it is at the
    exposure times of the spec's example, 300 s and 5 s with an empty
    magnitude: no 60, no [Flambda, relative]. *)
Theorem flux_scale_is_never_computed
    (free : free_names) (cfg : settings)
    (py_float : string -> result float) (py_pow : float -> float -> result float)
    (scale_blackbody : Z -> float -> result unit) (imarith wmef : result unit)
    (zmf : gmap Z string) (std sci : float) (i : nat) (s : state) :
  calibrate_order bound free cfg py_float py_pow scale_blackbody imarith wmef zmf std sci i s
  = (Raise (NameError "sci_telluricCorrected"), s)
  /\ flux_density_scale bound free cfg py_float py_pow zmf std sci i s
     = (Raise (NameError "stdMagnitudes"),
        State (fs s) (funits s)
          (trace s ++ [Log INFO "Converting magnitude to flux density for the telluric."]))
  /\ (let run := example_order bound "" true ∅ in
      fst run = Raise (NameError "sci_telluricCorrected")
      /\ flambdas (trace (snd run)) = []
      /\ funits (snd run) = ∅).
Proof.
  split; [| split].
  - unfold calibrate_order.
    rewrite (flux_read_bound "os") by reflexivity.
    rewrite (flux_read_unbound "sci_telluricCorrected") by reflexivity.
    reflexivity.
  - unfold flux_density_scale.
    rewrite (flux_read_unbound "stdMagnitudes") by reflexivity.
    reflexivity.
  - cbv zeta. unfold example_order.
    assert (H : forall f c z,
               calibrate_order bound f c float_of_string (fun _ _ => Raise OverflowError)
                 (fun _ _ => Ok tt) (Ok tt) (Ok tt) z 300%float 5%float 0 (State ∅ ∅ [])
               = (Raise (NameError "sci_telluricCorrected"), State ∅ ∅ [])).
    { intros f c z. unfold calibrate_order.
      rewrite (flux_read_bound "os") by reflexivity.
      rewrite (flux_read_unbound "sci_telluricCorrected") by reflexivity.
      reflexivity. }
    rewrite H. repeat split.
Qed.

End FluxFacts.

(** ** Properties of the data sheet *)

Section WritePdfFacts.

Import WritePdf.

Lemma opened_app t1 t2 : opened (t1 ++ t2) = (opened t1 ++ opened t2)%list.
Proof. unfold opened. apply omap_app. Qed.

Lemma skipped_app t1 t2 : skipped (t1 ++ t2) = (skipped t1 ++ skipped t2)%list.
Proof. unfold skipped. apply omap_app. Qed.

Lemma warned_app t1 t2 : warned (t1 ++ t2) = (warned t1 ++ warned t2)%list.
Proof. unfold warned. apply omap_app. Qed.

(** A computation is inside a report when it only appends events that neither
    open a data sheet nor skip a directory. *)
Definition inside {A} (m : M state A) : Prop :=
  forall t r t', m t = (r, t') ->
    exists evs, t' = (t ++ evs)%list /\ opened evs = [] /\ skipped evs = [].

Lemma inside_same {A} (m : M state A) :
  (forall t r t', m t = (r, t') -> t' = t) -> inside m.
Proof.
  intros Hm t r t' H. apply Hm in H as ->. exists []. rewrite app_nil_r. repeat split.
Qed.

Lemma inside_ret {A} (a : A) : inside (Py.ret a).
Proof. apply inside_same. intros t r t' H. apply ret_inv in H as [_ ->]. reflexivity. Qed.

Lemma inside_raise {A} e : inside (@Py.raise state A e).
Proof. apply inside_same. intros t r t' H. apply raise_inv in H as [_ ->]. reflexivity. Qed.

Lemma inside_lift {A} (x : result A) : inside (@Py.lift state A x).
Proof. apply inside_same. intros t r t' H. apply lift_inv in H as [_ ->]. reflexivity. Qed.

Lemma inside_item d key : inside (item d key).
Proof. unfold item. destruct (d !! key); [apply inside_ret | apply inside_raise]. Qed.

Lemma inside_emit e : opened [e] = [] -> skipped [e] = [] -> inside (emit e).
Proof.
  intros Ho Hs t r t' H. unfold emit, Py.modify in H. inversion H; subst.
  exists [e]. repeat split; assumption.
Qed.

Lemma inside_bind {A B} (m : M state A) (k : A -> M state B) :
  inside m -> (forall a, inside (k a)) -> inside (Py.bind m k).
Proof.
  intros Hm Hk t r t' H.
  apply bind_inv in H as [(a & t1 & H1 & H2) | (e & H1 & _)].
  - apply Hm in H1 as (evs1 & -> & O1 & S1). apply Hk in H2 as (evs2 & -> & O2 & S2).
    exists (evs1 ++ evs2)%list.
    rewrite app_assoc, opened_app, skipped_app, O1, O2, S1, S2. repeat split.
  - apply Hm in H1. exact H1.
Qed.

Lemma inside_try_except {A} (body handler : M state A) :
  inside body -> inside handler -> inside (try_except body handler).
Proof.
  intros Hb Hh t r t' H. unfold try_except in H.
  destruct (body t) as [[a | e] t1] eqn:Hbody.
  - inversion H; subst. eapply Hb. exact Hbody.
  - apply Hb in Hbody as (evs1 & -> & O1 & S1). apply Hh in H as (evs2 & -> & O2 & S2).
    exists (evs1 ++ evs2)%list.
    rewrite app_assoc, opened_app, skipped_app, O1, O2, S1, S2. repeat split.
Qed.

Lemma inside_fold_m {A B} (body : B -> A -> M state B) (l : list A) :
  (forall b x, inside (body b x)) -> forall b, inside (fold_m body l b).
Proof.
  intros Hbody. induction l as [| x l IH]; intros b; simpl; [apply inside_ret |].
  apply inside_bind; [apply Hbody | intros b'; apply IH].
Qed.

Ltac inside :=
  repeat first
    [ apply inside_ret | apply inside_raise | apply inside_lift | apply inside_item
    | apply inside_emit; reflexivity
    | apply inside_try_except
    | apply inside_fold_m; intros ? ?
    | apply inside_bind; [| intros ?]
    | match goal with
      | |- inside (match ?x with _ => _ end) => destruct x
      end ].

(** What a keyword of the header becomes in the measurements. *)
Definition degraded (header : gmap string value) (key : string) : value :=
  match header !! key with
  | Some v => stripped v
  | None => PyNone
  end.

Definition missing (header : gmap string value) (key : string) : bool :=
  bool_decide (header !! key = None).

Lemma read_key_result header data key t :
  read_key header data key t
  = (Ok (<[key := degraded header key]> data),
     (t ++ if missing header key
           then [Log WARNING "%s[%s] is undefined" key] else [])%list).
Proof.
  unfold read_key, try_except, item, degraded, missing, Py.bind.
  destruct (header !! key) as [v |]; simpl.
  - rewrite app_nil_r. reflexivity.
  - reflexivity.
Qed.

(** The loop over the keywords never raises: every keyword is set, to the
    sentinel when the header lacks it, with one warning per missing keyword. *)
Lemma read_keys_result header keys :
  forall data t,
    exists data',
      fold_m (read_key header) keys data t
      = (Ok data',
         (t ++ map (Log WARNING "%s[%s] is undefined") (filter (missing header) keys))%list)
      /\ (forall key, key ∈ keys -> data' !! key = Some (degraded header key))
      /\ (forall key, key ∉ keys -> data' !! key = data !! key).
Proof.
  induction keys as [| k keys IH]; intros data t.
  - exists data. simpl. rewrite app_nil_r. split; [reflexivity |].
    split; [intros key H; inversion H | reflexivity].
  - destruct (IH (<[k := degraded header k]> data)
                (t ++ if missing header k
                      then [Log WARNING "%s[%s] is undefined" k] else [])%list)
      as (data' & Hrun & Hin & Hout).
    exists data'. split; [| split].
    + simpl. unfold Py.bind. rewrite read_key_result, Hrun.
      rewrite filter_cons. destruct (missing header k); simpl.
      * rewrite <- app_assoc. reflexivity.
      * rewrite app_nil_r. reflexivity.
    + intros key Hkey. destruct (decide (key ∈ keys)) as [Hk | Hk]; [apply Hin, Hk |].
      apply elem_of_cons in Hkey as [-> | Hkey]; [| contradiction].
      rewrite Hout by exact Hk. apply lookup_insert_eq.
    + intros key Hkey. apply not_elem_of_cons in Hkey as [Hne Hkey].
      rewrite Hout by exact Hkey. apply lookup_insert_ne. congruence.
Qed.

Lemma location_known v lat :
  location v = Ok lat -> v = PyStr "Gemini-North" \/ v = PyStr "Gemini-South".
Proof.
  destruct v as [| | | | o]; simpl; try discriminate.
  destruct (String.eqb_spec o "Gemini-North") as [-> | _]; [left; reflexivity |].
  destruct (String.eqb_spec o "Gemini-South") as [-> | _]; [right; reflexivity |].
  discriminate.
Qed.

Lemma object_not_a_listed_key : "OBJECT" ∉ header_keys.
Proof. apply (bool_decide_unpack _). vm_compute. exact I. Qed.

Lemma read_headers_ok header data t data' t' :
  read_headers header data t = (Ok data', t') ->
  forall key, key ∈ header_keys -> data' !! key = Some (degraded header key).
Proof.
  unfold read_headers. intros H key Hkey.
  apply bind_inv in H as [(? & t1 & _ & H) | (e & _ & H)]; [| discriminate].
  apply bind_inv in H as [(d & t2 & H2 & H) | (e & _ & H)]; [| discriminate].
  destruct (read_keys_result header header_keys data t1) as (d' & Hrun & Hin & _).
  rewrite Hrun in H2. inversion H2; subst d' t2. clear H2.
  apply bind_inv in H as [(object & t3 & _ & H) | (e & _ & H)]; [| discriminate].
  destruct object; try (apply raise_inv in H as [H _]; discriminate).
  apply ret_inv in H as [H _]. inversion H; subst data'.
  rewrite lookup_insert_ne; [apply Hin, Hkey |].
  intros <-. apply object_not_a_listed_key, Hkey.
Qed.

(** The header names one of the two observatories. *)
Definition names_observatory (header : gmap string value) : Prop :=
  exists o, header !! "OBSERVAT" = Some (PyStr o)
            /\ (strip o = "Gemini-North" \/ strip o = "Gemini-South").

Lemma degraded_observatory header :
  degraded header "OBSERVAT" = PyStr "Gemini-North"
  \/ degraded header "OBSERVAT" = PyStr "Gemini-South" ->
  names_observatory header.
Proof.
  unfold degraded, names_observatory.
  destruct (header !! "OBSERVAT") as [[| | | | o] |]; simpl;
    intros [H | H]; try discriminate; inversion H as [Ho]; exists o;
    (split; [reflexivity |]); [left | right]; reflexivity.
Qed.

Section World.

Variable py_float : string -> result float.
Variable pi : float.
Variable cos : float -> float.
Variable sin : float -> float.
Variable arctan2 : float -> float -> float.
Variable measure : string -> result (value * value).
Variable fits_open : string -> result (gmap string value).
Variable estimate_snr : string -> result value.
Variable render : string -> gmap string value -> gmap string value -> result unit.

Lemma imexam_ok path t d t' :
  imexam measure fits_open path t = (Ok d, t') ->
  exists header, fits_open path = Ok header
                 /\ forall key, key ∈ header_keys -> d !! key = Some (degraded header key).
Proof.
  unfold imexam. intros H.
  apply bind_inv in H as [(measured & t1 & _ & H) | (e & _ & H)]; [| discriminate].
  apply bind_inv in H as [(header & t2 & H2 & H) | (e & _ & H)]; [| discriminate].
  apply lift_inv in H2 as [H2 _]. exists header. split; [symmetry; exact H2 |].
  eapply read_headers_ok. exact H.
Qed.

Lemma item_value d key (t : state) v t' :
  item d key t = (Ok v, t') -> d !! key = Some v.
Proof.
  unfold item. destruct (d !! key); intros H.
  - apply ret_inv in H as [H _]. inversion H. reflexivity.
  - apply raise_inv in H as [H _]. discriminate.
Qed.

Lemma parallactic_angle_ok d t a t' :
  parallactic_angle py_float pi cos sin arctan2 d t = (Ok a, t') ->
  d !! "OBSERVAT" = Some (PyStr "Gemini-North")
  \/ d !! "OBSERVAT" = Some (PyStr "Gemini-South").
Proof.
  unfold parallactic_angle. intros H.
  apply bind_inv in H as [(? & t1 & _ & H) | (e & _ & H)]; [| discriminate].
  apply bind_inv in H as [(? & t2 & _ & H) | (e & _ & H)]; [| discriminate].
  apply bind_inv in H as [(? & t3 & _ & H) | (e & _ & H)]; [| discriminate].
  apply bind_inv in H as [(? & t4 & _ & H) | (e & _ & H)]; [| discriminate].
  apply bind_inv in H as [(v & t5 & H5 & H) | (e & _ & H)]; [| discriminate].
  apply item_value in H5.
  apply bind_inv in H as [(lat & t6 & H6 & _) | (e & _ & H)]; [| discriminate].
  apply lift_inv in H6 as [H6 _]. symmetry in H6. apply location_known in H6.
  rewrite H5. destruct H6 as [-> | ->]; [left | right]; reflexivity.
Qed.

(** A data sheet that is completed belongs to a science target and a telluric
    whose headers both name a known observatory. *)
Lemma report_ok path t t' :
  report py_float pi cos sin arctan2 measure fits_open estimate_snr render path t
  = (Ok tt, t') ->
  exists sci tel,
    fits_open path = Ok sci /\ fits_open (path +:+ "/Telluric") = Ok tel
    /\ names_observatory sci /\ names_observatory tel.
Proof.
  unfold report. intros H.
  assert (Hobs : "OBSERVAT" ∈ header_keys)
    by (apply (bool_decide_unpack _); vm_compute; exact I).
  apply bind_inv in H as [(? & t1 & _ & H) | (e & _ & H)]; [| discriminate].
  apply bind_inv in H as [(sci & t2 & H2 & H) | (e & _ & H)]; [| discriminate].
  apply imexam_ok in H2 as (hsci & Hsci & Dsci).
  apply bind_inv in H as [(tel & t3 & H3 & H) | (e & _ & H)]; [| discriminate].
  apply imexam_ok in H3 as (htel & Htel & Dtel).
  apply bind_inv in H as [(snr1 & t4 & _ & H) | (e & _ & H)]; [| discriminate].
  apply bind_inv in H as [(snr2 & t5 & _ & H) | (e & _ & H)]; [| discriminate].
  apply bind_inv in H as [(a1 & t6 & H6 & H) | (e & _ & H)]; [| discriminate].
  apply parallactic_angle_ok in H6.
  rewrite lookup_insert_ne, (Dsci _ Hobs) in H6 by discriminate.
  apply bind_inv in H as [(a2 & t7 & H7 & _) | (e & _ & H)]; [| discriminate].
  apply parallactic_angle_ok in H7.
  rewrite lookup_insert_ne, (Dtel _ Hobs) in H7 by discriminate.
  exists hsci, htel. split; [exact Hsci |]. split; [exact Htel |].
  split; apply degraded_observatory.
  - destruct H6 as [H6 | H6]; inversion H6; [left | right]; reflexivity.
  - destruct H7 as [H7 | H7]; inversion H7; [left | right]; reflexivity.
Qed.

(** C9, as the code has it.  The loop of [imexam] over its thirteen keywords
    never raises: a keyword the header lacks is set to the sentinel [None], with
    one warning, and the keywords that are there are kept (stripped when they
    are text).  [location] ends the run for anything but the two observatories,
    the sentinel included; so a data sheet is only completed for headers that
    name one of them. *)
Theorem header_fields_degrade_but_observatory_is_required
    (path : string) (header data : gmap string value) (t : state) :
  (exists data',
      fold_m (read_key header) header_keys data t
      = (Ok data',
         (t ++ map (Log WARNING "%s[%s] is undefined")
                 (filter (missing header) header_keys))%list)
      /\ forall key, key ∈ header_keys ->
           data' !! key = Some (match header !! key with
                                | Some v => stripped v
                                | None => PyNone
                                end))
  /\ (forall v, location v = Raise (SystemExit "Unknown observatory")
                \/ v = PyStr "Gemini-North" \/ v = PyStr "Gemini-South")
  /\ location PyNone = Raise (SystemExit "Unknown observatory")
  /\ (forall t',
        report py_float pi cos sin arctan2 measure fits_open estimate_snr render path t
        = (Ok tt, t') ->
        exists sci tel,
          fits_open path = Ok sci /\ fits_open (path +:+ "/Telluric") = Ok tel
          /\ names_observatory sci /\ names_observatory tel).
Proof.
  split.
  { destruct (read_keys_result header header_keys data t) as (data' & Hrun & Hin & _).
    exists data'. split; [exact Hrun | exact Hin]. }
  split.
  { intros [| | | | o]; simpl; try (left; reflexivity).
    destruct (String.eqb_spec o "Gemini-North") as [-> | _]; [right; left; reflexivity |].
    destruct (String.eqb_spec o "Gemini-South") as [-> | _]; [right; right; reflexivity |].
    left. reflexivity. }
  split; [reflexivity |].
  intros t'. apply report_ok.
Qed.

(** The loop of [start] over one item, statement by statement. *)
Lemma start_one_item_cases path process t :
  start py_float pi cos sin arctan2 measure fits_open estimate_snr render
    [(path, process)] t
  = if truthy process
    then report py_float pi cos sin arctan2 measure fits_open estimate_snr render path
           (t ++ [Log DEBUG "%s = %s" path])%list
    else (Ok tt, ((t ++ [Log DEBUG "%s = %s" path]) ++ [Log DEBUG "Skipping %s" path])%list).
Proof.
  unfold start. simpl for_each. unfold Py.bind, logger, emit, Py.modify, Py.ret.
  destruct (truthy process); cbn [negb]; [| reflexivity].
  destruct (report py_float pi cos sin arctan2 measure fits_open estimate_snr render path
              (t ++ [Log DEBUG "%s = %s" path])%list) as [[[] | e] t']; reflexivity.
Qed.

(** A report opens its data sheet first and opens or skips nothing else. *)
Lemma report_opens path t0 r t1 :
  report py_float pi cos sin arctan2 measure fits_open estimate_snr render path t0
  = (r, t1) ->
  exists evs, t1 = (t0 ++ PdfPages (path +:+ "/Final/data_sheet.pdf") :: evs)%list
              /\ opened evs = [] /\ skipped evs = [].
Proof.
  intros H. unfold report in H.
  apply bind_inv in H as [(? & t2 & H2 & H) | (e & H2 & _)]; [| inversion H2].
  unfold emit, Py.modify in H2. inversion H2; subst t2.
  assert (Hin : inside
            (sci <- imexam measure fits_open path ;;
             tel <- imexam measure fits_open (path +:+ "/Telluric") ;;
             snr <- lift (estimate_snr
                            (path +:+ "/Intermediate/ zbduvsrc_comb_order3_MEF.fits[1]")) ;;
             snr0 <- lift (estimate_snr
                             (path +:+ "/Telluric/Intermediate/hvsrc_comb_order3_SEF.fits")) ;;
             angle <- parallactic_angle py_float pi cos sin arctan2 (<["SNR" := snr]> sci) ;;
             angle0 <- parallactic_angle py_float pi cos sin arctan2 (<["SNR" := snr0]> tel) ;;
             logger DEBUG "SCI: %s" "" ;;;
             logger DEBUG "TEL: %s" "" ;;;
             emit (Render path) ;;;
             lift (render path (<["PARANGLE" := PyFloat angle]> (<["SNR" := snr]> sci))
                     (<["PARANGLE" := PyFloat angle0]> (<["SNR" := snr0]> tel))) ;;;
             emit (PdfClose path))).
  { unfold imexam, read_headers, read_key, parallactic_angle, logger. inside. }
  apply Hin in H as (evs & -> & Ho & Hs). exists evs.
  rewrite <- app_assoc. repeat split; assumption.
Qed.

(** The directory is skipped for the empty text only; for any other text its
    data sheet is opened. *)
Lemma start_one_item path process :
  let t := snd (start py_float pi cos sin arctan2 measure fits_open estimate_snr render
                  [(path, process)] []) in
  if truthy process
  then opened t = [path +:+ "/Final/data_sheet.pdf"] /\ skipped t = []
  else opened t = [] /\ skipped t = [path].
Proof.
  cbv zeta. rewrite start_one_item_cases. destruct (truthy process).
  - destruct (report py_float pi cos sin arctan2 measure fits_open estimate_snr render
                path ([] ++ [Log DEBUG "%s = %s" path])%list) as [r t1] eqn:Hrun.
    apply report_opens in Hrun as (evs & -> & Ho & Hs).
    cbn [snd].
    change (PdfPages (path +:+ "/Final/data_sheet.pdf") :: evs)
      with ([PdfPages (path +:+ "/Final/data_sheet.pdf")] ++ evs)%list.
    rewrite !opened_app, !skipped_app, Ho, Hs. split; reflexivity.
  - split; reflexivity.
Qed.

(** C10. A directory whose flag is the text [False], which [getboolean] reads
    as false, is not skipped: its data sheet is opened.  Only the empty text
    makes [start] skip a directory. *)
Theorem false_flag_directory_is_reported (path : string) :
  getboolean "False" = Ok false
  /\ (let t := snd (start py_float pi cos sin arctan2 measure fits_open estimate_snr
                      render [(path, "False")] []) in
      opened t = [path +:+ "/Final/data_sheet.pdf"] /\ skipped t = [])
  /\ (forall process,
        skipped (snd (start py_float pi cos sin arctan2 measure fits_open estimate_snr
                        render [(path, process)] [])) = [path]
        <-> process = "").
Proof.
  split; [reflexivity |]. split.
  - apply (start_one_item path "False").
  - intros process. pose proof (start_one_item path process) as H. cbv zeta in H.
    destruct process as [| c process]; simpl in H.
    + split; [reflexivity | intros _; apply H].
    + destruct H as [_ H]. rewrite H. split; intros H'; discriminate.
Qed.

End World.

(** C9, as the claim has it, fails for a science header without OBSERVAT: the
    keyword is degraded to the sentinel with a warning, and the run then ends
    in [location]; with the keyword the same data sheet is completed. *)
Lemma report_without_observatory_is_aborted :
  "OBSERVAT" ∈ header_keys
  /\ example_header None !! "OBSERVAT" = None
  /\ fst (example_report (example_header (Some "Gemini-North"))
            (example_header (Some "Gemini-North")) [("obs", "True")])
     = Ok tt
  /\ fst (example_report (example_header None)
            (example_header (Some "Gemini-North")) [("obs", "True")])
     = Raise (SystemExit "Unknown observatory")
  /\ warned (snd (example_report (example_header None)
                    (example_header (Some "Gemini-North")) [("obs", "True")]))
     = ["OBSERVAT"].
Proof.
  split; [apply (bool_decide_unpack _); vm_compute; exact I |].
  vm_compute. repeat split; reflexivity.
Qed.

End WritePdfFacts.
(** ** The manifests [CheckData.checklist] reads and writes *)

Lemma string_length_append (a b : string) :
  String.length (a +:+ b) = (String.length a + String.length b)%nat.
Proof. induction a as [| c a IH]; simpl; [reflexivity | rewrite IH; reflexivity]. Qed.

Section ChecklistFacts.

Import CheckData.

Variable dict_order : list (float * nat) -> list (float * nat).
Variable filelist path : string.
Variable headerdict : gmap string header.

Lemma manifest_is_not_its_backup :
  path +:+ "/" +:+ filelist <> path +:+ "/" +:+ (filelist +:+ ".bak").
Proof.
  intros H. apply (f_equal String.length) in H.
  rewrite !string_length_append in H. simpl in H. lia.
Qed.

Lemma exists_file_run p s :
  exists_file p s = (Ok (bool_decide (is_Some (fs s !! p))), s).
Proof. reflexivity. Qed.

Lemma read_names_run p s ls :
  fs s !! p = Some ls -> read_names p s = (Ok (names_of ls), s).
Proof.
  intros H. unfold read_names, Py.bind, Py.get. rewrite H. destruct ls; reflexivity.
Qed.

(** Lines 141-145 write no file and cannot fail. *)
Lemma report_unknown_run (files : list string) msg s :
  exists lg,
    for_each files (fun f => if bool_decide (is_Some (headerdict !! f)) then Py.ret tt
                             else logger ERROR msg) s
    = (Ok tt, State (fs s) lg).
Proof.
  revert s. induction files as [| f files IH]; intros s; simpl.
  - exists (log s). destruct s; reflexivity.
  - unfold Py.bind. destruct (bool_decide (is_Some (headerdict !! f))).
    + exact (IH s).
    + exact (IH _).
Qed.

Lemma checklist_not_found s :
  fs s !! (path +:+ "/" +:+ filelist) = None ->
  checklist dict_order filelist path headerdict s
  = (Ok tt, State (fs s) (log s ++ [(DEBUG, "Checking %s/%s"); (ERROR, "Could not find %s")])%list).
Proof.
  intros H. unfold checklist, Py.bind, exists_file, logger, Py.modify, Py.get, Py.ret.
  cbn -[String.append]. rewrite H. cbn -[String.append].
  rewrite <- app_assoc. reflexivity.
Qed.


Lemma logs_only_logger lvl msg : logs_only (logger lvl msg).
Proof. intros s. eexists. reflexivity. Qed.

Lemma logs_only_ret : logs_only (Py.ret tt).
Proof. intros [F lg]. exists lg. reflexivity. Qed.

Lemma logs_only_bind (m k : M state unit) :
  logs_only m -> logs_only k -> logs_only (Py.bind m (fun _ => k)).
Proof.
  intros Hm Hk s. destruct (Hm s) as [lg1 H1]. destruct (Hk (State (fs s) lg1)) as [lg2 H2].
  exists lg2. unfold Py.bind. rewrite H1. exact H2.
Qed.

Lemma logs_only_check_same n same different : logs_only (check_same n same different).
Proof. unfold check_same. destruct (n =? 1)%nat; apply logs_only_logger. Qed.

Lemma logs_only_report_unknown (files : list string) msg :
  logs_only (for_each files (fun f => if bool_decide (is_Some (headerdict !! f)) then Py.ret tt
                                       else logger ERROR msg)).
Proof.
  induction files as [| f files IH]; simpl.
  - apply logs_only_ret.
  - apply logs_only_bind; [| exact IH].
    destruct (bool_decide (is_Some (headerdict !! f)));
      [apply logs_only_ret | apply logs_only_logger].
Qed.

Ltac logs :=
  repeat first
    [ apply logs_only_logger | apply logs_only_ret | apply logs_only_check_same
    | apply logs_only_report_unknown
    | apply logs_only_bind
    | match goal with
      | |- logs_only (if ?b then _ else _) => destruct b
      end ].

Lemma ends_logs {A} (m : M state unit) (k : unit -> M state A) s r F :
  logs_only m ->
  (forall s1, fs s1 = fs s -> ends (k tt) s1 r F) ->
  ends (Py.bind m k) s r F.
Proof.
  intros Hm Hk. destruct (Hm s) as [lg1 H1].
  destruct (Hk (State (fs s) lg1) eq_refl) as [lg H]. exists lg.
  unfold Py.bind. rewrite H1. exact H.
Qed.

Lemma ends_step {A B} (m : M state A) (k : A -> M state B) s a s1 r F :
  m s = (Ok a, s1) -> ends (k a) s1 r F -> ends (Py.bind m k) s r F.
Proof.
  intros H1 [lg H]. exists lg. unfold Py.bind. rewrite H1. exact H.
Qed.

Lemma ends_raise {A B} (m : M state A) (k : A -> M state B) s e lg F :
  m s = (Raise e, State F lg) -> ends (Py.bind m k) s (Raise e) F.
Proof. intros H1. exists lg. unfold Py.bind. rewrite H1. reflexivity. Qed.

Lemma ends_bind_raise {A B} (m : M state A) (k : A -> M state B) s e F :
  ends m s (Raise e) F -> ends (Py.bind m k) s (Raise e) F.
Proof. intros [lg H]. exists lg. unfold Py.bind. rewrite H. reflexivity. Qed.

Lemma ends_raise_here {A} e s F : fs s = F -> ends (Py.raise e : M state A) s (Raise e) F.
Proof. intros <-. destruct s as [F lg]. exists lg. reflexivity. Qed.

Lemma ends_last (m : M state unit) s F :
  logs_only m -> fs s = F -> ends m s (Ok tt) F.
Proof. intros Hm <-. exact (Hm s). Qed.

Lemma split_unknown_known files :
  Forall (fun f => is_Some (headerdict !! f)) files ->
  split_unknown headerdict files = (files, None).
Proof.
  induction 1 as [| f files Hf _ IH]; simpl; [reflexivity |].
  rewrite bool_decide_eq_true_2 by exact Hf. rewrite IH. reflexivity.
Qed.


(** Lines 203-206: the names are written up to the first one without a
    header, which raises the KeyError of line 205. *)
Lemma rewrite_run val (files : list string) : forall s acc,
  fs s !! (path +:+ "/" +:+ filelist) = Some acc ->
  for_each files (fun f =>
    Py.bind (lookup_header headerdict f) (fun hf =>
      if PrimFloat.eqb (EXPTIME hf) val
      then write_line (path +:+ "/" +:+ filelist) f
      else Py.ret tt)) s
  = (match snd (split_unknown headerdict files) with
     | None => Ok tt
     | Some f => Raise (KeyError f)
     end,
     State (<[path +:+ "/" +:+ filelist :=
               (acc ++ kept headerdict val (fst (split_unknown headerdict files)))%list]> (fs s))
           (log s)).
Proof.
  induction files as [| f files IH]; intros s acc Hacc.
  - simpl. rewrite app_nil_r. rewrite insert_id by exact Hacc. destruct s; reflexivity.
  - cbn [for_each split_unknown]. unfold Py.bind at 1. unfold lookup_header at 1.
    destruct (headerdict !! f) as [h |] eqn:Hf.
    + rewrite bool_decide_eq_true_2 by (exists h; reflexivity).
      destruct (split_unknown headerdict files) as [pre unknown] eqn:Hsplit.
      cbn [Py.ret Py.bind fst snd kept List.filter]. rewrite Hf.
      destruct (PrimFloat.eqb (EXPTIME h) val) eqn:Hval.
      * unfold write_line, Py.modify. cbn [fs log]. rewrite Hacc. cbn [default].
        rewrite (IH (State (<[path +:+ "/" +:+ filelist := (acc ++ [f])%list]> (fs s)) (log s))
                    (acc ++ [f])%list) by (cbn [fs]; apply lookup_insert_eq).
        cbn [fst snd fs log]. unfold kept. rewrite insert_insert_eq.
        rewrite <- app_assoc. reflexivity.
      * unfold Py.ret at 1. rewrite (IH s acc Hacc). reflexivity.
    + rewrite bool_decide_eq_false_2 by (intros [x Hx]; discriminate).
      cbn [Py.raise fst snd kept List.filter]. rewrite app_nil_r.
      rewrite insert_id by exact Hacc. destruct s; reflexivity.
Qed.

(** What [checklist] returns and what it leaves of the files depends on the
    files alone, and is [checklist_files]. *)
Lemma checklist_run s :
  ends (checklist dict_order filelist path headerdict) s
    (fst (checklist_files dict_order filelist path headerdict (fs s)))
    (snd (checklist_files dict_order filelist path headerdict (fs s))).
Proof.
  unfold checklist_files.
  destruct (fs s !! (path +:+ "/" +:+ filelist)) as [ls |] eqn:Hmf.
  2: { eexists. rewrite (checklist_not_found s Hmf). reflexivity. }
  unfold checklist.
  apply ends_logs; [logs |]. intros s1 H1.
  eapply ends_step; [apply exists_file_run |].
  rewrite H1, Hmf. rewrite bool_decide_eq_true_2 by (exists ls; reflexivity). cbn [negb].
  apply ends_logs; [logs |]. intros s2 H2. rewrite H1 in H2.
  eapply ends_step; [apply read_names_run; rewrite H2; exact Hmf |].
  apply ends_logs; [logs |]. intros s3 H3. rewrite H2 in H3.
  apply ends_logs; [logs |]. intros s4 H4. rewrite H3 in H4.
  cbv zeta. fold (exposures headerdict (names_of ls)).
  unfold lookup_header at 1.
  destruct (headerdict !! List.last (names_of ls) "") as [h |] eqn:Hlast.
  2: { destruct s4 as [F4 lg4]. cbn [fs] in H4. subst F4.
       eapply ends_raise. reflexivity. }
  eapply ends_step; [reflexivity |].
  apply ends_logs; [logs |]. intros s5 H5. rewrite H4 in H5.
  apply ends_logs; [logs |]. intros s6 H6. rewrite H5 in H6.
  apply ends_logs; [logs |]. intros s7 H7. rewrite H6 in H7.
  apply ends_logs; [logs |]. intros s8 H8. rewrite H7 in H8.
  apply ends_logs; [logs |]. intros s9 H9. rewrite H8 in H9.
  apply ends_logs; [logs |]. intros s10 H10. rewrite H9 in H10.
  destruct (length (distinct_floats (exposures headerdict (names_of ls))) =? 1)%nat.
  { apply ends_last; [logs | exact H10]. }
  apply ends_logs; [logs |]. intros s11 H11. rewrite H10 in H11.
  apply ends_logs; [logs |]. intros s12 H12. rewrite H11 in H12.
  destruct (most_common1 (dict_order (Counter (exposures headerdict (names_of ls)))))
    as [vn | e] eqn:Hcommon.
  2: { destruct s12 as [F12 lg12]. cbn [fs] in H12. subst F12.
       eapply ends_raise. reflexivity. }
  eapply ends_step; [reflexivity |].
  apply ends_logs; [logs |]. intros s13 H13. rewrite H12 in H13.
  destruct (1 <? values_count (dict_order (Counter (exposures headerdict (names_of ls))))
                   (fst vn))%nat.
  { cbn [fst snd]. apply ends_bind_raise.
    apply ends_logs; [logs |]. intros s14 H14. rewrite H13 in H14.
    apply ends_logs; [logs |]. intros s15 H15. rewrite H14 in H15.
    apply ends_raise_here. exact H15. }
  eapply ends_step; [reflexivity |].
  apply ends_logs; [logs |]. intros s14 H14. rewrite H13 in H14.
  eapply ends_step.
  { unfold copy2, Py.bind, Py.get. rewrite H14, Hmf. reflexivity. }
  apply ends_logs; [logs |]. intros s15 H15. cbn [fs] in H15. rewrite H14 in H15.
  eapply ends_step; [reflexivity |].
  pose proof (rewrite_run (fst vn) (names_of ls)
                (State (<[path +:+ "/" +:+ filelist := []]> (fs s15)) (log s15)) []
                (lookup_insert_eq _ _ _)) as Hrw.
  cbn [fs log app] in Hrw. rewrite insert_insert_eq, H15 in Hrw. rewrite H15.
  cbn [fst snd].
  destruct (snd (split_unknown headerdict (names_of ls))) as [f |].
  - eapply ends_raise. exact Hrw.
  - eapply ends_step; [exact Hrw |]. apply ends_last; [logs | reflexivity].
Qed.


(** X1. A manifest that does not exist is reported and nothing else happens:
    [checklist] returns normally after its error record, and no file is
    read or written. *)
Theorem checklist_missing_manifest s :
  fs s !! (path +:+ "/" +:+ filelist) = None ->
  checklist dict_order filelist path headerdict s
  = (Ok tt, State (fs s) (log s ++ [(DEBUG, "Checking %s/%s"); (ERROR, "Could not find %s")])%list).
Proof.
  intros H. unfold checklist, Py.bind, exists_file, logger, Py.modify, Py.get, Py.ret.
  cbn -[String.append]. rewrite H. cbn -[String.append].
  rewrite <- app_assoc. reflexivity.
Qed.

(** X2. Whatever [checklist] returns or raises, it either leaves every file
    as it was, or it has copied the manifest to its [.bak] first: the backup
    then holds the lines the manifest had, and no file but the manifest and
    the backup has changed. *)
Theorem checklist_rewrites_only_after_backup s r s' :
  checklist dict_order filelist path headerdict s = (r, s') ->
  fs s' = fs s
  \/ (is_Some (fs s !! (path +:+ "/" +:+ filelist))
      /\ fs s' !! (path +:+ "/" +:+ (filelist +:+ ".bak")) = fs s !! (path +:+ "/" +:+ filelist)
      /\ forall p, p <> path +:+ "/" +:+ filelist ->
                   p <> path +:+ "/" +:+ (filelist +:+ ".bak") ->
                   fs s' !! p = fs s !! p).
Proof.
  intros H. destruct (checklist_run s) as [lg Hrun]. rewrite Hrun in H.
  inversion H as [[Hr Hs]]. clear H Hrun Hr. cbn [fs]. unfold checklist_files.
  destruct (fs s !! (path +:+ "/" +:+ filelist)) as [ls |] eqn:Hmf; [| left; reflexivity].
  destruct (headerdict !! List.last (names_of ls) ""); [| left; reflexivity].
  destruct (length (distinct_floats (exposures headerdict (names_of ls))) =? 1)%nat;
    [left; reflexivity |].
  destruct (most_common1 (dict_order (Counter (exposures headerdict (names_of ls)))))
    as [vn | e]; [| left; reflexivity].
  destruct (1 <? values_count (dict_order (Counter (exposures headerdict (names_of ls))))
                   (fst vn))%nat; [left; reflexivity |].
  right. cbn [snd]. split; [exists ls; reflexivity |]. split.
  - rewrite lookup_insert_ne by exact manifest_is_not_its_backup.
    apply lookup_insert_eq.
  - intros p Hp Hb. rewrite !lookup_insert_ne by (intros Heq; congruence). reflexivity.
Qed.





End ChecklistFacts.

Section ChecklistExamples.

Import CheckData.

Lemma checklist_missing_manifest_witness :
  fs (State ∅ []) !! ("obs" +:+ "/" +:+ "src.list") = None
  /\ checklist (fun c => c) "src.list" "obs" ∅ (State ∅ [])
     = (Ok tt, State ∅ [(DEBUG, "Checking %s/%s"); (ERROR, "Could not find %s")]).
Proof.
  split; [reflexivity |].
  apply (checklist_missing_manifest (fun c => c) "src.list" "obs" ∅ (State ∅ [])).
  reflexivity.
Defined.

Lemma checklist_rewrites_only_after_backup_witness :
  run (fun c => c) [5; 5; 5; 300]%float
  = (fst (run (fun c => c) [5; 5; 5; 300]%float), snd (run (fun c => c) [5; 5; 5; 300]%float))
  /\ fs (snd (run (fun c => c) [5; 5; 5; 300]%float)) !! "obs/src.list.bak"
     = Some ["N1.fits"; "N2.fits"; "N3.fits"; "N4.fits"].
Proof.
  split; [vm_compute; reflexivity |].
  destruct (checklist_rewrites_only_after_backup (fun c => c) "src.list" "obs"
              (headers_of [5; 5; 5; 300]%float) (manifest_state [5; 5; 5; 300]%float)
              (fst (run (fun c => c) [5; 5; 5; 300]%float))
              (snd (run (fun c => c) [5; 5; 5; 300]%float)))
    as [H | (_ & H & _)].
  - vm_compute. reflexivity.
  - vm_compute. reflexivity.
  - vm_compute. reflexivity.
Defined.





End ChecklistExamples.
(** ** The measurements and the pages of [WritePdf] *)

Section ResultFacts.

Lemma and_then_ok {A B} (r : result A) (k : A -> result B) b :
  and_then r k = Ok b -> exists a, r = Ok a /\ k a = Ok b.
Proof. destruct r as [a | e]; simpl; [| discriminate]. intros H. exists a. auto. Qed.

Lemma split_on_free sep s : has_char sep s = false -> split_on sep s = [s].
Proof.
  induction s as [| c s IH]; simpl; [reflexivity |].
  destruct (Ascii.eqb c sep); simpl; [discriminate |].
  intros H. rewrite (IH H). reflexivity.
Qed.

Lemma split_on_field sep a b :
  has_char sep a = false ->
  split_on sep (a +:+ String sep b) = a :: split_on sep b.
Proof.
  induction a as [| c a IH]; simpl.
  - rewrite Ascii.eqb_refl. reflexivity.
  - destruct (Ascii.eqb c sep); simpl; [discriminate |].
    intros H. rewrite (IH H). reflexivity.
Qed.

(** A line that contains [sub], whose first character is no blank, has a
    word. *)
Lemma words_of_contains sub s c sub' :
  sub = String c sub' -> Ascii.is_space c = false ->
  contains sub s = true -> words s <> [].
Proof.
  intros -> Hc. unfold words. induction s as [| d s IH]; simpl; [discriminate |].
  destruct (words_from s) as [w ws].
  destruct (ascii_dec c d) as [<- | Hcd].
  - intros _. rewrite Hc. simpl. discriminate.
  - simpl. intros H.
    destruct (Ascii.is_space d); simpl; [exact (IH H) | discriminate].
Qed.

End ResultFacts.

Section MeasureFacts.

Import WritePdf.

Variable py_float : string -> result float.

(** X7. [hms2deg] of a text of three fields [h:m:s] is
    [(float(h) + float(m)/60 + float(s)/3600) / 24 * 360]: a sign written
    before the hours applies to the hours alone, so the minutes and seconds of a
    negative angle are added towards zero. *)
Theorem hms2deg_sign_applies_to_hours_only (h m s : string) (x y z : float) :
  has_char ":" h = false -> has_char ":" m = false -> has_char ":" s = false ->
  py_float h = Ok x -> py_float m = Ok y -> py_float s = Ok z ->
  hms2deg py_float (PyStr (h +:+ ":" +:+ m +:+ ":" +:+ s))
  = Ok (PrimFloat.mul
          (PrimFloat.div
             (PrimFloat.add (PrimFloat.add x (PrimFloat.div y 60%float))
                (PrimFloat.div z 3600%float))
             24%float)
          360%float).
Proof.
  intros Hh Hm Hs Hx Hy Hz. unfold hms2deg.
  change (h +:+ ":" +:+ m +:+ ":" +:+ s)
    with (h +:+ String ":" (m +:+ String ":" s)).
  rewrite (split_on_field ":" h _ Hh), (split_on_field ":" m _ Hm), (split_on_free ":" s Hs).
  rewrite Hx, Hy, Hz. reflexivity.
Qed.

Lemma read_imexam_log_result lines : forall m t m' t',
  read_imexam_log py_float lines m t = (Ok m', t') ->
  m' = m \/ exists c p f, m' = Measures (Some c) (PyFloat p) (PyFloat f).
Proof.
  induction lines as [| line lines IH]; intros m t m' t' H; simpl in H.
  - left. apply ret_inv in H as [H _]. inversion H. reflexivity.
  - destruct (contains "#" line); [exact (IH _ _ _ _ H) |].
    apply bind_inv in H as [(? & t1 & _ & H) | (e & _ & H)]; [| discriminate].
    apply bind_inv in H as [(v0 & t2 & _ & H) | (e & _ & H)]; [| discriminate].
    destruct (String.eqb v0 "Lines"); [| exact (IH _ _ _ _ H)].
    apply bind_inv in H as [(v3 & t3 & _ & H) | (e & _ & H)]; [| discriminate].
    apply bind_inv in H as [(c & t4 & _ & H) | (e & _ & H)]; [| discriminate].
    apply bind_inv in H as [(v5 & t5 & _ & H) | (e & _ & H)]; [| discriminate].
    apply bind_inv in H as [(p & t6 & _ & H) | (e & _ & H)]; [| discriminate].
    apply bind_inv in H as [(v9 & t7 & _ & H) | (e & _ & H)]; [| discriminate].
    apply bind_inv in H as [(f & t8 & _ & H) | (e & _ & H)]; [| discriminate].
    apply ret_inv in H as [H _]. right. exists c, p, f. inversion H. reflexivity.
Qed.

Lemma imexam_log_floats lines t pk fw t' :
  imexam_log py_float lines t = (Ok (pk, fw), t') ->
  exists p f, pk = PyFloat p /\ fw = PyFloat f.
Proof.
  unfold imexam_log. intros H.
  apply bind_inv in H as [(m & t1 & Hm & H) | (e & _ & H)]; [| discriminate].
  apply read_imexam_log_result in Hm as [-> | (c & p & f & ->)]; simpl in H.
  - apply raise_inv in H as [H _]. discriminate.
  - apply bind_inv in H as [(? & t2 & _ & H) | (e & _ & H)]; [| discriminate].
    apply ret_inv in H as [H _]. inversion H. exists p, f. split; reflexivity.
Qed.

Lemma read_imexam_log_passes lines m : forall t,
  Forall no_lines_row lines ->
  read_imexam_log py_float lines m t
  = (Ok m,
     (t ++ map (fun line => Log DEBUG "%s" (strip line))
             (List.filter (fun line => negb (contains "#" line)) lines))%list).
Proof.
  induction lines as [| line lines IH]; intros t Hrows; simpl.
  - rewrite app_nil_r. reflexivity.
  - apply Forall_cons in Hrows as [Hline Hrows].
    destruct (contains "#" line) eqn:Hc; simpl; [exact (IH _ Hrows) |].
    destruct Hline as [Hline | (w & ws & Hw & Hne)]; [congruence |].
    unfold Py.bind at 1. unfold logger at 1, emit at 1, Py.modify at 1.
    rewrite Hw. unfold Py.bind at 1. unfold Py.lift at 1.
    change (nth_item (w :: ws) 0) with (Ok w). cbv iota beta.
    rewrite (proj2 (String.eqb_neq w "Lines") Hne).
    rewrite (IH _ Hrows), <- app_assoc. reflexivity.
Qed.

Lemma snr_of_passes lines snr :
  Forall (fun line => contains "snr" line = false) lines ->
  snr_of py_float lines snr = Ok snr.
Proof.
  induction 1 as [| line lines Hline _ IH]; simpl; [reflexivity |].
  rewrite Hline. exact IH.
Qed.

Lemma snr_of_app pre : forall post snr v,
  snr_of py_float pre snr = Ok v ->
  snr_of py_float (pre ++ post) snr = snr_of py_float post v.
Proof.
  induction pre as [| line pre IH]; intros post snr v H; simpl in *.
  - inversion H. reflexivity.
  - destruct (contains "snr" line); [| exact (IH _ _ _ H)].
    destruct (last (words line)) as [w |]; [| discriminate].
    destruct (py_float w) as [x |]; simpl in *; [| discriminate].
    exact (IH _ _ _ H).
Qed.

Section Measured.

Variable aperture_file : string -> result (list string).
Variable iraf_imexam : string -> float -> result (list string).
Variable iraf_bplot : string -> result (list string).
Variable fits_open : string -> result (gmap string value).

Lemma peak_not_a_listed_key : "PEAK" ∉ header_keys.
Proof. apply (bool_decide_unpack _). vm_compute. exact I. Qed.

Lemma fwhm_not_a_listed_key : "FWHM" ∉ header_keys.
Proof. apply (bool_decide_unpack _). vm_compute. exact I. Qed.

Lemma read_headers_keeps header data t data' t' key :
  read_headers header data t = (Ok data', t') ->
  key ∉ header_keys -> key <> "OBJECT" ->
  data' !! key = data !! key.
Proof.
  unfold read_headers. intros H Hkey Hobj.
  apply bind_inv in H as [(? & t1 & _ & H) | (e & _ & H)]; [| discriminate].
  apply bind_inv in H as [(d & t2 & H2 & H) | (e & _ & H)]; [| discriminate].
  destruct (read_keys_result header header_keys data t1) as (d' & Hrun & _ & Hout).
  rewrite Hrun in H2. inversion H2; subst d' t2. clear H2.
  apply bind_inv in H as [(object & t3 & _ & H) | (e & _ & H)]; [| discriminate].
  destruct object; try (apply raise_inv in H as [H _]; discriminate).
  apply ret_inv in H as [H _]. inversion H; subst data'.
  rewrite lookup_insert_ne by congruence. apply Hout, Hkey.
Qed.

(** X8. Whenever [imexam] returns its dictionary, PEAK and FWHM are floats:
    the [None] with which lines 184-185 start them is never returned, because
    line 197 reads [center], which only the row that sets all three binds. *)
Theorem imexam_peak_and_fwhm_are_floats path t data t' :
  imexam_measured py_float aperture_file iraf_imexam fits_open path t = (Ok data, t') ->
  exists p f, data !! "PEAK" = Some (PyFloat p) /\ data !! "FWHM" = Some (PyFloat f).
Proof.
  unfold imexam_measured. intros H.
  apply bind_inv in H as [(measured & t0 & H0 & H) | (e & _ & H)]; [| discriminate].
  unfold measure_spectrum in H0.
  apply bind_inv in H0 as [(lines & s1 & _ & H0) | (e & _ & H0)]; [| discriminate].
  apply bind_inv in H0 as [(xpos & s2 & _ & H0) | (e & _ & H0)]; [| discriminate].
  apply bind_inv in H0 as [(? & s3 & _ & H0) | (e & _ & H0)]; [| discriminate].
  apply bind_inv in H0 as [(? & s4 & _ & H0) | (e & _ & H0)]; [| discriminate].
  apply bind_inv in H0 as [(? & s5 & _ & H0) | (e & _ & H0)]; [| discriminate].
  apply bind_inv in H0 as [(? & s6 & _ & H0) | (e & _ & H0)]; [| discriminate].
  apply bind_inv in H0 as [(lg & s7 & _ & H0) | (e & _ & H0)]; [| discriminate].
  apply bind_inv in H0 as [(? & s8 & _ & H0) | (e & _ & H0)]; [| discriminate].
  apply bind_inv in H0 as [([pk fw] & s9 & H1 & H0) | (e & _ & H0)]; [| discriminate].
  apply imexam_log_floats in H1 as (p & f & -> & ->).
  apply bind_inv in H0 as [(? & s10 & _ & H0) | (e & _ & H0)]; [| discriminate].
  apply ret_inv in H0 as [H0 _]. inversion H0; subst measured. clear H0.
  unfold imexam in H.
  apply bind_inv in H as [(measured & t1 & H1 & H) | (e & _ & H)]; [| discriminate].
  apply lift_inv in H1 as [H1 _]. inversion H1; subst measured. clear H1.
  apply bind_inv in H as [(header & t2 & _ & H) | (e & _ & H)]; [| discriminate].
  exists p, f. cbn [fst snd] in H. split.
  - rewrite (read_headers_keeps _ _ _ _ _ "PEAK" H peak_not_a_listed_key) by discriminate.
    rewrite lookup_insert_ne by discriminate. apply lookup_insert_eq.
  - rewrite (read_headers_keeps _ _ _ _ _ "FWHM" H fwhm_not_a_listed_key) by discriminate.
    apply lookup_insert_eq.
Qed.

(** X9. A log of IRAF's imexam without a row that starts with [Lines] (only
    comments and other rows) ends [imexam] with the UnboundLocalError of
    [center]: by then lines 161-183 have logged their five messages and line
    190 every row that is no comment, and nothing else is logged; no header is
    read. *)
Theorem imexam_log_without_measurement_is_an_error path t lines xpos log_lines :
  aperture_file path = Ok lines ->
  spectrum_position py_float lines = Ok xpos ->
  iraf_imexam path xpos = Ok log_lines ->
  Forall no_lines_row log_lines ->
  imexam_measured py_float aperture_file iraf_imexam fits_open path t
  = (Raise (UnboundLocalError "center"), (t ++ measurement_logs log_lines)%list).
Proof.
  intros Hap Hpos Hlog Hrows.
  unfold imexam_measured, measure_spectrum.
  unfold Py.bind at 1. unfold Py.bind at 1. unfold Py.lift at 1. rewrite Hap.
  unfold Py.bind at 1. unfold Py.lift at 1. rewrite Hpos.
  unfold Py.bind at 1. unfold logger at 1, emit at 1, Py.modify at 1.
  unfold Py.bind at 1. unfold logger at 1, emit at 1, Py.modify at 1.
  unfold Py.bind at 1. unfold logger at 1, emit at 1, Py.modify at 1.
  unfold Py.bind at 1. unfold logger at 1, emit at 1, Py.modify at 1.
  unfold Py.bind at 1. unfold Py.lift at 1. rewrite Hlog.
  unfold Py.bind at 1. unfold logger at 1, emit at 1, Py.modify at 1.
  unfold Py.bind at 1. unfold imexam_log. unfold Py.bind at 1.
  rewrite (read_imexam_log_passes _ _ _ Hrows). cbn [center].
  unfold Py.raise, measurement_logs. rewrite <- !app_assoc. reflexivity.
Qed.

(** X10. An aperture file without a line that contains [center] ends
    [imexam] with the UnboundLocalError of [xpos], before IRAF is run. *)
Theorem imexam_aperture_without_center_is_an_error path t lines :
  aperture_file path = Ok lines ->
  Forall (fun line => contains "center" line = false) lines ->
  imexam_measured py_float aperture_file iraf_imexam fits_open path t
  = (Raise (UnboundLocalError "xpos"), t).
Proof.
  intros Hap Hlines. unfold imexam_measured, measure_spectrum.
  unfold Py.bind at 1. unfold Py.bind at 1. unfold Py.lift at 1. rewrite Hap.
  unfold Py.bind at 1. unfold Py.lift at 1. unfold spectrum_position. clear Hap.
  assert (Hc : center_of py_float lines = Ok None).
  { induction Hlines as [| line lines Hline _ IH]; simpl; [reflexivity |].
    rewrite Hline. exact IH. }
  rewrite Hc. reflexivity.
Qed.

(** X11. [estimate_snr] returns [None] when bplot printed no line that
    contains [snr]. *)
Theorem estimate_snr_without_snr_line_is_none spectrum lines :
  iraf_bplot spectrum = Ok lines ->
  Forall (fun line => contains "snr" line = false) lines ->
  estimate_snr_of py_float iraf_bplot spectrum = Ok PyNone.
Proof.
  intros Hb Hlines. unfold estimate_snr_of. rewrite Hb. simpl.
  apply snr_of_passes, Hlines.
Qed.

(** X12. When bplot printed lines that contain [snr], [estimate_snr] returns
    the float of the last word of the last of them (such a line always has a
    word), or raises what [float] raises on that word. *)
Theorem estimate_snr_is_of_the_last_snr_line spectrum pre line post v :
  iraf_bplot spectrum = Ok (pre ++ line :: post)%list ->
  snr_of py_float pre PyNone = Ok v ->
  contains "snr" line = true ->
  Forall (fun l => contains "snr" l = false) post ->
  exists w,
    last (words line) = Some w
    /\ estimate_snr_of py_float iraf_bplot spectrum
       = and_then (py_float w) (fun x => Ok (PyFloat x)).
Proof.
  intros Hb Hpre Hline Hpost. unfold estimate_snr_of. rewrite Hb. simpl.
  rewrite (snr_of_app _ _ _ _ Hpre). simpl. rewrite Hline.
  destruct (last (words line)) as [w |] eqn:Hw.
  - exists w. split; [reflexivity |].
    destruct (py_float w) as [x | e]; simpl; [| reflexivity].
    apply snr_of_passes, Hpost.
  - apply last_None in Hw.
    destruct (words_of_contains "snr" line "s" "nr" eq_refl eq_refl Hline Hw).
Qed.

End Measured.

End MeasureFacts.

Section SheetFacts.

Import WritePdf.

Lemma closed_app t1 t2 : closed (t1 ++ t2) = (closed t1 ++ closed t2)%list.
Proof. unfold closed. apply omap_app. Qed.

Lemma unclosed_same {A} (m : M state A) :
  (forall t r t', m t = (r, t') -> t' = t) -> unclosed m.
Proof. intros Hm t r t' H. apply Hm in H as ->. reflexivity. Qed.

Lemma unclosed_ret {A} (a : A) : unclosed (Py.ret a).
Proof. apply unclosed_same. intros t r t' H. apply ret_inv in H as [_ ->]. reflexivity. Qed.

Lemma unclosed_raise {A} e : unclosed (@Py.raise state A e).
Proof. apply unclosed_same. intros t r t' H. apply raise_inv in H as [_ ->]. reflexivity. Qed.

Lemma unclosed_lift {A} (x : result A) : unclosed (@Py.lift state A x).
Proof. apply unclosed_same. intros t r t' H. apply lift_inv in H as [_ ->]. reflexivity. Qed.

Lemma unclosed_item d key : unclosed (item d key).
Proof. unfold item. destruct (d !! key); [apply unclosed_ret | apply unclosed_raise]. Qed.

Lemma unclosed_emit e : closed [e] = [] -> unclosed (emit e).
Proof.
  intros He t r t' H. unfold emit, Py.modify in H. inversion H; subst.
  rewrite closed_app, He. apply app_nil_r.
Qed.

Lemma unclosed_bind {A B} (m : M state A) (k : A -> M state B) :
  unclosed m -> (forall a, unclosed (k a)) -> unclosed (Py.bind m k).
Proof.
  intros Hm Hk t r t' H.
  apply bind_inv in H as [(a & t1 & H1 & H2) | (e & H1 & _)].
  - rewrite (Hk _ _ _ _ H2). exact (Hm _ _ _ H1).
  - exact (Hm _ _ _ H1).
Qed.

Lemma unclosed_try_except {A} (body handler : M state A) :
  unclosed body -> unclosed handler -> unclosed (try_except body handler).
Proof.
  intros Hb Hh t r t' H. unfold try_except in H.
  destruct (body t) as [[a | e] t1] eqn:Hbody.
  - inversion H; subst. exact (Hb _ _ _ Hbody).
  - rewrite (Hh _ _ _ H). exact (Hb _ _ _ Hbody).
Qed.

Lemma unclosed_fold_m {A B} (body : B -> A -> M state B) (l : list A) :
  (forall b x, unclosed (body b x)) -> forall b, unclosed (fold_m body l b).
Proof.
  intros Hbody. induction l as [| x l IH]; intros b; simpl; [apply unclosed_ret |].
  apply unclosed_bind; [apply Hbody | intros b'; apply IH].
Qed.

Ltac unclosed :=
  repeat first
    [ apply unclosed_ret | apply unclosed_raise | apply unclosed_lift | apply unclosed_item
    | apply unclosed_emit; reflexivity
    | apply unclosed_try_except
    | apply unclosed_fold_m; intros ? ?
    | apply unclosed_bind; [| intros ?]
    | match goal with
      | |- unclosed (match ?x with _ => _ end) => destruct x
      end ].

Lemma closes_only_if_unclosed P {A} (m : M state A) : unclosed m -> closes_only_if P m.
Proof. intros Hm t r t' H. left. exact (Hm _ _ _ H). Qed.

Lemma closes_only_if_bind P {A B} (m : M state A) (k : A -> M state B) :
  closes_only_if P m -> (forall a, closes_only_if P (k a)) ->
  closes_only_if P (Py.bind m k).
Proof.
  intros Hm Hk t r t' H.
  apply bind_inv in H as [(a & t1 & H1 & H2) | (e & H1 & _)].
  - destruct (Hm _ _ _ H1) as [E1 | HP]; [| right; exact HP].
    destruct (Hk _ _ _ _ H2) as [E2 | HP]; [| right; exact HP].
    left. rewrite E2. exact E1.
  - exact (Hm _ _ _ H1).
Qed.

Lemma closes_only_if_after P (x : result unit) e :
  (x = Ok tt -> P) -> closes_only_if P (Py.bind (Py.lift x) (fun _ => emit e)).
Proof.
  intros HP t r t' H.
  apply bind_inv in H as [([] & t1 & H1 & H) | (e' & H1 & _)].
  - right. apply lift_inv in H1 as [H1 _]. symmetry in H1. exact (HP H1).
  - left. apply lift_inv in H1 as [_ ->]. reflexivity.
Qed.

Lemma to_float_value py_float v x : to_float py_float v = Ok x -> v <> PyNone.
Proof. destruct v; simpl; intros H; discriminate. Qed.

Lemma hms2deg_value py_float v x : hms2deg py_float v = Ok x -> v <> PyNone.
Proof. destruct v; simpl; intros H; discriminate. Qed.

Lemma location_value v x : location v = Ok x -> v <> PyNone.
Proof. destruct v; simpl; intros H; discriminate. Qed.

Lemma plus_text_value v s r : plus_text v s = Ok r -> v <> PyNone.
Proof. destruct v; simpl; intros H; discriminate. Qed.

Lemma text_plus_value s v r : text_plus s v = Ok r -> v <> PyNone.
Proof. destruct v; simpl; intros H; discriminate. Qed.

Lemma abs_difference_value a b r : abs_difference a b = Ok r -> a <> PyNone.
Proof. destruct a; simpl; intros H; discriminate. Qed.

Lemma lookup_item_value d key v : lookup_item d key = Ok v -> d !! key = Some v.
Proof. unfold lookup_item. destruct (d !! key); intros H; inversion H; reflexivity. Qed.

Lemma degraded_keyword header key v :
  degraded header key = v -> v <> PyNone -> has_keyword header key.
Proof.
  unfold degraded, has_keyword. destruct (header !! key) as [v0 |]; intros <- Hv.
  - exists v0. split; [reflexivity |]. intros ->. apply Hv. reflexivity.
  - destruct (Hv eq_refl).
Qed.

Section Sheet.

Variable py_float : string -> result float.
Variable pi : float.
Variable cos : float -> float.
Variable sin : float -> float.
Variable arctan2 : float -> float -> float.
Variable measure : string -> result (value * value).
Variable fits_open : string -> result (gmap string value).
Variable estimate_snr : string -> result value.
Variable options : page_options.
Variable figure : result unit.
Variable table : string -> list (list value) -> result unit.
Variable annotate : result unit.
Variable plot_spectrum : string -> result unit.
Variable plot_scaled_orders : gmap Z string -> result unit.

Lemma steps_is_not_bound : bool_decide ("steps" ∈ (module_globals ++ builtins)%list) = false.
Proof. vm_compute. reflexivity. Qed.

Lemma plot_other_extractions_ok :
  plot_other_extractions options = Ok tt ->
  getboolean (extractFullSlit options) = Ok false
  /\ getboolean (extractStepwise options) = Ok false.
Proof.
  unfold plot_other_extractions. intros H.
  apply and_then_ok in H as (full & Hfull & H). destruct full; [discriminate |].
  apply and_then_ok in H as (_ & _ & H).
  apply and_then_ok in H as (stepwise & Hstep & H). destruct stepwise.
  - rewrite steps_is_not_bound in H. discriminate.
  - split; assumption.
Qed.

Lemma pages_ok path sci tel :
  pages options figure table annotate plot_spectrum plot_scaled_orders path sci tel = Ok tt ->
  (exists g, sci !! "GEMPRGID" = Some g /\ g <> PyNone)
  /\ (exists d, sci !! "DATE-OBS" = Some d /\ d <> PyNone)
  /\ (exists pa, sci !! "PA" = Some pa /\ pa <> PyNone)
  /\ (exists pa, tel !! "PA" = Some pa /\ pa <> PyNone)
  /\ getboolean (extractFullSlit options) = Ok false
  /\ getboolean (extractStepwise options) = Ok false.
Proof.
  unfold pages. intros H.
  apply and_then_ok in H as (_ & _ & H).
  apply and_then_ok in H as (labels & Hhead & H).
  apply and_then_ok in H as (? & _ & H). apply and_then_ok in H as (? & _ & H).
  apply and_then_ok in H as (? & _ & H). apply and_then_ok in H as (? & _ & H).
  apply and_then_ok in H as (row1 & Hrow1 & H).
  apply and_then_ok in H as (row2 & Hrow2 & H).
  apply and_then_ok in H as (? & _ & H). apply and_then_ok in H as (? & _ & H).
  apply and_then_ok in H as (? & _ & H). apply and_then_ok in H as (? & _ & H).
  apply and_then_ok in H as (? & _ & H). apply and_then_ok in H as (? & _ & H).
  apply and_then_ok in H as (? & _ & H).
  apply plot_other_extractions_ok in H as [Hfull Hstep].
  unfold heading in Hhead.
  apply and_then_ok in Hhead as (g & Hg & Hhead). apply lookup_item_value in Hg.
  apply and_then_ok in Hhead as (s & Hs & Hhead). apply plus_text_value in Hs.
  apply and_then_ok in Hhead as (d & Hd & Hhead). apply lookup_item_value in Hd.
  apply text_plus_value in Hhead.
  unfold bottom_row in Hrow1, Hrow2.
  apply and_then_ok in Hrow1 as (? & _ & Hrow1).
  apply and_then_ok in Hrow1 as (pa1 & Hpa1 & Hrow1). apply lookup_item_value in Hpa1.
  apply and_then_ok in Hrow1 as (? & _ & Hrow1).
  apply and_then_ok in Hrow1 as (? & Hdiff1 & _). apply abs_difference_value in Hdiff1.
  apply and_then_ok in Hrow2 as (? & _ & Hrow2).
  apply and_then_ok in Hrow2 as (pa2 & Hpa2 & Hrow2). apply lookup_item_value in Hpa2.
  apply and_then_ok in Hrow2 as (? & _ & Hrow2).
  apply and_then_ok in Hrow2 as (? & Hdiff2 & _). apply abs_difference_value in Hdiff2.
  repeat split; try assumption; eauto.
Qed.

Lemma parallactic_angle_needs d t a t' :
  parallactic_angle py_float pi cos sin arctan2 d t = (Ok a, t') ->
  Forall (fun key => exists v, d !! key = Some v /\ v <> PyNone)
    ["DEC"; "HA"; "OBSERVAT"; "AZIMUTH"].
Proof.
  unfold parallactic_angle. intros H.
  apply bind_inv in H as [(dec & t1 & H1 & H) | (e & _ & H)]; [| discriminate].
  apply item_value in H1.
  apply bind_inv in H as [(? & t2 & H2 & H) | (e & _ & H)]; [| discriminate].
  apply lift_inv in H2 as [H2 _]. symmetry in H2. apply to_float_value in H2.
  apply bind_inv in H as [(ha & t3 & H3 & H) | (e & _ & H)]; [| discriminate].
  apply item_value in H3.
  apply bind_inv in H as [(? & t4 & H4 & H) | (e & _ & H)]; [| discriminate].
  apply lift_inv in H4 as [H4 _]. symmetry in H4. apply hms2deg_value in H4.
  apply bind_inv in H as [(obs & t5 & H5 & H) | (e & _ & H)]; [| discriminate].
  apply item_value in H5.
  apply bind_inv in H as [(? & t6 & H6 & H) | (e & _ & H)]; [| discriminate].
  apply lift_inv in H6 as [H6 _]. symmetry in H6. apply location_value in H6.
  apply bind_inv in H as [(az & t7 & H7 & H) | (e & _ & H)]; [| discriminate].
  apply item_value in H7.
  apply bind_inv in H as [(? & t8 & H8 & H) | (e & _ & H)]; [| discriminate].
  apply lift_inv in H8 as [H8 _]. symmetry in H8. apply to_float_value in H8.
  repeat constructor; eauto.
Qed.

(** X13. A data sheet is completed only for headers that have more than
    the observatory: of the keywords that [imexam] degrades to [None], the
    science header must have GEMPRGID, DEC, HA, AZIMUTH, PA, OBSERVAT and
    DATE-OBS, and the telluric header DEC, HA, AZIMUTH, PA and OBSERVAT; the
    sentinel of any of them ends the report in [float], [hms2deg], [location],
    the heading of the tables or the difference of the angles. *)
Theorem data_sheet_needs_its_keywords path t t' :
  report py_float pi cos sin arctan2 measure fits_open estimate_snr
    (pages options figure table annotate plot_spectrum plot_scaled_orders) path t
  = (Ok tt, t') ->
  exists sci tel,
    fits_open path = Ok sci /\ fits_open (path +:+ "/Telluric") = Ok tel
    /\ Forall (has_keyword sci)
         ["GEMPRGID"; "DEC"; "HA"; "AZIMUTH"; "PA"; "OBSERVAT"; "DATE-OBS"]
    /\ Forall (has_keyword tel) ["DEC"; "HA"; "AZIMUTH"; "PA"; "OBSERVAT"].
Proof.
  unfold report. intros H.
  assert (Hkeys : Forall (fun key => key ∈ header_keys)
                    ["GEMPRGID"; "DEC"; "HA"; "AZIMUTH"; "PA"; "OBSERVAT"; "DATE-OBS"]).
  { repeat constructor; apply (bool_decide_unpack _); vm_compute; exact I. }
  apply bind_inv in H as [(? & t1 & _ & H) | (e & _ & H)]; [| discriminate].
  apply bind_inv in H as [(sci & t2 & H2 & H) | (e & _ & H)]; [| discriminate].
  apply imexam_ok in H2 as (hsci & Hsci & Dsci).
  apply bind_inv in H as [(tel & t3 & H3 & H) | (e & _ & H)]; [| discriminate].
  apply imexam_ok in H3 as (htel & Htel & Dtel).
  apply bind_inv in H as [(snr1 & t4 & _ & H) | (e & _ & H)]; [| discriminate].
  apply bind_inv in H as [(snr2 & t5 & _ & H) | (e & _ & H)]; [| discriminate].
  apply bind_inv in H as [(a1 & t6 & H6 & H) | (e & _ & H)]; [| discriminate].
  apply parallactic_angle_needs in H6.
  apply bind_inv in H as [(a2 & t7 & H7 & H) | (e & _ & H)]; [| discriminate].
  apply parallactic_angle_needs in H7.
  apply bind_inv in H as [(? & t8 & _ & H) | (e & _ & H)]; [| discriminate].
  apply bind_inv in H as [(? & t9 & _ & H) | (e & _ & H)]; [| discriminate].
  apply bind_inv in H as [(? & t10 & _ & H) | (e & _ & H)]; [| discriminate].
  apply bind_inv in H as [([] & t11 & H11 & _) | (e & _ & H)]; [| discriminate].
  apply lift_inv in H11 as [H11 _]. symmetry in H11.
  apply pages_ok in H11 as (Hg & Hd & Hpa1 & Hpa2 & _ & _).
  exists hsci, htel. split; [exact Hsci |]. split; [exact Htel |].
  inversion Hkeys as [| ? ? K1 Hk1]; inversion Hk1 as [| ? ? K2 Hk2];
    inversion Hk2 as [| ? ? K3 Hk3]; inversion Hk3 as [| ? ? K4 Hk4];
    inversion Hk4 as [| ? ? K5 Hk5]; inversion Hk5 as [| ? ? K6 Hk6];
    inversion Hk6 as [| ? ? K7 _]; subst.
  inversion H6 as [| ? ? (v1 & L1 & N1) R1]; inversion R1 as [| ? ? (v2 & L2 & N2) R2];
    inversion R2 as [| ? ? (v3 & L3 & N3) R3]; inversion R3 as [| ? ? (v4 & L4 & N4) _]; subst.
  inversion H7 as [| ? ? (w1 & M1 & O1) S1]; inversion S1 as [| ? ? (w2 & M2 & O2) S2];
    inversion S2 as [| ? ? (w3 & M3 & O3) S3]; inversion S3 as [| ? ? (w4 & M4 & O4) _]; subst.
  destruct Hg as (g & Lg & Ng). destruct Hd as (d & Ld & Nd).
  destruct Hpa1 as (p1 & Lp1 & Np1). destruct Hpa2 as (p2 & Lp2 & Np2).
  rewrite lookup_insert_ne in L1, L2, L3, L4, M1, M2, M3, M4 by discriminate.
  rewrite !lookup_insert_ne in Lg, Ld, Lp1, Lp2 by discriminate.
  rewrite (Dsci _ K2) in L1. rewrite (Dsci _ K3) in L2. rewrite (Dsci _ K6) in L3.
  rewrite (Dsci _ K4) in L4. rewrite (Dsci _ K1) in Lg. rewrite (Dsci _ K7) in Ld.
  rewrite (Dsci _ K5) in Lp1.
  rewrite (Dtel _ K2) in M1. rewrite (Dtel _ K3) in M2. rewrite (Dtel _ K6) in M3.
  rewrite (Dtel _ K4) in M4. rewrite (Dtel _ K5) in Lp2.
  split; repeat constructor;
    match goal with
    | L : Some (degraded ?h ?k) = Some ?v |- has_keyword ?h ?k =>
        apply (degraded_keyword h k v); [congruence | assumption]
    end.
Qed.

(** X14. Whatever a report does, its data sheet is closed only when both
    [extractFullSlit] and [extractStepwise] read as false: with the first on,
    line 129 calls [plot_orders] with two arguments of its three (TypeError);
    with the second on, line 132 reads [steps], which the module does not
    bind (NameError). *)
Theorem data_sheet_is_closed_only_without_other_extractions path t r t' :
  report py_float pi cos sin arctan2 measure fits_open estimate_snr
    (pages options figure table annotate plot_spectrum plot_scaled_orders) path t
  = (r, t') ->
  closed t' = closed t
  \/ (getboolean (extractFullSlit options) = Ok false
      /\ getboolean (extractStepwise options) = Ok false).
Proof.
  revert t r t'.
  change (closes_only_if
            (getboolean (extractFullSlit options) = Ok false
             /\ getboolean (extractStepwise options) = Ok false)
            (report py_float pi cos sin arctan2 measure fits_open estimate_snr
               (pages options figure table annotate plot_spectrum plot_scaled_orders) path)).
  unfold report.
  repeat first
    [ apply closes_only_if_after; intros H;
      apply pages_ok in H as (_ & _ & _ & _ & Hfull & Hstep); split; assumption
    | apply closes_only_if_bind;
      [apply closes_only_if_unclosed;
       unfold imexam, read_headers, read_key, parallactic_angle, logger; solve [unclosed]
      | intros ?] ].
Qed.

End Sheet.

Lemma location_gemini_north_is_hms2deg :
  location (PyStr "Gemini-North") = hms2deg float_of_string (PyStr "19:49:25.7016").
Proof. vm_compute. reflexivity. Qed.

(** X15. Every latitude that [location] returns is greater than 90
    degrees: the constants are hour angles, fifteen times the latitudes (that
    of Gemini North is what [hms2deg] makes of the 19:49:25.7016 of the comment
    of line 324, see [location_gemini_north_is_hms2deg]). *)
Theorem location_latitude_exceeds_90 observatory latitude :
  location observatory = Ok latitude -> PrimFloat.ltb 90%float latitude = true.
Proof.
  intros H. destruct (location_known observatory latitude H) as [-> | ->];
    inversion H; subst; vm_compute; reflexivity.
Qed.

End SheetFacts.

Section SheetExamples.

Import WritePdf.

Lemma hms2deg_sign_applies_to_hours_only_witness :
  has_char ":" "-01" = false /\ has_char ":" "30" = false /\ has_char ":" "00" = false
  /\ float_of_string "-01" = Ok (-1)%float /\ float_of_string "30" = Ok 30%float
  /\ float_of_string "00" = Ok 0%float
  /\ hms2deg float_of_string (PyStr "-01:30:00") = Ok (-7.5)%float
  /\ hms2deg float_of_string (PyStr "01:30:00") = Ok 22.5%float.
Proof.
  do 6 (split; [vm_compute; reflexivity |]). split.
  - exact (hms2deg_sign_applies_to_hours_only float_of_string "-01" "30" "00"
             (-1)%float 30%float 0%float eq_refl eq_refl eq_refl eq_refl eq_refl eq_refl).
  - vm_compute. reflexivity.
Defined.

Lemma imexam_peak_and_fwhm_are_floats_witness :
  match fst (example_imexam
               ["begin aperture src_comb_SCI_1_ 1 40.3 512."; "  center 40.3 512."]
               ["# imexam log";
                "Lines 335-344: center=512.3 peak=1234. sigma=1.2 fwhm=2.9 bkg=10."]) with
  | Ok data =>
      exists p f, data !! "PEAK" = Some (PyFloat p) /\ data !! "FWHM" = Some (PyFloat f)
  | Raise _ => False
  end.
Proof.
  assert (Hok : is_ok (fst (example_imexam
                              ["begin aperture src_comb_SCI_1_ 1 40.3 512.";
                               "  center 40.3 512."]
                              ["# imexam log";
                               "Lines 335-344: center=512.3 peak=1234. sigma=1.2 fwhm=2.9 bkg=10."]))
                = true) by (vm_compute; reflexivity).
  destruct (example_imexam
              ["begin aperture src_comb_SCI_1_ 1 40.3 512."; "  center 40.3 512."]
              ["# imexam log";
               "Lines 335-344: center=512.3 peak=1234. sigma=1.2 fwhm=2.9 bkg=10."])
    as [[data | e] t'] eqn:H; cbn [fst] in *.
  - unfold example_imexam in H.
    exact (imexam_peak_and_fwhm_are_floats float_of_string _ _ _ _ _ _ _ H).
  - discriminate Hok.
Defined.

Lemma imexam_log_without_measurement_is_an_error_witness :
  spectrum_position float_of_string ["  center 40.3 512."] = Ok 40.3%float
  /\ Forall no_lines_row ["# imexam log"; "Column 512: mean=3."]
  /\ example_imexam ["  center 40.3 512."] ["# imexam log"; "Column 512: mean=3."]
     = (Raise (UnboundLocalError "center"),
        ([] ++ measurement_logs ["# imexam log"; "Column 512: mean=3."])%list)
  /\ measurement_logs ["# imexam log"; "Column 512: mean=3."]
     = [Log DEBUG "Spectrum X-position: %.2f pix" "";
        Log INFO "Running IRAF imexam to measure the spectrum peak and FHWM..." "";
        Log DEBUG "iraf.jimexam.sigma = %0.3f" "";
        Log DEBUG "iraf.jimexam.naverage = %0.3f" "";
        Log DEBUG "Parsing imexam results from the log file..." "";
        Log DEBUG "%s" "Column 512: mean=3."].
Proof.
  assert (H1 : spectrum_position float_of_string ["  center 40.3 512."] = Ok 40.3%float)
    by (vm_compute; reflexivity).
  assert (H2 : Forall no_lines_row ["# imexam log"; "Column 512: mean=3."]).
  { constructor; [left; reflexivity |]. constructor; [| constructor].
    right. exists "Column", ["512:"; "mean"; "3."]. split; [reflexivity | discriminate]. }
  split; [exact H1 |]. split; [exact H2 |]. split; [| vm_compute; reflexivity].
  exact (imexam_log_without_measurement_is_an_error float_of_string
           (fun _ => Ok ["  center 40.3 512."])
           (fun _ _ => Ok ["# imexam log"; "Column 512: mean=3."])
           (fun _ => Ok (example_header (Some "Gemini-North"))) "obs" []
           ["  center 40.3 512."] 40.3%float ["# imexam log"; "Column 512: mean=3."]
           eq_refl H1 eq_refl H2).
Defined.

Lemma imexam_aperture_without_center_is_an_error_witness :
  Forall (fun line => contains "center" line = false) ["begin aperture"; "  low -5."]
  /\ example_imexam ["begin aperture"; "  low -5."] []
     = (Raise (UnboundLocalError "xpos"), []).
Proof.
  assert (H : Forall (fun line => contains "center" line = false)
                ["begin aperture"; "  low -5."]) by (repeat constructor).
  split; [exact H |].
  exact (imexam_aperture_without_center_is_an_error float_of_string
           (fun _ => Ok ["begin aperture"; "  low -5."]) (fun _ _ => Ok [])
           (fun _ => Ok (example_header (Some "Gemini-North"))) "obs" []
           ["begin aperture"; "  low -5."] eq_refl H).
Defined.

Lemma estimate_snr_without_snr_line_is_none_witness :
  Forall (fun line => contains "snr" line = false) ["avg: 3."; "rms: 2."]
  /\ estimate_snr_of float_of_string (fun _ => Ok ["avg: 3."; "rms: 2."]) "spectrum.fits"
     = Ok PyNone.
Proof.
  assert (H : Forall (fun line => contains "snr" line = false) ["avg: 3."; "rms: 2."])
    by (repeat constructor).
  split; [exact H |].
  exact (estimate_snr_without_snr_line_is_none float_of_string
           (fun _ => Ok ["avg: 3."; "rms: 2."]) "spectrum.fits" ["avg: 3."; "rms: 2."]
           eq_refl H).
Defined.

Lemma estimate_snr_is_of_the_last_snr_line_witness :
  snr_of float_of_string ["snr: 10."; "avg: 3."] PyNone = Ok (PyFloat 10%float)
  /\ contains "snr" "avg: 3. rms: 2. snr: 55.5" = true
  /\ Forall (fun l => contains "snr" l = false) ["q"]
  /\ estimate_snr_of float_of_string
       (fun _ => Ok ["snr: 10."; "avg: 3."; "avg: 3. rms: 2. snr: 55.5"; "q"]) "spectrum.fits"
     = Ok (PyFloat 55.5%float).
Proof.
  assert (H : Forall (fun l => contains "snr" l = false) ["q"]) by (repeat constructor).
  split; [vm_compute; reflexivity |]. split; [reflexivity |]. split; [exact H |].
  destruct (estimate_snr_is_of_the_last_snr_line float_of_string
              (fun _ => Ok ["snr: 10."; "avg: 3."; "avg: 3. rms: 2. snr: 55.5"; "q"])
              "spectrum.fits" ["snr: 10."; "avg: 3."] "avg: 3. rms: 2. snr: 55.5" ["q"]
              (PyFloat 10%float) eq_refl eq_refl eq_refl H) as (w & Hw & ->).
  vm_compute in Hw. inversion Hw; subst w. vm_compute. reflexivity.
Defined.

Lemma data_sheet_needs_its_keywords_witness :
  example_sheet (example_header (Some "Gemini-North")) (example_header (Some "Gemini-South"))
    "False" "False"
  = (Ok tt,
     snd (example_sheet (example_header (Some "Gemini-North"))
            (example_header (Some "Gemini-South")) "False" "False"))
  /\ Forall (has_keyword (example_header (Some "Gemini-South")))
       ["DEC"; "HA"; "AZIMUTH"; "PA"; "OBSERVAT"].
Proof.
  split; [vm_compute; reflexivity |].
  destruct (data_sheet_needs_its_keywords float_of_string 3.25%float
              (fun x => x) (fun x => x) (fun x _ => x)
              (fun _ => Ok (PyFloat 1000%float, PyFloat 0.5%float))
              (fun path => if String.eqb path "obs"
                           then Ok (example_header (Some "Gemini-North"))
                           else Ok (example_header (Some "Gemini-South")))
              (fun _ => Ok (PyFloat 50%float))
              (PageOptions [("3", "200:800")] "False" "False")
              (Ok tt) (fun _ _ => Ok tt) (Ok tt) (fun _ => Ok tt) (fun _ => Ok tt) "obs" []
              (snd (example_sheet (example_header (Some "Gemini-North"))
                      (example_header (Some "Gemini-South")) "False" "False")))
    as (sci & tel & Hsci & Htel & _ & Hkeys).
  - vm_compute. reflexivity.
  - change (Ok (example_header (Some "Gemini-South")) = Ok tel) in Htel.
    injection Htel as <-. exact Hkeys.
Defined.

Lemma data_sheet_is_closed_only_without_other_extractions_witness :
  example_sheet (example_header (Some "Gemini-North")) (example_header (Some "Gemini-South"))
    "True" "False"
  = (Raise TypeError,
     snd (example_sheet (example_header (Some "Gemini-North"))
            (example_header (Some "Gemini-South")) "True" "False"))
  /\ closed (snd (example_sheet (example_header (Some "Gemini-North"))
                    (example_header (Some "Gemini-South")) "True" "False")) = [].
Proof.
  split; [vm_compute; reflexivity |].
  destruct (data_sheet_is_closed_only_without_other_extractions float_of_string 3.25%float
              (fun x => x) (fun x => x) (fun x _ => x)
              (fun _ => Ok (PyFloat 1000%float, PyFloat 0.5%float))
              (fun path => if String.eqb path "obs"
                           then Ok (example_header (Some "Gemini-North"))
                           else Ok (example_header (Some "Gemini-South")))
              (fun _ => Ok (PyFloat 50%float))
              (PageOptions [("3", "200:800")] "True" "False")
              (Ok tt) (fun _ _ => Ok tt) (Ok tt) (fun _ => Ok tt) (fun _ => Ok tt) "obs" []
              (Raise TypeError)
              (snd (example_sheet (example_header (Some "Gemini-North"))
                      (example_header (Some "Gemini-South")) "True" "False")))
    as [H | [H _]].
  - vm_compute. reflexivity.
  - exact H.
  - vm_compute in H. discriminate H.
Defined.

Lemma location_latitude_exceeds_90_witness :
  location (PyStr "Gemini-South") = Ok 453.61125%float
  /\ PrimFloat.ltb 90%float 453.61125%float = true.
Proof.
  split; [reflexivity |].
  exact (location_latitude_exceeds_90 (PyStr "Gemini-South") 453.61125%float eq_refl).
Defined.

End SheetExamples.
(** ** The first extraction and the peaks of [ExtractSpectra1D] *)

Section ExtractionFacts.

Import ExtractSpectra1D.

Variable nsextract_task : string -> string -> gset string -> result (gset string).
Variable lines_of : string -> list string.

Lemma nsextract_ran_app t1 t2 :
  nsextract_ran (t1 ++ t2) = nsextract_ran t1 || nsextract_ran t2.
Proof. unfold nsextract_ran. apply existsb_app. Qed.

(** X16. [extractSpectra1D] runs nsextract unless its output exists and
    [overwrite] is off: then it returns after a warning with every file as it
    was.  Otherwise nsextract is run once, on files from which an old output
    has been removed, and what it leaves or raises is the outcome. *)
Theorem extraction_runs_unless_output_is_kept inimage outPrefix overwrite s :
  extractSpectra1D nsextract_task inimage outPrefix overwrite s
  = if bool_decide (outPrefix +:+ inimage ∈ fs s) && negb overwrite
    then (Ok tt,
          State (fs s)
            (trace s ++ [Log DEBUG "%s"; Log DEBUG "%s";
                         Log WARNING
                           "Old %s exists and -overwrite not set - skipping nsextract for observations."]))
    else
      let logged :=
        (trace s ++ [Log DEBUG "%s"; Log DEBUG "%s"]
           ++ (if bool_decide (outPrefix +:+ inimage ∈ fs s)
               then [Log WARNING "Removing old %s"; Remove (outPrefix +:+ inimage)]
               else [])
           ++ [Nsextract inimage ""])%list in
      match nsextract_task inimage outPrefix (fs s ∖ {[outPrefix +:+ inimage]}) with
      | Ok files => (Ok tt, State files logged)
      | Raise e => (Raise e, State (fs s ∖ {[outPrefix +:+ inimage]}) logged)
      end.
Proof.
  unfold extractSpectra1D, run_nsextract, Py.bind, logger, emit, path_exists, os_remove,
    Py.modify, Py.get, Py.ret, Py.lift.
  cbn -[String.append].
  destruct (bool_decide (outPrefix +:+ inimage ∈ fs s)) eqn:Hthere.
  - destruct overwrite; cbn -[String.append].
    + rewrite Hthere. cbn -[String.append].
      replace (fs s ∖ {[outPrefix +:+ inimage]} ∖ {[outPrefix +:+ inimage]})
        with (fs s ∖ {[outPrefix +:+ inimage]}) by (symmetry; apply difference_twice_L).
      destruct (nsextract_task inimage outPrefix (fs s ∖ {[outPrefix +:+ inimage]}));
        rewrite <- !app_assoc; reflexivity.
    + rewrite <- !app_assoc. reflexivity.
  - cbn -[String.append].
    apply bool_decide_eq_false in Hthere.
    replace (fs s ∖ {[outPrefix +:+ inimage]}) with (fs s)
      by (symmetry; apply difference_disjoint_L, disjoint_singleton_r, Hthere).
    destruct (nsextract_task inimage outPrefix (fs s));
      rewrite <- !app_assoc; reflexivity.
Qed.

Lemma peak_of_line_entry peaks line s peaks' s' :
  peak_of_line peaks line s = (Ok peaks', s') -> peaks' = (peaks ++ [peak_entry line])%list.
Proof.
  unfold peak_of_line, peak_entry. destruct (contains "center" line); intros H.
  - apply bind_inv in H as [(peak & s1 & H1 & H) | (e & _ & H)]; [| discriminate].
    apply lift_inv in H1 as [H1 _]. unfold nth_item in H1.
    destruct (words line !! 1%nat) as [w |]; [| discriminate].
    inversion H1; subst peak. apply ret_inv in H as [H _]. inversion H. reflexivity.
  - apply bind_inv in H as [(? & s1 & _ & H) | (e & _ & H)]; [| discriminate].
    apply ret_inv in H as [H _]. inversion H. reflexivity.
Qed.

Lemma peaks_of_lines lines : forall peaks s peaks' s',
  fold_m peak_of_line lines peaks s = (Ok peaks', s') ->
  peaks' = (peaks ++ map peak_entry lines)%list.
Proof.
  induction lines as [| line lines IH]; intros peaks s peaks' s' H; simpl in H.
  - apply ret_inv in H as [H _]. inversion H. rewrite app_nil_r. reflexivity.
  - apply bind_inv in H as [(p1 & s1 & H1 & H) | (e & _ & H)]; [| discriminate].
    apply peak_of_line_entry in H1 as ->. apply IH in H as ->.
    rewrite <- app_assoc. reflexivity.
Qed.

Lemma peaks_of_files databasepath combinedimage indices : forall peaks s peaks' s',
  fold_m (fun peaks i =>
            Py.bind (open_r (aperture_file databasepath combinedimage i)) (fun _ =>
            fold_m peak_of_line (lines_of (aperture_file databasepath combinedimage i)) peaks))
    indices peaks s = (Ok peaks', s') ->
  peaks' = (peaks ++ flat_map (fun i => map peak_entry
                                          (lines_of (aperture_file databasepath combinedimage i)))
                       indices)%list.
Proof.
  induction indices as [| i indices IH]; intros peaks s peaks' s' H; simpl in H.
  - apply ret_inv in H as [H _]. inversion H. rewrite app_nil_r. reflexivity.
  - apply bind_inv in H as [(p1 & s1 & H1 & H) | (e & _ & H)]; [| discriminate].
    apply bind_inv in H1 as [(? & s2 & _ & H1) | (e & _ & H1)]; [| discriminate].
    apply peaks_of_lines in H1 as ->. apply IH in H as ->.
    simpl. rewrite <- app_assoc. reflexivity.
Qed.

(** X17. When [peaksFind] returns, its list has one entry for every line of
    every aperture file it read, in order: the second word of a line that
    contains [center], and the text [Peak not found] for every other line.  So
    the list is as long as the files together, not as the number of
    extensions, unless each file is a single line. *)
Theorem peaks_find_appends_an_entry_per_line databasepath n combinedimage s peaks s' :
  peaksFind lines_of databasepath n combinedimage s = (Ok peaks, s') ->
  peaks = flat_map (fun i => map peak_entry
                               (lines_of (aperture_file databasepath combinedimage i)))
            (seq 0 n)
  /\ length peaks
     = length (flat_map (fun i => lines_of (aperture_file databasepath combinedimage i))
                 (seq 0 n)).
Proof.
  unfold peaksFind. intros H. apply peaks_of_files in H. simpl in H. subst peaks.
  split; [reflexivity |].
  induction (seq 0 n) as [| i indices IH]; simpl; [reflexivity |].
  rewrite !length_app, length_map, IH. reflexivity.
Qed.

End ExtractionFacts.

Section ExtractionExamples.

Import ExtractSpectra1D.

Lemma peaks_find_appends_an_entry_per_line_witness :
  peaksFind (fun _ => ["begin aperture src_comb_SCI_1_ 1 40.3 512.";
                       "  center 40.3 512."; "  low -5. -511."])
    "database" 1 "src_comb" (State {[ "database/apsrc_comb_SCI_1_" ]} [])
  = (Ok ["Peak not found"; "40.3"; "Peak not found"],
     State {[ "database/apsrc_comb_SCI_1_" ]}
       [Log ERROR "Peak not found"; Log ERROR "Peak not found"])
  /\ length ["Peak not found"; "40.3"; "Peak not found"] = 3%nat.
Proof.
  assert (H : peaksFind (fun _ => ["begin aperture src_comb_SCI_1_ 1 40.3 512.";
                                   "  center 40.3 512."; "  low -5. -511."])
                "database" 1 "src_comb" (State {[ "database/apsrc_comb_SCI_1_" ]} [])
              = (Ok ["Peak not found"; "40.3"; "Peak not found"],
                 State {[ "database/apsrc_comb_SCI_1_" ]}
                   [Log ERROR "Peak not found"; Log ERROR "Peak not found"]))
    by (vm_compute; reflexivity).
  split; [exact H |].
  exact (proj2 (peaks_find_appends_an_entry_per_line _ _ _ _ _ _ _ H)).
Defined.

End ExtractionExamples.

(** ** [nofits], as the modules define it *)

Section NofitsFacts.

Lemma string_app_nil_r s : s +:+ "" = s.
Proof.
  induction s as [| c s IH]; [reflexivity |].
  change (String c (s +:+ "") = String c s). rewrite IH. reflexivity.
Qed.

Lemma remove_fits_without s : contains ".fits" s = false -> remove_fits 0 s = s.
Proof.
  induction s as [| c s IH]; intros H; [reflexivity |].
  cbn [contains] in H. apply orb_false_elim in H as [Hp Hc].
  cbn [remove_fits]. rewrite Hp, (IH Hc). reflexivity.
Qed.

(** A text without a point that is no prefix of [s] is no prefix of [s]
    followed by a point either. *)
Lemma prefix_before_point p : forall s t,
  has_char "." p = false -> String.prefix p s = false ->
  String.prefix p (s +:+ String "." t) = false.
Proof.
  induction p as [| a p IH]; intros s t Hdot Hp; [destruct s; discriminate Hp |].
  cbn [has_char] in Hdot. apply orb_false_elim in Hdot as [Ha Hdot].
  destruct s as [| c s].
  - change ("" +:+ String "." t) with (String "."%char t). cbn [String.prefix].
    destruct (ascii_dec a "."%char) as [-> |]; [discriminate | reflexivity].
  - change (String c s +:+ String "." t) with (String c (s +:+ String "." t)).
    cbn [String.prefix] in *.
    destruct (ascii_dec a c); [| reflexivity]. apply IH; assumption.
Qed.

Lemma remove_fits_extension rest :
  contains ".fits" rest = false ->
  forall s, contains ".fits" s = false ->
            remove_fits 0 (s +:+ ".fits" +:+ rest) = s +:+ rest.
Proof.
  intros Hrest. induction s as [| c s IH]; intros H.
  - change (remove_fits 0 (String "." (String "f" (String "i" (String "t" (String "s" rest)))))
            = rest).
    cbn [remove_fits].
    replace (String.prefix ".fits"
               (String "." (String "f" (String "i" (String "t" (String "s" rest))))))
      with true by (destruct rest; reflexivity).
    apply remove_fits_without, Hrest.
  - cbn [contains] in H. apply orb_false_elim in H as [Hp Hc].
    change (String c s +:+ ".fits" +:+ rest) with (String c (s +:+ ".fits" +:+ rest)).
    change (String c s +:+ rest) with (String c (s +:+ rest)).
    cbn [remove_fits].
    assert (Hq : String.prefix ".fits" (String c (s +:+ ".fits" +:+ rest)) = false).
    { cbn [String.prefix] in *. destruct (ascii_dec "."%char c); [| reflexivity].
      apply (prefix_before_point "fits" s ("fits" +:+ rest)); [reflexivity | exact Hp]. }
    rewrite Hq, (IH Hc). reflexivity.
Qed.

(** X28. [nofits] leaves a name that does not contain [.fits] as it is and
    gives it back from the name with the extension.  It takes [.fits] out
    wherever it occurs, not at the end only: what follows the extension is
    joined to the name. *)
Theorem nofits_strips_the_extension name rest :
  contains ".fits" name = false -> contains ".fits" rest = false ->
  nofits name = name
  /\ nofits (name +:+ ".fits") = name
  /\ nofits (name +:+ ".fits" +:+ rest) = name +:+ rest.
Proof.
  intros Hname Hrest. unfold nofits.
  split; [apply remove_fits_without, Hname |]. split.
  - pose proof (remove_fits_extension "" eq_refl name Hname) as H.
    rewrite !string_app_nil_r in H. exact H.
  - apply remove_fits_extension; assumption.
Qed.

End NofitsFacts.

Section NofitsExamples.

Lemma nofits_strips_the_extension_witness :
  nofits "src_comb" = "src_comb"
  /\ nofits ("src_comb" +:+ ".fits") = "src_comb"
  /\ nofits ("src_comb" +:+ ".fits" +:+ "[SCI,1]") = "src_comb" +:+ "[SCI,1]".
Proof.
  apply nofits_strips_the_extension; vm_compute; reflexivity.
Defined.

End NofitsExamples.
(** ** The step functions of [BaselineCalibration] *)

Section StepFacts.

Import BaselineCalibration.

Variable matches : string -> string -> bool.
Variable iraf : string -> list argument -> gset string -> result (gset string).

Lemma tasks_app l1 l2 : tasks (l1 ++ l2) = (tasks l1 ++ tasks l2)%list.
Proof. unfold tasks. apply omap_app. Qed.

Lemma removals_app l1 l2 : removals (l1 ++ l2) = (removals l1 ++ removals l2)%list.
Proof. unfold removals. apply omap_app. Qed.

Lemma work_eta s : Work (files s) (did s) = s.
Proof. destruct s. reflexivity. Qed.

(** A computation only adds to the record of actions, all of them in [P]. *)
Definition does (P : action -> Prop) {A} (m : M work A) : Prop :=
  forall s r s', m s = (r, s') ->
    exists acts, did s' = (did s ++ acts)%list /\ Forall P acts.

Lemma does_nothing P {A} (m : M work A) :
  (forall s r s', m s = (r, s') -> s' = s) -> does P m.
Proof.
  intros Hm s r s' H. apply Hm in H as ->. exists [].
  rewrite app_nil_r. split; [reflexivity | constructor].
Qed.

Lemma does_ret P {A} (a : A) : does P (Py.ret a).
Proof. apply does_nothing. intros s r s' H. apply ret_inv in H as [_ ->]. reflexivity. Qed.

Lemma does_raise P {A} e : does P (@Py.raise work A e).
Proof. apply does_nothing. intros s r s' H. apply raise_inv in H as [_ ->]. reflexivity. Qed.

Lemma does_lift P {A} (x : result A) : does P (@Py.lift work A x).
Proof. apply does_nothing. intros s r s' H. apply lift_inv in H as [_ ->]. reflexivity. Qed.

Lemma does_get P : does P (@Py.get work).
Proof. apply does_nothing. intros s r s' H. unfold Py.get in H. inversion H. reflexivity. Qed.

Lemma does_bind P {A B} (m : M work A) (k : A -> M work B) :
  does P m -> (forall a, does P (k a)) -> does P (Py.bind m k).
Proof.
  intros Hm Hk s r s' H.
  apply bind_inv in H as [(a & s1 & H1 & H2) | (e & H1 & _)].
  - apply Hm in H1 as (acts1 & E1 & F1). apply Hk in H2 as (acts2 & E2 & F2).
    exists (acts1 ++ acts2)%list. split.
    + rewrite E2, E1, app_assoc. reflexivity.
    + apply Forall_app. split; assumption.
  - apply Hm in H1. exact H1.
Qed.

Lemma does_note (P : action -> Prop) a : P a -> does P (note a).
Proof.
  intros Ha s r s' H. unfold note, Py.modify in H. inversion H; subst.
  exists [a]. split; [reflexivity | repeat constructor; exact Ha].
Qed.

Lemma does_file_exists P p : does P (file_exists p).
Proof.
  unfold file_exists. apply does_bind; [apply does_get | intros; apply does_ret].
Qed.

Lemma does_glob P pattern : does P (glob matches pattern).
Proof. unfold glob. apply does_bind; [apply does_get | intros; apply does_ret]. Qed.

Lemma does_remove_file (P : action -> Prop) p : P (Removed p) -> does P (remove_file p).
Proof.
  intros HP. unfold remove_file. apply does_bind; [apply does_get | intros st].
  destruct (bool_decide (p ∈ files st)); [| apply does_raise].
  intros s r s' H. unfold Py.modify in H. inversion H; subst.
  exists [Removed p]. split; [reflexivity | repeat constructor; exact HP].
Qed.

Lemma does_run_task (P : action -> Prop) task arguments :
  P (Iraf task arguments) -> does P (run_task iraf task arguments).
Proof.
  intros HP. unfold run_task.
  apply does_bind; [apply does_note; exact HP | intros _].
  apply does_bind; [apply does_get | intros st].
  apply does_bind; [apply does_lift | intros after].
  intros s r s' H. unfold Py.modify in H. inversion H; subst.
  exists []. simpl. rewrite app_nil_r. split; [reflexivity | constructor].
Qed.

Ltac does :=
  repeat first
    [ apply does_ret | apply does_raise | apply does_lift | apply does_get
    | apply does_file_exists | apply does_glob
    | apply does_note; try exact I; try discriminate
    | apply does_remove_file; try exact I; try discriminate
    | apply does_run_task; try exact I; try discriminate
    | apply does_bind; [| intros ?]
    | match goal with
      | |- does _ (if ?c then _ else _) => destruct c
      end ].

Definition not_removed (a : action) : Prop :=
  match a with Removed _ => False | _ => True end.

Definition not_a_task (a : action) : Prop :=
  match a with Iraf _ _ => False | _ => True end.

Lemma removals_not_removed acts : Forall not_removed acts -> removals acts = [].
Proof.
  induction 1 as [| a acts Ha _ IH]; [reflexivity |].
  destruct a; simpl in *; try contradiction; exact IH.
Qed.

Lemma tasks_not_a_task acts : Forall not_a_task acts -> tasks acts = [].
Proof.
  induction 1 as [| a acts Ha _ IH]; [reflexivity |].
  destruct a; simpl in *; try contradiction; exact IH.
Qed.

Lemma remove_file_there f s :
  f ∈ files s ->
  remove_file f s = (Ok tt, Work (files s ∖ {[f]}) (did s ++ [Removed f])%list).
Proof.
  intros Hf. unfold remove_file, Py.bind, Py.get.
  rewrite bool_decide_eq_true_2 by exact Hf. reflexivity.
Qed.

Lemma remove_file_gone f s : f ∉ files s -> remove_file f s = (Raise (OSError f), s).
Proof.
  intros Hf. unfold remove_file, Py.bind, Py.get.
  rewrite bool_decide_eq_false_2 by exact Hf. reflexivity.
Qed.

(** [os.remove] over a list: it returns when the files are there and listed
    once each, and then they are gone; else it raises [OSError]. *)
Lemma remove_all l : forall s,
  NoDup l -> (forall f, f ∈ l -> f ∈ files s) ->
  for_each l remove_file s
  = (Ok tt, Work (files s ∖ list_to_set l) (did s ++ map Removed l)%list).
Proof.
  induction l as [| f l IH]; intros s Hnd Hin; simpl.
  - rewrite app_nil_r, difference_empty_L, work_eta. reflexivity.
  - apply NoDup_cons in Hnd as [Hf Hnd].
    unfold Py.bind at 1. rewrite remove_file_there by (apply Hin; left).
    rewrite IH; [| exact Hnd |].
    + simpl. rewrite <- app_assoc. simpl. f_equal. f_equal.
      apply difference_difference_l_L.
    + intros g Hg. simpl. apply elem_of_difference. split.
      * apply Hin. right. exact Hg.
      * intros Hgf. apply elem_of_singleton in Hgf. subst g. contradiction.
Qed.

Lemma remove_returns l : forall s s',
  for_each l remove_file s = (Ok tt, s') ->
  NoDup l /\ (forall f, f ∈ l -> f ∈ files s).
Proof.
  induction l as [| f l IH]; intros s s' H; simpl in H.
  - split; [constructor | intros f Hf; inversion Hf].
  - apply bind_inv in H as [(? & s1 & H1 & H) | (e & _ & H)]; [| discriminate].
    destruct (decide (f ∈ files s)) as [Hf | Hf].
    2: { rewrite remove_file_gone in H1 by exact Hf. discriminate. }
    rewrite remove_file_there in H1 by exact Hf. inversion H1; subst s1. clear H1.
    apply IH in H as [Hnd Hin]. simpl in Hin. split.
    + apply NoDup_cons. split; [| exact Hnd]. intros Hfl. apply Hin in Hfl.
      apply elem_of_difference in Hfl as [_ Hfl]. apply Hfl, elem_of_singleton. reflexivity.
    + intros g Hg. apply elem_of_cons in Hg as [-> | Hg]; [exact Hf |].
      apply Hin in Hg. apply elem_of_difference in Hg as [Hg _]. exact Hg.
Qed.

Lemma remove_raises l : forall s e s',
  for_each l remove_file s = (Raise e, s') -> exists f, e = OSError f.
Proof.
  induction l as [| f l IH]; intros s e s' H; simpl in H.
  - discriminate.
  - apply bind_inv in H as [(? & s1 & H1 & H) | (e' & H1 & He)].
    + eapply IH. exact H.
    + inversion He; subst e'.
      destruct (decide (f ∈ files s)) as [Hf | Hf].
      * rewrite remove_file_there in H1 by exact Hf. discriminate.
      * rewrite remove_file_gone in H1 by exact Hf. inversion H1. exists f. reflexivity.
Qed.

Lemma does_remove_all P l : (forall f, P (Removed f)) -> does P (for_each l remove_file).
Proof.
  intros HP. induction l as [| f l IH]; simpl; [apply does_ret |].
  apply does_bind; [apply does_remove_file, HP | intros _; exact IH].
Qed.

Lemma does_prepare_tasks (P : action -> Prop) QH IR arcs pin inter pp rp bpm :
  (forall task arguments, P (Iraf task arguments)) ->
  does P (prepare_tasks iraf QH IR arcs pin inter pp rp bpm).
Proof.
  intros HP. unfold prepare_tasks.
  apply does_bind; [apply does_run_task, HP | intros _; apply does_run_task, HP].
Qed.

(** What [glob] finds are the files of the directory that match. *)
Lemma glob_files pattern s f :
  f ∈ List.filter (matches pattern) (elements (files s))
  <-> f ∈ files s /\ matches pattern f = true.
Proof.
  rewrite list_elem_of_In, filter_In, <- list_elem_of_In, elem_of_elements. reflexivity.
Qed.

Definition is_warning (a : action) : Prop :=
  match a with Warn _ => True | _ => False end.

Lemma warnings_only acts :
  Forall is_warning acts -> tasks acts = [] /\ removals acts = [].
Proof.
  induction 1 as [| a acts Ha _ IH]; [split; reflexivity |].
  destruct a; simpl in *; try contradiction; exact IH.
Qed.

Lemma prepare_globs QH IR arcs pin inter pp rp bpm overwrite s :
  prepareCalibrations matches iraf QH IR arcs pin inter pp rp bpm overwrite s
  = (if (0 <? length (oldfiles matches pp rp s))%nat then
       if overwrite then
         note (Warn "Removing old files: %sN*.fits and %s%sN*.fits files") ;;;
         for_each (oldfiles matches pp rp s) remove_file ;;;
         prepare_tasks iraf QH IR arcs pin inter pp rp bpm
       else
         note (Warn "Output exists and -overwrite not set.") ;;;
         note (Warn "Skipping nsprepare and nsreduce for all calibration frames.\n")
     else prepare_tasks iraf QH IR arcs pin inter pp rp bpm) s.
Proof. reflexivity. Qed.

Lemma oldfiles_none pp rp s :
  (0 <? length (oldfiles matches pp rp s))%nat = false <-> oldfiles matches pp rp s = [].
Proof.
  destruct (oldfiles matches pp rp s); simpl; split; intros H;
    try reflexivity; discriminate.
Qed.

(** X18. Without [overwrite], [prepareCalibrations] removes no file.  When a
    prepared or a reduced frame of an earlier run is found it returns after
    two warnings, with every file as it was and no task run; when none is
    found, it is nsprepare and nsreduce on the directory as it is. *)
Theorem prepare_without_overwrite_keeps_old_frames
    QH IR arcs pin inter pp rp bpm s r s' :
  prepareCalibrations matches iraf QH IR arcs pin inter pp rp bpm false s = (r, s') ->
  removals (did s') = removals (did s)
  /\ (oldfiles matches pp rp s <> [] ->
      r = Ok tt /\ files s' = files s /\ tasks (did s') = tasks (did s))
  /\ (oldfiles matches pp rp s = [] ->
      prepare_tasks iraf QH IR arcs pin inter pp rp bpm s = (r, s')).
Proof.
  rewrite prepare_globs. intros H. split; [| split].
  - assert (Hacts : exists acts, did s' = (did s ++ acts)%list /\ Forall not_removed acts).
    { destruct (0 <? length (oldfiles matches pp rp s))%nat.
      - assert (Hd : does not_removed
                       (note (Warn "Output exists and -overwrite not set.") ;;;
                        note (Warn "Skipping nsprepare and nsreduce for all calibration frames.\n")))
          by does.
        exact (Hd _ _ _ H).
      - eapply does_prepare_tasks; [| exact H]. intros; exact I. }
    destruct Hacts as (acts & -> & Hacts).
    rewrite removals_app, (removals_not_removed _ Hacts), app_nil_r. reflexivity.
  - intros Hold. destruct (0 <? length (oldfiles matches pp rp s))%nat eqn:Hlen.
    2: { apply oldfiles_none in Hlen. contradiction. }
    unfold Py.bind, note, Py.modify in H. inversion H; subst. simpl.
    split; [reflexivity |]. split; [reflexivity |].
    rewrite <- app_assoc, tasks_app. simpl. rewrite app_nil_r. reflexivity.
  - intros Hold. apply oldfiles_none in Hold. rewrite Hold in H. exact H.
Qed.

(** X19. With [overwrite], when no frame is found by both patterns, every
    frame that one of them finds is removed, and nsprepare and nsreduce are
    run on what is left, where neither pattern finds a file. *)
Theorem prepare_with_overwrite_starts_clean QH IR arcs pin inter pp rp bpm s :
  NoDup (oldfiles matches pp rp s) ->
  prepareCalibrations matches iraf QH IR arcs pin inter pp rp bpm true s
  = prepare_tasks iraf QH IR arcs pin inter pp rp bpm
      (Work (files s ∖ list_to_set (oldfiles matches pp rp s))
         (did s ++ (if (0 <? length (oldfiles matches pp rp s))%nat
                    then Warn "Removing old files: %sN*.fits and %s%sN*.fits files"
                         :: map Removed (oldfiles matches pp rp s)
                    else []))%list)
  /\ forall f, f ∈ files s ∖ list_to_set (oldfiles matches pp rp s) ->
       matches (pp +:+ "N*.fits") f = false /\ matches (rp +:+ pp +:+ "N*.fits") f = false.
Proof.
  intros Hnd. split.
  - rewrite prepare_globs.
    destruct (0 <? length (oldfiles matches pp rp s))%nat eqn:Hlen.
    + unfold Py.bind at 1. unfold note at 1, Py.modify at 1.
      unfold Py.bind at 1. rewrite remove_all.
      * simpl. rewrite <- app_assoc. reflexivity.
      * exact Hnd.
      * intros f Hf. simpl. unfold oldfiles in Hf.
        apply elem_of_app in Hf as [Hf | Hf]; apply glob_files in Hf as [Hf _]; exact Hf.
    + apply oldfiles_none in Hlen. rewrite Hlen. simpl.
      rewrite app_nil_r, difference_empty_L, work_eta. reflexivity.
  - intros f Hf. apply elem_of_difference in Hf as [Hf Hold].
    rewrite elem_of_list_to_set in Hold. unfold oldfiles in Hold.
    rewrite elem_of_app, !glob_files in Hold.
    split; apply not_true_is_false; intros Hm; apply Hold; [left | right];
      (split; [exact Hf | exact Hm]).
Qed.

(** X20. With [overwrite], when some frame is found by both patterns, as every
    old frame is when [reducedPrefix] is empty, the list of old files names
    it twice: the removal raises [OSError] and no task is run. *)
Theorem prepare_with_overwrite_fails_on_a_frame_found_twice
    QH IR arcs pin inter pp rp bpm s r s' :
  ~ NoDup (oldfiles matches pp rp s) ->
  prepareCalibrations matches iraf QH IR arcs pin inter pp rp bpm true s = (r, s') ->
  (exists f, r = Raise (OSError f)) /\ tasks (did s') = tasks (did s).
Proof.
  intros Hdup. rewrite prepare_globs.
  destruct (0 <? length (oldfiles matches pp rp s))%nat eqn:Hlen.
  2: { apply oldfiles_none in Hlen. rewrite Hlen in Hdup.
       exfalso. apply Hdup. constructor. }
  intros H.
  apply bind_inv in H as [([] & s1 & H1 & H) | (e & H1 & _)].
  2: { unfold note, Py.modify in H1. discriminate. }
  unfold note, Py.modify in H1. inversion H1; subst s1. clear H1.
  apply bind_inv in H as [([] & s2 & H2 & H) | (e & H2 & ->)].
  - apply remove_returns in H2 as [Hnd _]. contradiction.
  - split; [apply remove_raises in H2 as [f ->]; exists f; reflexivity |].
    assert (Hdoes : does not_a_task (for_each (oldfiles matches pp rp s) remove_file))
      by (apply does_remove_all; intros; exact I).
    apply Hdoes in H2 as (acts & -> & Hacts). simpl.
    rewrite !tasks_app, (tasks_not_a_task _ Hacts). simpl. rewrite !app_nil_r. reflexivity.
Qed.

Lemma old_output_kept name s :
  name ∈ files s ->
  old_output name false s
  = (Ok true,
     Work (files s)
       (did s ++ [Warn "Old %s exists and -overwrite not set - using existing output for further ";
                  Warn "reduction."])%list).
Proof.
  intros Hin. unfold old_output, file_exists, Py.bind, Py.get, Py.ret.
  rewrite bool_decide_eq_true_2 by exact Hin.
  unfold note, Py.modify. simpl. rewrite <- app_assoc. reflexivity.
Qed.

Lemma old_output_absent name overwrite s :
  name ∉ files s -> old_output name overwrite s = (Ok false, s).
Proof.
  intros Hout. unfold old_output, file_exists, Py.bind, Py.get, Py.ret.
  rewrite bool_decide_eq_false_2 by exact Hout. reflexivity.
Qed.

(** Without [overwrite] an old output is flagged and nothing else. *)
Lemma old_output_flag name s :
  exists warns,
    old_output name false s
    = (Ok (bool_decide (name ∈ files s)), Work (files s) (did s ++ warns)%list)
    /\ Forall is_warning warns.
Proof.
  destruct (decide (name ∈ files s)) as [Hin | Hout].
  - eexists. rewrite old_output_kept, bool_decide_eq_true_2 by exact Hin.
    split; [reflexivity | repeat constructor].
  - exists []. rewrite old_output_absent, bool_decide_eq_false_2 by exact Hout.
    rewrite app_nil_r, work_eta. split; [reflexivity | constructor].
Qed.

Lemma run_task_result task arguments s :
  run_task iraf task arguments s
  = match iraf task arguments (files s) with
    | Ok after => (Ok tt, Work after (did s ++ [Iraf task arguments])%list)
    | Raise e => (Raise e, Work (files s) (did s ++ [Iraf task arguments])%list)
    end.
Proof.
  unfold run_task, note, Py.bind, Py.modify, Py.get, Py.lift. simpl.
  destruct (iraf task arguments (files s)); reflexivity.
Qed.

(** The flat of a lamp without [overwrite]: after warnings only, nothing more
    when the flat and its mask are both there; else nsflat on the directory
    as it is. *)
Lemma lamp_flat_kept_or_made lampson flat bpm thr_fup inter order scale s :
  exists warns,
    Forall is_warning warns
    /\ lamp_flat iraf lampson flat bpm thr_fup inter order scale false s
       = if bool_decide (flat ∈ files s) && bool_decide (bpm ∈ files s)
         then (Ok tt, Work (files s) (did s ++ warns)%list)
         else run_task iraf "nsflat"
                [Name lampson; Name flat; Name bpm; Name thr_fup; Flag inter;
                 Name order; Name scale]
                (Work (files s) (did s ++ warns)%list).
Proof.
  destruct (old_output_flag flat s) as (w1 & E1 & F1).
  destruct (old_output_flag bpm (Work (files s) (did s ++ w1)%list)) as (w2 & E2 & F2).
  simpl in E2. exists (w1 ++ w2)%list. split; [apply Forall_app; split; assumption |].
  unfold lamp_flat. unfold Py.bind at 1. rewrite E1.
  unfold Py.bind at 1. rewrite E2. rewrite <- app_assoc.
  destruct (bool_decide (flat ∈ files s) && bool_decide (bpm ∈ files s)); reflexivity.
Qed.

Definition flat_action (a : action) : Prop :=
  match a with
  | Warn _ => True
  | Iraf task _ => task = "nsflat"
  | Removed _ => False
  end.

Lemma flat_actions acts :
  Forall flat_action acts ->
  removals acts = [] /\ Forall (fun task => task = "nsflat") (tasks acts).
Proof.
  induction 1 as [| a acts Ha _ [IH1 IH2]]; [split; [reflexivity | constructor] |].
  destruct a; simpl in *; try contradiction; split; try assumption.
  constructor; assumption.
Qed.

Lemma warnings_flat acts : Forall is_warning acts -> Forall flat_action acts.
Proof.
  intros H. eapply Forall_impl; [exact H |].
  intros [] Ha; simpl in *; try contradiction; exact I.
Qed.

(** The flat of a lamp, without [overwrite]: what is done, and what is left
    of the files. *)
Lemma lamp_flat_run lampson flat bpm thr_fup inter order scale s r s' :
  lamp_flat iraf lampson flat bpm thr_fup inter order scale false s = (r, s') ->
  exists acts,
    did s' = (did s ++ acts)%list /\ Forall flat_action acts
    /\ (flat ∈ files s -> bpm ∈ files s -> r = Ok tt /\ files s' = files s /\ tasks acts = [])
    /\ (flat ∉ files s \/ bpm ∉ files s -> exists rest, tasks acts = "nsflat" :: rest)
    /\ (files s' = files s
        \/ exists arguments, iraf "nsflat" arguments (files s) = Ok (files s')).
Proof.
  destruct (lamp_flat_kept_or_made lampson flat bpm thr_fup inter order scale s)
    as (warns & Hwarns & ->).
  destruct (decide (flat ∈ files s)) as [Hflat | Hflat];
    destruct (decide (bpm ∈ files s)) as [Hbpm | Hbpm];
    rewrite ?(bool_decide_eq_true_2 _ Hflat), ?(bool_decide_eq_false_2 _ Hflat),
      ?(bool_decide_eq_true_2 _ Hbpm), ?(bool_decide_eq_false_2 _ Hbpm); simpl andb; cbv iota.
  1: { intros H. inversion H; subst. exists warns. simpl.
       split; [reflexivity |]. split; [apply warnings_flat, Hwarns |].
       split; [intros _ _; repeat split; apply (warnings_only _ Hwarns) |].
       split; [intros [? | ?]; contradiction | left; reflexivity]. }
  all: rewrite run_task_result; simpl files; simpl did;
    destruct (iraf "nsflat" _ (files s)) as [after | e] eqn:Hrun; intros H; inversion H; subst;
    simpl; eexists; (split; [rewrite <- app_assoc; reflexivity |]);
    (split; [apply Forall_app; split;
             [apply warnings_flat, Hwarns | repeat constructor] |]);
    (split; [intros ? ?; contradiction |]);
    (split; [intros _; rewrite tasks_app, (proj1 (warnings_only _ Hwarns));
             eexists; reflexivity |]);
    first [left; reflexivity | right; eexists; exact Hrun].
Qed.

Section Flat.

Variables preparedPrefix reducedPrefix QHflatsfilename IRflatsfilename : string.
Variables QHflat QHflat_bpm IRflat IRflat_bpm masterflat : string.
Variable nsflatInter : bool.

(** X21. Without [overwrite], [makeFlat] removes no file.  When the two flats,
    their masks and the master flat are all there, it returns with every file
    as it was and no task run; when one of the five is not, it runs a
    task. *)
Theorem make_flat_without_overwrite_reuses_a_complete_output s r s' :
  makeFlat iraf preparedPrefix reducedPrefix QHflatsfilename IRflatsfilename
    QHflat QHflat_bpm IRflat IRflat_bpm masterflat nsflatInter false s = (r, s') ->
  removals (did s') = removals (did s)
  /\ ((forall f, In f (flat_outputs QHflat QHflat_bpm IRflat IRflat_bpm masterflat) ->
                 f ∈ files s) ->
      r = Ok tt /\ files s' = files s /\ tasks (did s') = tasks (did s))
  /\ ((exists f, In f (flat_outputs QHflat QHflat_bpm IRflat IRflat_bpm masterflat)
                 /\ f ∉ files s) ->
      exists task rest, tasks (did s') = (tasks (did s) ++ task :: rest)%list).
Proof.
  intros H. unfold makeFlat in H.
  apply bind_inv in H as [([] & s1 & H1 & H) | (e & H1 & ->)].
  2: { apply lamp_flat_run in H1 as (a1 & E1 & F1 & Hkept & Hmade & _).
       split; [rewrite E1, removals_app, (proj1 (flat_actions _ F1)), app_nil_r; reflexivity |].
       split.
       - intros Hall. destruct Hkept as [Hr _]; [apply Hall; simpl; auto 8 ..|]. discriminate.
       - intros _. destruct (decide (QHflat ∈ files s)) as [Hq |];
           [destruct (decide (QHflat_bpm ∈ files s)) as [Hb |] |].
         + destruct (Hkept Hq Hb) as [Hr _]. discriminate.
         + destruct Hmade as [rest Hrest]; [right; assumption |].
           exists "nsflat", rest. rewrite E1, tasks_app, Hrest. reflexivity.
         + destruct Hmade as [rest Hrest]; [left; assumption |].
           exists "nsflat", rest. rewrite E1, tasks_app, Hrest. reflexivity. }
  apply lamp_flat_run in H1 as (a1 & E1 & F1 & Hkept1 & Hmade1 & _).
  apply bind_inv in H as [([] & s2 & H2 & H) | (e & H2 & ->)].
  2: { apply lamp_flat_run in H2 as (a2 & E2 & F2 & Hkept2 & Hmade2 & _).
       split; [rewrite E2, E1, !removals_app, (proj1 (flat_actions _ F1)),
                 (proj1 (flat_actions _ F2)), !app_nil_r; reflexivity |].
       split.
       - intros Hall.
         destruct Hkept1 as (_ & Hf1 & _); [apply Hall; simpl; auto 8 ..|].
         destruct Hkept2 as [Hr _]; [rewrite Hf1; apply Hall; simpl; auto 8 ..|].
         discriminate.
       - intros _. destruct (decide (QHflat ∈ files s)) as [Hq |];
           [destruct (decide (QHflat_bpm ∈ files s)) as [Hb |] |].
         + destruct (Hkept1 Hq Hb) as (_ & Hf1 & Ht1).
           destruct (decide (IRflat ∈ files s1)) as [Hi |];
             [destruct (decide (IRflat_bpm ∈ files s1)) as [Hib |] |].
           * destruct (Hkept2 Hi Hib) as [Hr _]. discriminate.
           * destruct Hmade2 as [rest Hrest]; [right; assumption |].
             exists "nsflat", rest. rewrite E2, E1, !tasks_app, Ht1, Hrest, app_nil_r.
             reflexivity.
           * destruct Hmade2 as [rest Hrest]; [left; assumption |].
             exists "nsflat", rest. rewrite E2, E1, !tasks_app, Ht1, Hrest, app_nil_r.
             reflexivity.
         + destruct Hmade1 as [rest Hrest]; [right; assumption |].
           exists "nsflat", (rest ++ tasks a2)%list.
           rewrite E2, E1, !tasks_app, Hrest, <- app_assoc. reflexivity.
         + destruct Hmade1 as [rest Hrest]; [left; assumption |].
           exists "nsflat", (rest ++ tasks a2)%list.
           rewrite E2, E1, !tasks_app, Hrest, <- app_assoc. reflexivity. }
  apply lamp_flat_run in H2 as (a2 & E2 & F2 & Hkept2 & Hmade2 & _).
  assert (H3 : exists a3,
             did s' = (did s2 ++ a3)%list /\ removals a3 = []
             /\ (masterflat ∈ files s2 -> r = Ok tt /\ files s' = files s2 /\ tasks a3 = [])
             /\ (masterflat ∉ files s2 -> exists rest, tasks a3 = "fxcopy" :: rest)).
  { unfold file_exists in H. unfold Py.bind at 1 in H. unfold Py.bind at 1, Py.get, Py.ret in H.
    destruct (decide (masterflat ∈ files s2)) as [Hm | Hm].
    - rewrite bool_decide_eq_true_2 in H by exact Hm.
      unfold note, Py.bind, Py.modify in H. inversion H; subst. simpl.
      eexists. split; [rewrite <- app_assoc; reflexivity |].
      split; [reflexivity |].
      split; [intros _; repeat split; reflexivity | intros; contradiction].
    - rewrite bool_decide_eq_false_2 in H by exact Hm.
      unfold group_flats in H.
      apply bind_inv in H as [([] & s3 & H3 & H) | (e & H3 & ->)];
        rewrite run_task_result in H3;
        destruct (iraf "fxcopy" _ (files s2)); inversion H3; subst; clear H3.
      + rewrite run_task_result in H.
        destruct (iraf "fxinsert" _ _); inversion H; subst; simpl;
          (eexists; split; [rewrite <- app_assoc; reflexivity |]);
          (split; [reflexivity |]);
          (split; [intros; contradiction | intros _; eexists; reflexivity]).
      + simpl. eexists. split; [reflexivity |]. split; [reflexivity |].
        split; [intros; contradiction | intros _; eexists; reflexivity]. }
  destruct H3 as (a3 & E3 & R3 & Hkept3 & Hmade3).
  split; [rewrite E3, E2, E1, !removals_app, (proj1 (flat_actions _ F1)),
            (proj1 (flat_actions _ F2)), R3, !app_nil_r; reflexivity |].
  split.
  - intros Hall.
    destruct Hkept1 as (_ & Hf1 & Ht1); [apply Hall; simpl; auto 8 ..|].
    destruct Hkept2 as (_ & Hf2 & Ht2); [rewrite Hf1; apply Hall; simpl; auto 8 ..|].
    destruct Hkept3 as (Hr & Hf3 & Ht3); [rewrite Hf2, Hf1; apply Hall; simpl; auto 8 |].
    split; [exact Hr |]. split; [congruence |].
    rewrite E3, E2, E1, !tasks_app, Ht1, Ht2, Ht3, !app_nil_r. reflexivity.
  - intros (f & Hf & Hout).
    destruct (decide (QHflat ∈ files s)) as [Hq |];
      [destruct (decide (QHflat_bpm ∈ files s)) as [Hb |] |].
    2, 3: (destruct Hmade1 as [rest Hrest]; [first [left; assumption | right; assumption] |];
           exists "nsflat", (rest ++ tasks a2 ++ tasks a3)%list;
           rewrite E3, E2, E1, !tasks_app, Hrest, <- !app_assoc; reflexivity).
    destruct (Hkept1 Hq Hb) as (_ & Hf1 & Ht1).
    destruct (decide (IRflat ∈ files s1)) as [Hi |];
      [destruct (decide (IRflat_bpm ∈ files s1)) as [Hib |] |].
    2, 3: (destruct Hmade2 as [rest Hrest]; [first [left; assumption | right; assumption] |];
           exists "nsflat", (rest ++ tasks a3)%list;
           rewrite E3, E2, E1, !tasks_app, Ht1, Hrest, <- !app_assoc; reflexivity).
    destruct (Hkept2 Hi Hib) as (_ & Hf2 & Ht2).
    destruct (decide (masterflat ∈ files s2)) as [Hm | Hm].
    + exfalso. apply Hout. rewrite Hf2, Hf1 in Hm. rewrite Hf1 in Hi, Hib.
      simpl in Hf. destruct Hf as [<- | [<- | [<- | [<- | [<- | []]]]]]; assumption.
    + destruct (Hmade3 Hm) as [rest Hrest].
      exists "fxcopy", rest.
      rewrite E3, E2, E1, !tasks_app, Ht1, Ht2, Hrest, !app_nil_r. reflexivity.
Qed.

(** X22. Without [overwrite], a master flat that is there is never made
    again: as long as no task takes it away, [makeFlat] runs no task but
    nsflat, also when it has just made new flats, and the old master flat is
    left. *)
Theorem make_flat_without_overwrite_keeps_an_old_master_flat s r s' :
  (forall task arguments fs fs',
      iraf task arguments fs = Ok fs' -> masterflat ∈ fs -> masterflat ∈ fs') ->
  masterflat ∈ files s ->
  makeFlat iraf preparedPrefix reducedPrefix QHflatsfilename IRflatsfilename
    QHflat QHflat_bpm IRflat IRflat_bpm masterflat nsflatInter false s = (r, s') ->
  masterflat ∈ files s'
  /\ exists acts,
       did s' = (did s ++ acts)%list
       /\ Forall (fun task => task = "nsflat") (tasks acts).
Proof.
  intros Hkeeps Hm H. unfold makeFlat in H.
  assert (Hlamp : forall lampson flat bpm thr_fup order scale t rt t',
             masterflat ∈ files t ->
             lamp_flat iraf lampson flat bpm thr_fup nsflatInter order scale false t = (rt, t') ->
             masterflat ∈ files t'
             /\ exists acts, did t' = (did t ++ acts)%list /\ Forall flat_action acts).
  { intros lampson flat bpm thr_fup order scale t rt t' Ht Hrun.
    apply lamp_flat_run in Hrun as (acts & E & F & _ & _ & [-> | [arguments Hrun]]).
    - split; [exact Ht | exists acts; split; assumption].
    - split; [eapply Hkeeps; eassumption | exists acts; split; assumption]. }
  apply bind_inv in H as [([] & s1 & H1 & H) | (e & H1 & ->)];
    apply Hlamp in H1 as (Hm1 & a1 & E1 & F1); try exact Hm.
  2: { split; [exact Hm1 |]. exists a1. split; [exact E1 | apply flat_actions, F1]. }
  apply bind_inv in H as [([] & s2 & H2 & H) | (e & H2 & ->)];
    apply Hlamp in H2 as (Hm2 & a2 & E2 & F2); try exact Hm1.
  2: { split; [exact Hm2 |]. exists (a1 ++ a2)%list. split.
       - rewrite E2, E1, app_assoc. reflexivity.
       - apply flat_actions, Forall_app. split; assumption. }
  unfold file_exists in H. unfold Py.bind at 1 in H. unfold Py.bind at 1, Py.get, Py.ret in H.
  rewrite bool_decide_eq_true_2 in H by exact Hm2.
  unfold note, Py.bind, Py.modify in H. inversion H; subst. simpl.
  split; [exact Hm2 |]. eexists. split.
  - rewrite E2, E1, <- !app_assoc. reflexivity.
  - apply flat_actions.
    repeat (apply Forall_app; split); try assumption; repeat constructor.
Qed.

(** X23. Without [overwrite], a flat that is there without its mask is
    reported as the output to use for the reduction, and then nsflat is run
    for that lamp all the same, with the old flat still in place: when nsflat
    raises on this directory, so does [makeFlat], with every file as it
    was. *)
Theorem make_flat_runs_nsflat_over_a_flat_without_mask s e :
  QHflat ∈ files s -> QHflat_bpm ∉ files s ->
  iraf "nsflat"
    [Name (reducedPrefix +:+ preparedPrefix +:+ "//@" +:+ QHflatsfilename);
     Name QHflat; Name QHflat_bpm; Name "4.0"; Flag nsflatInter; Name "5"; Name "median"]
    (files s) = Raise e ->
  makeFlat iraf preparedPrefix reducedPrefix QHflatsfilename IRflatsfilename
    QHflat QHflat_bpm IRflat IRflat_bpm masterflat nsflatInter false s
  = (Raise e,
     Work (files s)
       (did s ++ [Warn "Old %s exists and -overwrite not set - using existing output for further ";
                  Warn "reduction.";
                  Iraf "nsflat"
                    [Name (reducedPrefix +:+ preparedPrefix +:+ "//@" +:+ QHflatsfilename);
                     Name QHflat; Name QHflat_bpm; Name "4.0"; Flag nsflatInter;
                     Name "5"; Name "median"]])%list).
Proof.
  intros Hflat Hbpm Hrun. unfold makeFlat, lamp_flat.
  unfold Py.bind at 1. unfold Py.bind at 1. rewrite old_output_kept by exact Hflat.
  unfold Py.bind at 1. rewrite old_output_absent by exact Hbpm.
  change (true && false) with false. cbv iota.
  rewrite run_task_result. simpl files. rewrite Hrun.
  simpl. rewrite <- app_assoc. reflexivity.
Qed.

End Flat.

End StepFacts.

(** ** The calibration directories of [BaselineCalibration.start] *)

Section DirectoryFacts.

Import BaselineCalibration.

Variable manualMode : bool.
Variable chdir : string -> result unit.
Variable list_file : string -> string -> option (list string).
Variable raw_header : string -> result string.
Variable prepareCalibrations : string -> string -> result unit.
Variable makeFlat : string -> result unit.
Variable makeSdistortion : string -> string -> Z -> result unit.
Variable makeWaveCal : string -> string -> result unit.

Lemma required_list_run calpath name s r s' :
  required_list list_file calpath name s = (r, s') ->
  s' = s
  /\ match list_file calpath name with
     | Some lines => r = Ok (map strip lines)
     | None => r = Raise (SystemExit "")
     end.
Proof.
  unfold required_list. destruct (list_file calpath name); intros H.
  - apply ret_inv in H as [-> ->]. split; reflexivity.
  - apply raise_inv in H as [-> ->]. split; reflexivity.
Qed.

(** What a step appends: its own entry and prompts. *)
Definition of_step (valindex : Z) (e : event) : Prop :=
  e = Enter valindex \/ is_prompt e.

Lemma appends_manual_pause_prompt (P : event -> Prop) text :
  (forall p, P (Prompt p)) -> appends P (manual_pause manualMode text).
Proof.
  intros HP. unfold manual_pause. destruct manualMode; [| apply appends_ret].
  apply appends_bind; [apply appends_raw_input, HP | intros _; apply appends_ret].
Qed.

Ltac appends_step :=
  repeat first
    [ apply appends_ret | apply appends_raise | apply appends_lift
    | apply appends_emit; left; reflexivity
    | apply appends_manual_pause_prompt; intros ?; right; exact I
    | apply appends_bind; [| intros ?]
    | match goal with
      | |- appends _ (if ?c then _ else _) => destruct c
      end ].

Lemma step_appends calpath nominal arrayid pc mf ms mw valindex :
  appends (of_step valindex)
    (step manualMode calpath nominal arrayid pc mf ms mw valindex).
Proof.
  unfold step.
  destruct (Z.eqb_spec valindex 1) as [-> |]; [appends_step |].
  destruct (Z.eqb_spec valindex 2) as [-> |]; [appends_step |].
  destruct (Z.eqb_spec valindex 3) as [-> |]; [appends_step |].
  destruct (Z.eqb_spec valindex 4) as [-> |]; [appends_step |].
  destruct (Z.eqb_spec valindex 5) as [-> |]; [appends_step |].
  apply appends_raise.
Qed.

(** Step 5 does not return while [nominal_wavelengths] is unbound. *)
Lemma step_five_unbound calpath arrayid pc mf ms mw s r s' :
  step manualMode calpath false arrayid pc mf ms mw 5 s = (r, s') ->
  exists e, r = Raise e.
Proof.
  unfold step. simpl. intros H.
  apply bind_inv in H as [(? & s1 & _ & H) | (e & _ & ->)]; [| eexists; reflexivity].
  apply bind_inv in H as [(? & s2 & _ & H) | (e & _ & ->)]; [| eexists; reflexivity].
  apply bind_inv in H as [(? & s3 & _ & H) | (e & _ & ->)]; [| eexists; reflexivity].
  apply bind_inv in H as [(? & s4 & H4 & H) | (e & _ & ->)]; [| eexists; reflexivity].
  apply raise_inv in H4 as [H4 _]. discriminate.
Qed.

(** What a run without [nominal_wavelengths] appends: step 5 is not completed,
    and to enter it is to end with an exception. *)
Definition short_of_wavelengths {A} (s : state) (r : result A) (s' : state) : Prop :=
  exists evs,
    trace s' = (trace s ++ evs)%list
    /\ ~ In (Completed 5) evs
    /\ (In (Enter 5) evs -> exists e, r = Raise e).

Lemma short_of_wavelengths_here {A} s (r : result A) : short_of_wavelengths s r s.
Proof.
  exists []. rewrite app_nil_r. split; [reflexivity |]. split; intros [].
Qed.

Lemma short_of_wavelengths_step {A B} s (r1 : result A) s1 (r : result B) s' :
  short_of_wavelengths s r1 s1 -> is_ok r1 = true ->
  short_of_wavelengths s1 r s' -> short_of_wavelengths s r s'.
Proof.
  intros (evs1 & E1 & C1 & X1) Hok (evs2 & E2 & C2 & X2).
  exists (evs1 ++ evs2)%list. split; [rewrite E2, E1, app_assoc; reflexivity |].
  split.
  - intros Hin. apply in_app_or in Hin as [Hin | Hin]; [apply C1 | apply C2]; exact Hin.
  - intros Hin. apply in_app_or in Hin as [Hin | Hin]; [| apply X2; exact Hin].
    apply X1 in Hin as [e ->]. discriminate.
Qed.

Lemma short_of_wavelengths_raise {A B} s (r1 : result A) s1 e :
  short_of_wavelengths s r1 s1 -> short_of_wavelengths s (@Raise B e) s1.
Proof.
  intros (evs1 & E1 & C1 & _). exists evs1. split; [exact E1 |].
  split; [exact C1 | intros _; exists e; reflexivity].
Qed.

Lemma short_of_wavelengths_quiet {A B} (P : event -> Prop) (m : M state A) s r s'
    (r' : result B) :
  appends P m -> (forall e, P e -> not_a_step e) -> m s = (r, s') ->
  short_of_wavelengths s r' s'.
Proof.
  intros Hm HP H. apply Hm in H as (evs & E & F). exists evs. split; [exact E |].
  assert (Hno : forall e, In e evs -> not_a_step e).
  { intros e He. apply HP. rewrite Forall_forall in F. apply F, list_elem_of_In, He. }
  split; intros Hin; apply Hno in Hin; contradiction.
Qed.

Lemma steps_without_wavelengths calpath arrayid pc mf ms mw fuel :
  forall valindex stop s r s',
    steps manualMode calpath false arrayid pc mf ms mw fuel valindex stop s = (r, s') ->
    short_of_wavelengths s r s'.
Proof.
  induction fuel as [| fuel IH]; intros valindex stop s r s' H; simpl in H;
    destruct (valindex <=? stop)%Z;
    try (apply ret_inv in H as [_ ->]; apply short_of_wavelengths_here).
  assert (Hstep : forall t rt t',
             step manualMode calpath false arrayid pc mf ms mw valindex t = (rt, t') ->
             short_of_wavelengths t rt t'
             /\ (is_ok rt = true -> valindex <> 5%Z)).
  { intros t rt t' Ht. split.
    - pose proof (step_appends _ _ _ _ _ _ _ _ _ _ _ Ht) as (evs & E & F).
      exists evs. split; [exact E |]. rewrite Forall_forall in F. split.
      + intros Hin. apply list_elem_of_In, F in Hin as [Hin | Hin];
          [discriminate | contradiction].
      + intros Hin. apply list_elem_of_In, F in Hin as [Hin | Hin]; [| contradiction].
        inversion Hin; subst valindex. eapply step_five_unbound. exact Ht.
    - intros Hok ->. apply step_five_unbound in Ht as [e ->]. discriminate. }
  apply bind_inv in H as [([] & s1 & H1 & H) | (e & H1 & ->)].
  2: { apply Hstep in H1 as [H1 _]. eapply short_of_wavelengths_raise. exact H1. }
  apply Hstep in H1 as [H1 Hv]. specialize (Hv eq_refl).
  apply bind_inv in H as [([] & s2 & H2 & H) | (e & H2 & _)].
  2: { unfold emit, Py.modify in H2. discriminate. }
  unfold emit, Py.modify in H2. inversion H2; subst s2. clear H2.
  apply IH in H.
  eapply short_of_wavelengths_step; [exact H1 | reflexivity |].
  eapply (short_of_wavelengths_step s1 (Ok tt)); [| reflexivity | exact H].
  exists [Completed valindex]. split; [reflexivity |]. split.
  - intros [Hin | []]. inversion Hin. contradiction.
  - intros [Hin | []]. discriminate.
Qed.

Lemma calibrate_without_wavelengths calpath start stop s r s' :
  binds_nominal calpath = false ->
  calibrate manualMode chdir list_file raw_header prepareCalibrations makeFlat
    makeSdistortion makeWaveCal calpath start stop false s = (r, s') ->
  short_of_wavelengths s r s'
  /\ forall stop' nominal', r = Ok (Some (stop', nominal')) -> nominal' = false.
Proof.
  intros Hbinds H. unfold calibrate in H.
  apply bind_inv in H as [(? & s1 & H1 & H) | (e & H1 & ->)];
    apply lift_inv in H1 as [_ ->];
    [| split; [apply short_of_wavelengths_here | discriminate]].
  apply bind_inv in H as [([orders bound] & s1 & H1 & H) | (e & H1 & ->)];
    apply lift_inv in H1 as [Hcfg ->];
    [| split; [apply short_of_wavelengths_here | discriminate]].
  unfold binds_nominal in Hbinds. rewrite <- Hcfg in Hbinds. subst bound.
  cbn [orb snd] in H.
  apply bind_inv in H as [(allcalslist & s1 & H1 & H) | (e & H1 & ->)];
    apply required_list_run in H1 as [-> _];
    [| split; [apply short_of_wavelengths_here | discriminate]].
  apply bind_inv in H as [(frame & s1 & H1 & H) | (e & H1 & ->)];
    apply lift_inv in H1 as [_ ->];
    [| split; [apply short_of_wavelengths_here | discriminate]].
  apply bind_inv in H as [(arrayid & s1 & H1 & H) | (e & H1 & ->)];
    apply lift_inv in H1 as [_ ->];
    [| split; [apply short_of_wavelengths_here | discriminate]].
  apply bind_inv in H as [(? & s1 & H1 & H) | (e & H1 & ->)];
    apply required_list_run in H1 as [-> _];
    [| split; [apply short_of_wavelengths_here | discriminate]].
  apply bind_inv in H as [(? & s1 & H1 & H) | (e & H1 & ->)];
    apply required_list_run in H1 as [-> _];
    [| split; [apply short_of_wavelengths_here | discriminate]].
  apply bind_inv in H as [(pinholeslist & s1 & H1 & H) | (e & H1 & ->)];
    apply required_list_run in H1 as [-> _];
    [| split; [apply short_of_wavelengths_here | discriminate]].
  apply bind_inv in H as [(? & s1 & H1 & H) | (e & H1 & ->)];
    apply lift_inv in H1 as [_ ->];
    [| split; [apply short_of_wavelengths_here | discriminate]].
  apply bind_inv in H as [(? & s1 & H1 & H) | (e & H1 & ->)];
    apply required_list_run in H1 as [-> _];
    [| split; [apply short_of_wavelengths_here | discriminate]].
  unfold Py.bind at 1, Py.get in H.
  apply bind_inv in H as [(checked & s1 & H1 & H) | (e & H1 & ->)].
  2: { split; [| discriminate].
       eapply short_of_wavelengths_quiet;
         [apply check_range_appends | intros e' He'; exact He' | exact H1]. }
  assert (Hchecked : short_of_wavelengths s (Ok checked) s1).
  { eapply short_of_wavelengths_quiet;
      [apply check_range_appends | intros e' He'; exact He' | exact H1]. }
  destruct checked as [[valindex stop'] |].
  2: { apply ret_inv in H as [-> ->]. split; [| discriminate].
       eapply short_of_wavelengths_quiet;
         [apply check_range_appends | intros e' He'; exact He' | exact H1]. }
  apply bind_inv in H as [(finished & s2 & H2 & H) | (e & H2 & ->)].
  - apply steps_without_wavelengths in H2.
    assert (Hrun : short_of_wavelengths s (Ok finished) s2)
      by (eapply short_of_wavelengths_step; [exact Hchecked | reflexivity | exact H2]).
    destruct finished as [[] |]; apply ret_inv in H as [-> ->].
    + split; [| intros ? ? Heq; inversion Heq; reflexivity].
      eapply short_of_wavelengths_step; [exact Hrun | reflexivity |].
      apply short_of_wavelengths_here.
    + split; [| discriminate].
      eapply short_of_wavelengths_step; [exact Hrun | reflexivity |].
      apply short_of_wavelengths_here.
  - apply steps_without_wavelengths in H2. split; [| discriminate].
    eapply short_of_wavelengths_step; [exact Hchecked | reflexivity |].
    eapply short_of_wavelengths_raise. exact H2.
Qed.

(** X24. The wavelength solution needs a short blue directory:
    [nominal_wavelengths] is bound by the SB_SXD branch only, so in a run in
    which no enabled directory takes that branch step 5 is never completed,
    and the run ends with an exception in the first directory that enters
    it. *)
Theorem wavelength_step_needs_a_short_blue_directory directories :
  forall start stop s r s',
    (forall calpath text,
        In (calpath, text) directories -> getboolean text = Ok true ->
        binds_nominal calpath = false) ->
    calibrate_all manualMode chdir list_file raw_header prepareCalibrations makeFlat
      makeSdistortion makeWaveCal directories start stop false s = (r, s') ->
    exists evs,
      trace s' = (trace s ++ evs)%list
      /\ ~ In (Completed 5) evs
      /\ (In (Enter 5) evs -> exists e, r = Raise e).
Proof.
  induction directories as [| [calpath text] directories IH];
    intros start stop s r s' Hdirs H; simpl in H.
  - apply ret_inv in H as [_ ->]. apply short_of_wavelengths_here.
  - assert (Hrest : forall calpath' text',
               In (calpath', text') directories -> getboolean text' = Ok true ->
               binds_nominal calpath' = false)
      by (intros c t Hin; apply Hdirs; right; exact Hin).
    apply bind_inv in H as [(enabled & s1 & H1 & H) | (e & H1 & ->)];
      apply lift_inv in H1 as [Henabled ->]; [| apply short_of_wavelengths_here].
    destruct enabled; [| eapply IH; [exact Hrest | exact H]].
    apply bind_inv in H as [(outcome & s1 & H1 & H) | (e & H1 & ->)];
      apply calibrate_without_wavelengths in H1 as [H1 Hnominal];
      try (apply Hdirs with (text := text); [left; reflexivity | symmetry; exact Henabled]).
    2: { eapply short_of_wavelengths_raise. exact H1. }
    destruct outcome as [[stop' nominal'] |].
    + rewrite (Hnominal _ _ eq_refl) in H. apply IH in H; [| exact Hrest].
      eapply (short_of_wavelengths_step s (Ok (Some (stop', nominal'))));
        [exact H1 | reflexivity | exact H].
    + apply ret_inv in H as [-> ->].
      eapply (short_of_wavelengths_step s (@Ok (option (Z * bool)) None));
        [exact H1 | reflexivity | apply short_of_wavelengths_here].
Qed.

(** X25. No step is entered and nothing is asked in a calibration directory
    unless [chdir] got there, its name tells a known configuration, all five
    lists are there, the first frame of all.list can be opened and
    pinholes.list names a frame: whenever the trace grows, all this held. *)
Theorem steps_need_the_lists_of_the_directory calpath start stop nominal s r s' :
  calibrate manualMode chdir list_file raw_header prepareCalibrations makeFlat
    makeSdistortion makeWaveCal calpath start stop nominal s = (r, s') ->
  trace s' <> trace s ->
  chdir calpath = Ok tt
  /\ is_ok (xd_configuration calpath) = true
  /\ (forall name, In name required_lists -> list_file calpath name <> None)
  /\ (exists frame rest,
        map strip <$> list_file calpath "all.list" = Some (frame :: rest)
        /\ is_ok (raw_header frame) = true)
  /\ list_file calpath "pinholes.list" <> Some [].
Proof.
  intros H Htrace. unfold calibrate in H.
  apply bind_inv in H as [([] & s1 & H1 & H) | (e & H1 & ->)];
    apply lift_inv in H1 as [Hchdir ->]; [| contradiction].
  apply bind_inv in H as [(cfg & s1 & H1 & H) | (e & H1 & ->)];
    apply lift_inv in H1 as [Hcfg ->]; [| contradiction].
  apply bind_inv in H as [(allcalslist & s1 & H1 & H) | (e & H1 & ->)];
    apply required_list_run in H1 as [-> Hall]; [| contradiction].
  apply bind_inv in H as [(frame & s1 & H1 & H) | (e & H1 & ->)];
    apply lift_inv in H1 as [Hframe ->]; [| contradiction].
  apply bind_inv in H as [(arrayid & s1 & H1 & H) | (e & H1 & ->)];
    apply lift_inv in H1 as [Hheader ->]; [| contradiction].
  apply bind_inv in H as [(? & s1 & H1 & H) | (e & H1 & ->)];
    apply required_list_run in H1 as [-> HQH]; [| contradiction].
  apply bind_inv in H as [(? & s1 & H1 & H) | (e & H1 & ->)];
    apply required_list_run in H1 as [-> HIR]; [| contradiction].
  apply bind_inv in H as [(pinholeslist & s1 & H1 & H) | (e & H1 & ->)];
    apply required_list_run in H1 as [-> Hpin]; [| contradiction].
  apply bind_inv in H as [(? & s1 & H1 & H) | (e & H1 & ->)];
    apply lift_inv in H1 as [Hfirst ->]; [| contradiction].
  apply bind_inv in H as [(? & s1 & H1 & H) | (e & H1 & ->)];
    apply required_list_run in H1 as [-> Harcs]; [| contradiction].
  clear H Htrace.
  split; [symmetry; exact Hchdir |].
  split; [rewrite <- Hcfg; reflexivity |].
  destruct (list_file calpath "all.list") as [all |] eqn:Eall; [| discriminate].
  destruct (list_file calpath "QHflats.list") eqn:EQH; [| discriminate].
  destruct (list_file calpath "IRflats.list") eqn:EIR; [| discriminate].
  destruct (list_file calpath "pinholes.list") as [pin |] eqn:Epin; [| discriminate].
  destruct (list_file calpath "arcs.list") eqn:Earcs; [| discriminate].
  split.
  { intros name Hname. simpl in Hname.
    destruct Hname as [<- | [<- | [<- | [<- | [<- | []]]]]]; congruence. }
  split.
  - inversion Hall; subst allcalslist. unfold nth_item in Hframe.
    destruct (map strip all) as [| frame' rest] eqn:Emap; [discriminate |].
    simpl in Hframe. inversion Hframe; subst frame'.
    exists frame, rest. simpl. split; [rewrite Emap; reflexivity |].
    rewrite <- Hheader. reflexivity.
  - inversion Hpin; subst pinholeslist. intros Hnil. inversion Hnil; subst pin.
    discriminate.
Qed.

End DirectoryFacts.

Section BaselineExamples.

Import BaselineCalibration.

Lemma prepare_without_overwrite_keeps_old_frames_witness :
  let run := example_prepare "r" false example_work in
  oldfiles star_match "n" "r" example_work <> []
  /\ fst run = Ok tt /\ files (snd run) = files example_work
  /\ tasks (did (snd run)) = tasks (did example_work).
Proof.
  intros run.
  assert (Hold : oldfiles star_match "n" "r" example_work <> [])
    by (vm_compute; discriminate).
  split; [exact Hold |].
  destruct (prepare_without_overwrite_keeps_old_frames star_match example_iraf
              "QHflats.list" "IRflats.list" "arcs.list" "pinholes.list" false "n" "r"
              "gnirs$data/gnirsn_2012dec05_bpm.fits" example_work (fst run) (snd run)
              (surjective_pairing run)) as (_ & H & _).
  exact (H Hold).
Defined.

Lemma prepare_with_overwrite_starts_clean_witness :
  NoDup (oldfiles star_match "n" "r" example_work)
  /\ example_prepare "r" true example_work
     = prepare_tasks example_iraf "QHflats.list" "IRflats.list" "arcs.list" "pinholes.list"
         false "n" "r" "gnirs$data/gnirsn_2012dec05_bpm.fits"
         (Work (files example_work ∖ list_to_set (oldfiles star_match "n" "r" example_work))
            (did example_work
             ++ (if (0 <? length (oldfiles star_match "n" "r" example_work))%nat
                 then Warn "Removing old files: %sN*.fits and %s%sN*.fits files"
                      :: map Removed (oldfiles star_match "n" "r" example_work)
                 else []))%list)
  /\ forall f,
       f ∈ files example_work ∖ list_to_set (oldfiles star_match "n" "r" example_work) ->
       star_match ("n" +:+ "N*.fits") f = false
       /\ star_match ("r" +:+ "n" +:+ "N*.fits") f = false.
Proof.
  assert (Hnd : NoDup (oldfiles star_match "n" "r" example_work))
    by (apply (bool_decide_unpack _); vm_compute; exact I).
  split; [exact Hnd |].
  exact (prepare_with_overwrite_starts_clean star_match example_iraf
           "QHflats.list" "IRflats.list" "arcs.list" "pinholes.list" false "n" "r"
           "gnirs$data/gnirsn_2012dec05_bpm.fits" example_work Hnd).
Defined.

Lemma prepare_with_overwrite_fails_on_a_frame_found_twice_witness :
  let run := example_prepare "" true example_work in
  ~ NoDup (oldfiles star_match "n" "" example_work)
  /\ (exists f, fst run = Raise (OSError f))
  /\ tasks (did (snd run)) = tasks (did example_work).
Proof.
  intros run.
  assert (Hdup : ~ NoDup (oldfiles star_match "n" "" example_work)).
  { intros H. apply (bool_decide_pack _) in H. vm_compute in H. exact H. }
  split; [exact Hdup |].
  exact (prepare_with_overwrite_fails_on_a_frame_found_twice star_match example_iraf
           "QHflats.list" "IRflats.list" "arcs.list" "pinholes.list" false "n" ""
           "gnirs$data/gnirsn_2012dec05_bpm.fits" example_work (fst run) (snd run)
           Hdup (surjective_pairing run)).
Defined.

Lemma make_flat_without_overwrite_reuses_a_complete_output_witness :
  let run := example_flat example_flats in
  fst run = Ok tt /\ files (snd run) = files example_flats
  /\ tasks (did (snd run)) = tasks (did example_flats).
Proof.
  intros run.
  destruct (make_flat_without_overwrite_reuses_a_complete_output example_iraf
              "n" "r" "QHflats.list" "IRflats.list" "QHflat.fits" "QHflat_bpm.pl"
              "IRflat.fits" "IRflat_bpm.pl" "masterflat.fits" false example_flats
              (fst run) (snd run) (surjective_pairing run)) as (_ & H & _).
  apply H. intros f Hf. simpl in Hf.
  destruct Hf as [<- | [<- | [<- | [<- | [<- | []]]]]];
    apply (bool_decide_unpack _); vm_compute; exact I.
Defined.

Lemma make_flat_without_overwrite_keeps_an_old_master_flat_witness :
  let run := example_flat (Work {[ "masterflat.fits" ]} []) in
  tasks (did (snd run)) = ["nsflat"; "nsflat"]
  /\ "masterflat.fits" ∈ files (snd run)
  /\ exists acts,
       did (snd run) = ([] ++ acts)%list
       /\ Forall (fun task => task = "nsflat") (tasks acts).
Proof.
  intros run. split; [vm_compute; reflexivity |].
  apply (make_flat_without_overwrite_keeps_an_old_master_flat example_iraf
           "n" "r" "QHflats.list" "IRflats.list" "QHflat.fits" "QHflat_bpm.pl" "IRflat.fits"
           "IRflat_bpm.pl" "masterflat.fits" false (Work {[ "masterflat.fits" ]} [])
           (fst run) (snd run)).
  - intros task arguments fs fs' H Hm. unfold example_iraf in H.
    destruct (String.eqb task "nsflat"); [| inversion H; subst; exact Hm].
    destruct arguments as [| a [| [flat |] [| [bpm |] rest]]];
      try (inversion H; subst; exact Hm).
    destruct (bool_decide (flat ∈ fs)); [discriminate |].
    destruct (bool_decide (bpm ∈ fs)); [discriminate |].
    inversion H; subst. apply elem_of_union. right. exact Hm.
  - apply (bool_decide_unpack _). vm_compute. exact I.
  - apply surjective_pairing.
Defined.

Lemma make_flat_runs_nsflat_over_a_flat_without_mask_witness :
  example_flat example_work
  = (Raise (IOError "QHflat.fits"),
     Work (files example_work)
       (did example_work
        ++ [Warn "Old %s exists and -overwrite not set - using existing output for further ";
            Warn "reduction.";
            Iraf "nsflat"
              [Name ("r" +:+ "n" +:+ "//@" +:+ "QHflats.list");
               Name "QHflat.fits"; Name "QHflat_bpm.pl"; Name "4.0"; Flag false;
               Name "5"; Name "median"]])%list).
Proof.
  apply (make_flat_runs_nsflat_over_a_flat_without_mask example_iraf).
  - apply (bool_decide_unpack _). vm_compute. exact I.
  - intros H. apply (bool_decide_pack _) in H. vm_compute in H. exact H.
  - vm_compute. reflexivity.
Defined.

Lemma wavelength_step_needs_a_short_blue_directory_witness :
  let run := example_calibrate_all [("LB_SXD_10_32", "yes")] 1 5 (State [] []) in
  fst run = Raise (UnboundLocalError "nominal_wavelengths")
  /\ exists evs,
       trace (snd run) = ([] ++ evs)%list
       /\ ~ In (Completed 5) evs
       /\ (In (Enter 5) evs -> exists e, fst run = Raise e).
Proof.
  intros run. split; [vm_compute; reflexivity |].
  apply (wavelength_step_needs_a_short_blue_directory false (fun _ => Ok tt)
           example_list_file (fun _ => Ok "SN7638228.1.2") (fun _ _ => Ok tt)
           (fun _ => Ok tt) (fun _ _ _ => Ok tt) (fun _ _ => Ok tt)
           [("LB_SXD_10_32", "yes")] 1 5 (State [] []) (fst run) (snd run)).
  - intros calpath text [Heq | []] _. inversion Heq; subst. vm_compute. reflexivity.
  - apply surjective_pairing.
Defined.

Lemma steps_need_the_lists_of_the_directory_witness :
  let run := example_calibrate "SB_SXD_110" 1 2 (State [] []) in
  trace (snd run) = [Enter 1; Completed 1; Enter 2; Completed 2]
  /\ is_ok (xd_configuration "SB_SXD_110") = true
  /\ (forall name, In name required_lists -> example_list_file "SB_SXD_110" name <> None)
  /\ (exists frame rest,
        map strip <$> example_list_file "SB_SXD_110" "all.list" = Some (frame :: rest)
        /\ is_ok (@Ok string "SN7638228.1.2") = true)
  /\ example_list_file "SB_SXD_110" "pinholes.list" <> Some [].
Proof.
  intros run.
  assert (Htrace : trace (snd run) = [Enter 1; Completed 1; Enter 2; Completed 2])
    by (vm_compute; reflexivity).
  split; [exact Htrace |].
  apply (steps_need_the_lists_of_the_directory false (fun _ => Ok tt)
           example_list_file (fun _ => Ok "SN7638228.1.2") (fun _ _ => Ok tt)
           (fun _ => Ok tt) (fun _ _ _ => Ok tt) (fun _ _ => Ok tt)
           "SB_SXD_110" 1 2 false (State [] []) (fst run) (snd run)).
  - apply surjective_pairing.
  - rewrite Htrace. discriminate.
Defined.

End BaselineExamples.
(** ** The science directories of [FluxCalibrate.start] *)

Section FluxStartFacts.

Import FluxCalibrate.

(** A computation is idle when it changes no file and no header and only
    tells or asks the user. *)
Definition idle {A} (m : M state A) : Prop :=
  forall s r s', m s = (r, s') ->
    fs s' = fs s /\ funits s' = funits s
    /\ exists evs, trace s' = (trace s ++ evs)%list /\ forallb is_note evs = true.

Definition never_returns {A} (m : M state A) : Prop :=
  forall s r s', m s = (r, s') -> exists e, r = Raise e.

Lemma idle_same {A} (m : M state A) :
  (forall s r s', m s = (r, s') -> s' = s) -> idle m.
Proof.
  intros Hm s r s' H. apply Hm in H as ->. repeat split.
  exists []. rewrite app_nil_r. split; reflexivity.
Qed.

Lemma idle_ret {A} (a : A) : idle (Py.ret a).
Proof. apply idle_same. intros s r s' H. apply ret_inv in H as [_ ->]. reflexivity. Qed.

Lemma idle_raise {A} e : idle (@Py.raise state A e).
Proof. apply idle_same. intros s r s' H. apply raise_inv in H as [_ ->]. reflexivity. Qed.

Lemma idle_lift {A} (x : result A) : idle (@Py.lift state A x).
Proof. apply idle_same. intros s r s' H. apply lift_inv in H as [_ ->]. reflexivity. Qed.

Lemma idle_read_global {A} G name (v : A) : idle (read_global (S := state) G name v).
Proof.
  unfold read_global. destruct (bool_decide (name ∈ G)); [apply idle_ret | apply idle_raise].
Qed.

Lemma idle_index {A} (l : list A) i : idle (index l i).
Proof. unfold index. destruct (l !! i); [apply idle_ret | apply idle_raise]. Qed.

Lemma idle_item {K A} `{Countable K} (d : gmap K A) k name : idle (item d k name).
Proof. unfold item. destruct (d !! k); [apply idle_ret | apply idle_raise]. Qed.

Lemma idle_logger lvl msg : idle (logger lvl msg).
Proof.
  intros s r s' H. unfold logger, emit, Py.modify in H. inversion H; subst. simpl.
  repeat split. exists [Log lvl msg]. split; reflexivity.
Qed.

Lemma idle_bind {A B} (m : M state A) (k : A -> M state B) :
  idle m -> (forall a, idle (k a)) -> idle (Py.bind m k).
Proof.
  intros Hm Hk s r s' H.
  apply bind_inv in H as [(a & s1 & H1 & H2) | (e & H1 & _)].
  - apply Hm in H1 as (F1 & U1 & evs1 & E1 & N1).
    apply Hk in H2 as (F2 & U2 & evs2 & E2 & N2).
    split; [congruence |]. split; [congruence |].
    exists (evs1 ++ evs2)%list. split; [rewrite E2, E1, app_assoc; reflexivity |].
    rewrite forallb_app, N1, N2. reflexivity.
  - apply Hm in H1. exact H1.
Qed.

Lemma idle_for_each {A} (l : list A) (body : A -> M state unit) :
  (forall x, idle (body x)) -> idle (for_each l body).
Proof.
  intros Hbody. induction l as [| x l IH]; simpl; [apply idle_ret |].
  apply idle_bind; [apply Hbody | intros _; exact IH].
Qed.

Lemma never_returns_first {A B} (m : M state A) (k : A -> M state B) :
  never_returns m -> never_returns (Py.bind m k).
Proof.
  intros Hm s r s' H.
  apply bind_inv in H as [(a & s1 & H1 & _) | (e & _ & ->)].
  - apply Hm in H1 as [e He]. discriminate.
  - exists e. reflexivity.
Qed.

Lemma never_returns_then {A B} (m : M state A) (k : A -> M state B) :
  (forall a, never_returns (k a)) -> never_returns (Py.bind m k).
Proof.
  intros Hk s r s' H.
  apply bind_inv in H as [(a & s1 & _ & H2) | (e & _ & ->)].
  - eapply Hk. exact H2.
  - exists e. reflexivity.
Qed.

Ltac idle :=
  repeat first
    [ apply idle_ret | apply idle_raise | apply idle_lift | apply idle_read_global
    | apply idle_logger | apply idle_index | apply idle_item
    | apply idle_bind; [| intros ?]
    | match goal with
      | |- idle (if ?c then _ else _) => destruct c
      end ].

Section World.

Variable free : free_names.
Variable cfg : settings.
Variables combinedsrc extractRegularPrefix hLinePrefix : string.
Variables dividedTelContinuumPrefix telluricPrefix : string.
Variable py_float : string -> result float.
Variable py_pow : float -> float -> result float.
Variable pause : string -> result unit.
Variable scale_blackbody : Z -> float -> result unit.
Variable imarith : result unit.
Variable wmef : result unit.
Variable chdir : string -> result unit.
Variable path_exists : string -> string -> bool.
Variable get_orders : string -> result (list Z).
Variable requires : list string -> result unit.
Variable dictify : list (string * string) -> result (gmap string string).
Variable readcsv : string -> result (list (string * gmap string string)).
Variable config_items : string -> result (list (string * string)).
Variable getheader : string -> result (gmap string float).

(** From the pause on, with the names the module binds: the run ends with an
    exception, idle. *)
Lemma calibrate_from_pause_ends (c : settings) :
  idle (calibrate_from_pause bound free c py_float py_pow pause scale_blackbody imarith wmef)
  /\ never_returns
       (calibrate_from_pause bound free c py_float py_pow pause scale_blackbody imarith wmef).
Proof.
  assert (Hrun : forall s,
             let run := calibrate_from_pause bound free c py_float py_pow pause
                          scale_blackbody imarith wmef s in
             (exists e, fst run = Raise e)
             /\ fs (snd run) = fs s /\ funits (snd run) = funits s
             /\ exists evs, trace (snd run) = (trace s ++ evs)%list
                            /\ forallb is_note evs = true).
  { intros s run. unfold run. clear run. rewrite calibrate_from_pause_cases.
    destruct (pause stop_here) as [[] | e0].
    2: { simpl. split; [eexists; reflexivity |]. repeat split.
         eexists. split; reflexivity. }
    destruct (String.eqb (fluxCalibrationMethod c) "fluxcalibrator").
    { simpl. split; [eexists; reflexivity |]. repeat split.
      eexists. rewrite <- app_assoc. split; reflexivity. }
    destruct (String.eqb (fluxCalibrationMethod c) "telluricapproximate").
    2: { simpl. split; [eexists; reflexivity |]. repeat split.
         eexists. rewrite <- app_assoc. split; reflexivity. }
    pose proof (telluricapproximate_unbound free c py_float py_pow pause scale_blackbody
                  imarith wmef (paused s)) as (Hfs & Hfu & Htr & Hres).
    cbv zeta in Hfs, Hfu, Htr, Hres.
    destruct (telluricapproximate bound free c py_float py_pow pause scale_blackbody
                imarith wmef (paused s)) as [r s'].
    simpl in Hfs, Hfu, Htr, Hres. simpl. split.
    { destruct (pause "About to start flux calibration") as [[] | e];
        [destruct (std_pars c !! "Temperature") |]; eexists; exact Hres. }
    split; [exact Hfs |]. split; [exact Hfu |].
    eexists. rewrite Htr, <- app_assoc. split; reflexivity. }
  split.
  - intros s r s' H. specialize (Hrun s). cbv zeta in Hrun. rewrite H in Hrun.
    destruct Hrun as (_ & Hfs & Hfu & Hevs). repeat split; assumption.
  - intros s r s' H. specialize (Hrun s). cbv zeta in Hrun. rewrite H in Hrun.
    destruct Hrun as (He & _). exact He.
Qed.

Lemma idle_standard_path scipath : idle (standard_path bound cfg path_exists scipath).
Proof. unfold standard_path. idle. Qed.

Lemma idle_science_directory scipath :
  idle (science_directory bound free cfg combinedsrc extractRegularPrefix hLinePrefix
          dividedTelContinuumPrefix telluricPrefix py_float py_pow pause scale_blackbody
          imarith wmef chdir path_exists get_orders requires dictify readcsv config_items
          getheader scipath).
Proof.
  unfold science_directory.
  repeat first
    [ apply idle_standard_path
    | apply (proj1 (calibrate_from_pause_ends _))
    | apply idle_ret | apply idle_raise | apply idle_lift | apply idle_read_global
    | apply idle_logger | apply idle_index | apply idle_item
    | apply idle_bind; [| intros ?] ].
Qed.

Lemma science_directory_never_returns scipath :
  never_returns
    (science_directory bound free cfg combinedsrc extractRegularPrefix hLinePrefix
       dividedTelContinuumPrefix telluricPrefix py_float py_pow pause scale_blackbody
       imarith wmef chdir path_exists get_orders requires dictify readcsv config_items
       getheader scipath).
Proof.
  unfold science_directory.
  repeat first
    [ apply never_returns_first, (proj2 (calibrate_from_pause_ends _))
    | apply never_returns_then; intros ? ].
Qed.

(** X26. [start] calibrates nothing: whatever the directories hold, it changes
    no file and no header and only tells and asks the user, since a directory
    that is turned on ends the run with an exception.  It returns exactly when
    every science directory is turned off and the return to the first
    directory succeeds. *)
Theorem flux_start_returns_only_when_every_directory_is_off path directories s r s' :
  start bound free cfg combinedsrc extractRegularPrefix hLinePrefix
    dividedTelContinuumPrefix telluricPrefix py_float py_pow pause scale_blackbody
    imarith wmef chdir path_exists get_orders requires dictify readcsv config_items
    getheader path directories s = (r, s') ->
  fs s' = fs s /\ funits s' = funits s
  /\ (exists evs, trace s' = (trace s ++ evs)%list /\ forallb is_note evs = true)
  /\ (r = Ok tt
      <-> Forall (fun d => getboolean (snd d) = Ok false) directories
          /\ chdir path = Ok tt).
Proof.
  intros H.
  assert (Hidle : idle (start bound free cfg combinedsrc extractRegularPrefix hLinePrefix
                          dividedTelContinuumPrefix telluricPrefix py_float py_pow pause
                          scale_blackbody imarith wmef chdir path_exists get_orders requires
                          dictify readcsv config_items getheader path directories)).
  { unfold start, science_directories.
    apply idle_bind; [| intros _; idle].
    apply idle_for_each. intros d.
    apply idle_bind; [apply idle_lift | intros enabled].
    destruct enabled; [apply idle_science_directory | apply idle_logger]. }
  destruct (Hidle _ _ _ H) as (Hfs & Hfu & Hevs).
  split; [exact Hfs |]. split; [exact Hfu |]. split; [exact Hevs |].
  clear Hidle Hfs Hfu Hevs. unfold start in H.
  assert (Hloop : forall t rt t',
             science_directories bound free cfg combinedsrc extractRegularPrefix hLinePrefix
               dividedTelContinuumPrefix telluricPrefix py_float py_pow pause
               scale_blackbody imarith wmef chdir path_exists get_orders requires dictify
               readcsv config_items getheader directories t = (rt, t') ->
             rt = Ok tt <-> Forall (fun d => getboolean (snd d) = Ok false) directories).
  { unfold science_directories. clear H.
    induction directories as [| d ds IH]; intros t rt t' Ht; simpl in Ht.
    - apply ret_inv in Ht as [-> _]. split; [constructor | reflexivity].
    - apply bind_inv in Ht as [([] & t1 & H1 & Ht) | (e & H1 & ->)].
      + apply bind_inv in H1 as [(enabled & t2 & H2 & H1) | (e & _ & H1)];
          [| discriminate].
        apply lift_inv in H2 as [H2 ->].
        destruct enabled.
        { apply science_directory_never_returns in H1 as [e He]. discriminate. }
        rewrite (IH _ _ _ Ht). split.
        * intros Hds. constructor; [symmetry; exact H2 | exact Hds].
        * intros Hds. apply Forall_cons in Hds as [_ Hds]. exact Hds.
      + split; [discriminate |]. intros Hds. apply Forall_cons in Hds as [Hd _].
        exfalso.
        apply bind_inv in H1 as [(enabled & t2 & H2 & H1) | (e' & H2 & He)].
        * apply lift_inv in H2 as [H2 ->]. rewrite Hd in H2. inversion H2; subst enabled.
          unfold logger, emit, Py.modify in H1. discriminate.
        * apply lift_inv in H2 as [H2 _]. rewrite Hd in H2. discriminate. }
  apply bind_inv in H as [([] & s1 & H1 & H) | (e & H1 & ->)].
  - apply Hloop in H1. rewrite (flux_read_bound "os") in H by reflexivity.
    unfold Py.bind, Py.ret, Py.lift in H. inversion H; subst.
    split.
    + intros Hr. split; [apply H1; reflexivity |].
      destruct (chdir path) as [[] | e]; [reflexivity | discriminate].
    + intros [_ ->]. reflexivity.
  - apply Hloop in H1. split; [discriminate |]. intros [Hds _].
    apply H1 in Hds. discriminate.
Qed.

End World.

Lemma int_raises key e : int key = Raise e -> e = ValueError.
Proof.
  unfold int. intros H.
  destruct (strip key) as [| c rest]; [destruct (unsigned ""); congruence |].
  destruct (Ascii.eqb_spec c "-") as [-> |];
    [destruct (unsigned rest); congruence |].
  destruct (Ascii.eqb_spec c "+") as [-> |];
    [destruct (unsigned rest); congruence |].
  assert (Hrest : match unsigned (String c rest) with
                  | Some n => Ok n
                  | None => Raise ValueError
                  end = Raise e).
  { destruct c as [[] [] [] [] [] [] [] []]; try exact H; congruence. }
  destruct (unsigned (String c rest)); congruence.
Qed.

Lemma zero_fluxes_fold (items : list (string * string)) :
  forall (d0 : gmap Z string) (s : state) r s',
    fold_m (fun d kv =>
              Py.bind (Py.lift (int (fst kv))) (fun order =>
              Py.ret (<[order := snd kv]> d)))
      items d0 s = (r, s') ->
    s' = s
    /\ match r with
       | Ok d =>
           Forall (fun kv => is_ok (int (fst kv)) = true) items
           /\ forall order,
               d !! order
               = match last (List.filter (fun kv => reads_as order (fst kv)) items) with
                 | Some kv => Some (snd kv)
                 | None => d0 !! order
                 end
       | Raise e =>
           e = ValueError /\ Exists (fun kv => int (fst kv) = Raise ValueError) items
       end.
Proof.
  induction items as [| [key value] items IH]; intros d0 s r s' H; simpl in H.
  - apply ret_inv in H as [-> ->]. split; [reflexivity |].
    split; [constructor | reflexivity].
  - apply bind_inv in H as [(d1 & s1 & H1 & H) | (e & H1 & ->)].
    + apply bind_inv in H1 as [(n & s2 & H2 & H1) | (e & _ & H1)]; [| discriminate].
      apply lift_inv in H2 as [Hint ->]. apply ret_inv in H1 as [H1 ->].
      inversion H1; subst d1. clear H1. simpl in Hint.
      apply IH in H as [-> H]. split; [reflexivity |].
      destruct r as [d | e].
      * destruct H as [Hall Hd]. split.
        { constructor; [simpl; rewrite <- Hint; reflexivity | exact Hall]. }
        intros order. rewrite Hd. simpl. unfold reads_as at 2. simpl. rewrite <- Hint.
        destruct (Z.eqb_spec n order) as [-> | Hne].
        -- rewrite last_cons.
           destruct (last (List.filter (fun kv => reads_as order (fst kv)) items));
             [reflexivity | apply lookup_insert_eq].
        -- destruct (last (List.filter (fun kv => reads_as order (fst kv)) items));
             [reflexivity | apply lookup_insert_ne; exact Hne].
      * destruct H as [-> H]. split; [reflexivity |]. apply Exists_cons_tl. exact H.
    + apply bind_inv in H1 as [(n & s2 & H2 & H1) | (e' & H2 & He)].
      * apply ret_inv in H1 as [H1 _]. discriminate.
      * apply lift_inv in H2 as [Hint ->]. inversion He; subst e'. simpl in Hint.
        symmetry in Hint. pose proof (int_raises _ _ Hint) as ->.
        split; [reflexivity |]. split; [reflexivity |].
        apply Exists_cons_hd. exact Hint.
Qed.

(** X27. The table of the zero-magnitude fluxes holds, for an order, the flux
    of the last item whose key reads as that order, blanks and a sign apart,
    and nothing for an order that no key reads as.  The table is made exactly
    when every key reads as an integer; else the error is [ValueError].  The
    state is left as it was. *)
Theorem zero_fluxes_are_of_the_last_item (cfg : settings) s r s' :
  read_zero_fluxes cfg s = (r, s') ->
  s' = s
  /\ match r with
     | Ok d =>
         Forall (fun kv => is_ok (int (fst kv)) = true) (zeroMagnitudeFluxes_items cfg)
         /\ forall order,
             d !! order
             = snd <$> last (List.filter (fun kv => reads_as order (fst kv))
                               (zeroMagnitudeFluxes_items cfg))
     | Raise e =>
         e = ValueError
         /\ Exists (fun kv => int (fst kv) = Raise ValueError) (zeroMagnitudeFluxes_items cfg)
     end.
Proof.
  unfold read_zero_fluxes. intros H. apply zero_fluxes_fold in H as [-> H].
  split; [reflexivity |]. destruct r as [d | e]; [| exact H].
  destruct H as [Hall Hd]. split; [exact Hall |]. intros order. rewrite Hd.
  destruct (last (List.filter (fun kv => reads_as order (fst kv))
                    (zeroMagnitudeFluxes_items cfg))); [reflexivity |].
  apply lookup_empty.
Qed.

End FluxStartFacts.

Section FluxStartExamples.

Import FluxCalibrate.

Lemma flux_start_returns_only_when_every_directory_is_off_witness :
  fst (example_start [("obj/20110516/SXD", "no")]) = Ok tt
  /\ fst (example_start [("obj/20110516/SXD", "yes")]) <> Ok tt.
Proof.
  split.
  - set (run := example_start [("obj/20110516/SXD", "no")]).
    destruct (flux_start_returns_only_when_every_directory_is_off
                (example_free "") (example_settings true {[ "Temperature" := "9700" ]})
                "src_comb.fits" "v" "h" "d" "u"
                float_of_string (fun _ _ => Raise OverflowError) (fun _ => Ok tt)
                (fun _ _ => Ok tt) (Ok tt) (Ok tt)
                (fun _ => Ok tt) (fun _ _ => true) (fun _ => Ok [3%Z]) (fun _ => Ok tt)
                (fun _ => Ok {[ "Temperature" := "9700" ]})
                (fun _ => Ok [("N20110516S0170.fits", {[ "OBJECT" := "HIP 58616" ]})])
                (fun _ => Ok [("Temperature", "9700")])
                (fun _ => Ok {[ "EXPTIME" := 5%float ]})
                "/data" [("obj/20110516/SXD", "no")] (State ∅ ∅ []) (fst run) (snd run)
                (surjective_pairing run)) as (_ & _ & _ & Hiff).
    apply Hiff. split; [| reflexivity].
    constructor; [vm_compute; reflexivity | constructor].
  - set (run := example_start [("obj/20110516/SXD", "yes")]).
    destruct (flux_start_returns_only_when_every_directory_is_off
                (example_free "") (example_settings true {[ "Temperature" := "9700" ]})
                "src_comb.fits" "v" "h" "d" "u"
                float_of_string (fun _ _ => Raise OverflowError) (fun _ => Ok tt)
                (fun _ _ => Ok tt) (Ok tt) (Ok tt)
                (fun _ => Ok tt) (fun _ _ => true) (fun _ => Ok [3%Z]) (fun _ => Ok tt)
                (fun _ => Ok {[ "Temperature" := "9700" ]})
                (fun _ => Ok [("N20110516S0170.fits", {[ "OBJECT" := "HIP 58616" ]})])
                (fun _ => Ok [("Temperature", "9700")])
                (fun _ => Ok {[ "EXPTIME" := 5%float ]})
                "/data" [("obj/20110516/SXD", "yes")] (State ∅ ∅ []) (fst run) (snd run)
                (surjective_pairing run)) as (_ & _ & _ & Hiff).
    intros Hr. apply Hiff in Hr as [Hoff _].
    apply Forall_cons in Hoff as [Hoff _]. vm_compute in Hoff. discriminate.
Defined.

Lemma zero_fluxes_are_of_the_last_item_witness :
  let run := read_zero_fluxes example_fluxes (State ∅ ∅ []) in
  match fst run with
  | Ok d => d !! 3%Z = Some "2.0e-10" /\ d !! 4%Z = Some "5.0e-11" /\ d !! 5%Z = None
  | Raise _ => False
  end.
Proof.
  intros run.
  destruct (zero_fluxes_are_of_the_last_item example_fluxes (State ∅ ∅ [])
              (fst run) (snd run) (surjective_pairing run)) as [_ H].
  assert (Hok : is_ok (fst run) = true) by (vm_compute; reflexivity).
  destruct (fst run) as [d | e]; [| discriminate].
  destruct H as [_ H]. rewrite !H. repeat split; vm_compute; reflexivity.
Defined.

End FluxStartExamples.
